(** * spHelper.js: query compilation, paginated retrieval and write-path
      value mapping

    A shallow embedding of [src/src/spHelper.js] (class [spHelper]):
    - [loadListData]: the CAML query built from a query descriptor, and the
      projection of the returned items into rows;
    - [getListData]: the retrieval loop that follows the 5000-item cap;
    - [updateListItem] and [addListItem]: the mapping of column descriptors
      to SharePoint field values.

    JavaScript values are modelled by [jsval]; the SharePoint object model
    (the SP namespace), which is not part of the repository, is modelled at its boundary:
    what a request carries, what a reply carries, and which calls may throw. *)

From Stdlib Require Import ZArith Ascii String List Lia.
From stdpp Require Import base option list strings pretty gmap.
Import ListNotations.
Local Open Scope Z_scope.
Set Warnings "-register-all,-abstract-large-number".

(** ** The fragment of JavaScript the code relies on *)

Module JS.

(** Values. [JNum z] is the integer [z], which a double holds exactly, and
    prints in decimal, for a magnitude below 2^53; [JNaN] is the one other
    number modelled. Strings are sequences of ASCII characters. Objects
    other than arrays are not modelled. An absent property reads as
    [JUndefined]. *)
Inductive jsval : Type :=
| JUndefined
| JNull
| JBool (b : bool)
| JNum (z : Z)
| JNaN
| JStr (s : string)
| JArr (l : list jsval).

(** Exceptions. The text of an engine or host error is engine-specific, so
    [throw 'prefix' + error] keeps the caught error as a subterm. *)
Inductive exn : Type :=
| TypeError                                (* raised by the engine *)
| HostError (op : string)                  (* raised by the SP call [op] *)
| Thrown (s : string)                      (* throw 'text' *)
| ThrownCat (prefix : string) (cause : exn). (* throw 'prefix' + error *)

Inductive result (A : Type) : Type :=
| Ok (a : A)
| Throw (e : exn).
Arguments Ok {A} a.
Arguments Throw {A} e.

Definition bind {A B} (r : result A) (k : A -> result B) : result B :=
  match r with
  | Ok a => k a
  | Throw e => Throw e
  end.

(** Sequencing of statements that may throw: [x <- e ;; k] runs [k] on the
    value of [e] unless [e] throws. *)
Notation "x <- e ;; k" := (bind e (fun x => k))
  (at level 100, e at next level, right associativity).

(** [try { body } catch (error) { throw prefix + error }] *)
Definition try_catch_rethrow {A} (prefix : string) (body : result A) : result A :=
  match body with
  | Ok a => Ok a
  | Throw e => Throw (ThrownCat prefix e)
  end.

(** [typeof v == 'undefined'] *)
Definition is_undefined (v : jsval) : bool :=
  match v with JUndefined => true | _ => false end.

(** Array.prototype.join: undefined and null elements print as the empty
    string. *)
Fixpoint join (sep : string) (parts : list string) : string :=
  match parts with
  | [] => ""
  | [p] => p
  | p :: rest => p +:+ sep +:+ join sep rest
  end.

(** ToString, as applied by a template literal [`${v}`] and by
    [Array.prototype.toString]. *)
Fixpoint to_string (v : jsval) : string :=
  match v with
  | JUndefined => "undefined"
  | JNull => "null"
  | JBool true => "true"
  | JBool false => "false"
  | JNum z => pretty z
  | JNaN => "NaN"
  | JStr s => s
  | JArr l =>
      join "," (List.map (fun x => match x with
                                   | JUndefined | JNull => ""
                                   | _ => to_string x
                                   end) l)
  end.

(** [v.constructor.name]; reading [constructor] off undefined or null is a
    TypeError. *)
Definition constructor_name (v : jsval) : result string :=
  match v with
  | JUndefined | JNull => Throw TypeError
  | JBool _ => Ok "Boolean"
  | JNum _ | JNaN => Ok "Number"
  | JStr _ => Ok "String"
  | JArr _ => Ok "Array"
  end.

(** [toLowerCase] on ASCII characters: [A]-[Z] become [a]-[z]. *)
Definition lower_ascii (a : ascii) : ascii :=
  let n := nat_of_ascii a in
  if andb (Nat.leb 65 n) (Nat.leb n 90) then ascii_of_nat (n + 32) else a.

Fixpoint lower (s : string) : string :=
  match s with
  | EmptyString => EmptyString
  | String a s' => String (lower_ascii a) (lower s')
  end.

(** [v.toLowerCase()]: only strings have the method. *)
Definition toLowerCase (v : jsval) : result string :=
  match v with
  | JStr s => Ok (lower s)
  | _ => Throw TypeError
  end.

(** [v.forEach(f)] exists on arrays only; the elements are visited in
    index order. *)
Definition forEach_elements (v : jsval) : result (list jsval) :=
  match v with
  | JArr l => Ok l
  | _ => Throw TypeError
  end.

(** [a === b] between a value and a string literal. *)
Definition strict_eq_str (v : jsval) (s : string) : bool :=
  match v with
  | JStr t => bool_decide (t = s)
  | _ => false
  end.

(** *** isNaN

    [isNaN(v)] is [true] exactly when ToNumber(v) is NaN. On a string,
    ToNumber yields NaN exactly when the string is not a
    StringNumericLiteral: optional white space around either nothing (the
    empty literal is 0), a signed decimal literal, [Infinity], or an
    unsigned hexadecimal, octal or binary integer literal. *)

Definition is_ws (a : ascii) : bool :=
  let n := nat_of_ascii a in
  orb (andb (Nat.leb 9 n) (Nat.leb n 13)) (Nat.eqb n 32).

Definition is_digit (a : ascii) : bool :=
  let n := nat_of_ascii a in andb (Nat.leb 48 n) (Nat.leb n 57).

Definition is_octal_digit (a : ascii) : bool :=
  let n := nat_of_ascii a in andb (Nat.leb 48 n) (Nat.leb n 55).

Definition is_binary_digit (a : ascii) : bool :=
  let n := nat_of_ascii a in andb (Nat.leb 48 n) (Nat.leb n 49).

Definition is_hex_digit (a : ascii) : bool :=
  let n := nat_of_ascii a in
  orb (is_digit a)
      (orb (andb (Nat.leb 65 n) (Nat.leb n 70))
           (andb (Nat.leb 97 n) (Nat.leb n 102))).

Fixpoint drop_while (p : ascii -> bool) (l : list ascii) : list ascii :=
  match l with
  | a :: l' => if p a then drop_while p l' else l
  | [] => []
  end.

Definition trim (l : list ascii) : list ascii :=
  rev (drop_while is_ws (rev (drop_while is_ws l))).

(** One or more characters, all satisfying [p]. *)
Definition all_of (p : ascii -> bool) (l : list ascii) : bool :=
  match l with
  | [] => false
  | _ => forallb p l
  end.

Definition one_of (chars : string) (a : ascii) : bool :=
  existsb (Ascii.eqb a) (list_ascii_of_string chars).

(** ExponentPart, optional: nothing, or [e]/[E], an optional sign and
    digits. *)
Definition exponent_opt (l : list ascii) : bool :=
  match l with
  | [] => true
  | e :: rest =>
      andb (one_of "eE" e)
           (match rest with
            | sign :: ds =>
                if one_of "+-" sign then all_of is_digit ds
                else all_of is_digit rest
            | [] => false
            end)
  end.

(** StrUnsignedDecimalLiteral: [Infinity], [. digits exponent?] or
    [digits (. digits?)? exponent?]. *)
Definition unsigned_decimal (l : list ascii) : bool :=
  if bool_decide (l = list_ascii_of_string "Infinity") then true
  else
    match l with
    | a :: rest =>
        if Ascii.eqb a "."
        then
          let tail := drop_while is_digit rest in
          andb (negb (bool_decide (tail = rest))) (exponent_opt tail)
        else
          let tail := drop_while is_digit l in
          andb (negb (bool_decide (tail = l)))
               (match tail with
                | d :: frac =>
                    if Ascii.eqb d "." then exponent_opt (drop_while is_digit frac)
                    else exponent_opt tail
                | [] => true
                end)
    | [] => false
    end.

(** The digits of a [0x], [0o] or [0b] literal, with their digit class. *)
Definition radix_literal (l : list ascii) : option ((ascii -> bool) * list ascii) :=
  match l with
  | z :: r :: ds =>
      if Ascii.eqb z "0"
      then if one_of "xX" r then Some (is_hex_digit, ds)
           else if one_of "oO" r then Some (is_octal_digit, ds)
           else if one_of "bB" r then Some (is_binary_digit, ds)
           else None
      else None
  | _ => None
  end.

Definition numeric_literal (l : list ascii) : bool :=
  match l with
  | [] => true
  | a :: rest =>
      match radix_literal l with
      | Some (digit, ds) => all_of digit ds
      | None =>
          if one_of "+-" a then unsigned_decimal rest else unsigned_decimal l
      end
  end.

Definition string_is_numeric (s : string) : bool :=
  numeric_literal (trim (list_ascii_of_string s)).

Definition isNaN (v : jsval) : bool :=
  match v with
  | JUndefined => true
  | JNull => false
  | JBool _ => false
  | JNum _ => false
  | JNaN => true
  | JStr s => negb (string_is_numeric s)
  | JArr _ => negb (string_is_numeric (to_string v))
  end.

End JS.
Export JS.


(** ** The query document built by [loadListData] (lines 288-462)

    The source builds [customQuery] by appending template literals. Each
    appended fragment is a [piece]; [render] gives its text, and the query
    string is the concatenation of the rendered pieces. *)

Module Caml.

(** [<FieldRef Name='c'/>] (line 334) or [<FieldRef Name='c' />] (lines 373,
    397, 419). *)
Inductive ref_style : Type := Tight | Spaced.

Inductive piece : Type :=
| Lit (text : string)
    (* a fixed fragment *)
| ViewField (name : string)
    (* <FieldRef Name='name' />, inside <ViewFields> *)
| Open (op : string)
    (* <op> *)
| Close (op : string)
    (* </op> *)
| FieldRef (name : string) (lookupId : bool) (style : ref_style)
    (* <FieldRef Name='name' LookupId='TRUE'/> when [lookupId], else the
       plain reference in the given style *)
| ValueElem (type : string) (text : string)
    (* <Value Type='type'>text</Value> *)
| Joins (direction list joinColumn : string)
    (* the <Joins> block of lines 442-450 *)
| ProjectedField (column list : string).
    (* <Field ShowField=... Type="Lookup" Name=... List=... /> *)

Definition dq : string := String (ascii_of_nat 34) EmptyString.
Definition nl : string := String (ascii_of_nat 10) EmptyString.

Fixpoint spaces (n : nat) : string :=
  match n with
  | O => EmptyString
  | S n' => String " "%char (spaces n')
  end.

(** A line of the multi-line template literal: newline, indentation, text. *)
Definition line (indent : nat) (text : string) : string :=
  nl +:+ spaces indent +:+ text.

Definition render (p : piece) : string :=
  match p with
  | Lit text => text
  | ViewField name => "<FieldRef Name='" +:+ name +:+ "' />"
  | Open op => "<" +:+ op +:+ ">"
  | Close op => "</" +:+ op +:+ ">"
  | FieldRef name true _ => "<FieldRef Name='" +:+ name +:+ "' LookupId='TRUE'/>"
  | FieldRef name false Tight => "<FieldRef Name='" +:+ name +:+ "'/>"
  | FieldRef name false Spaced => "<FieldRef Name='" +:+ name +:+ "' />"
  | ValueElem type text => "<Value Type='" +:+ type +:+ "'>" +:+ text +:+ "</Value>"
  | Joins direction list joinColumn =>
      line 20 "<Joins>"
      +:+ line 24 ("<Join Type=" +:+ dq +:+ direction +:+ dq
                   +:+ " ListAlias=" +:+ dq +:+ list +:+ dq +:+ ">")
      +:+ line 28 "<Eq>"
      +:+ line 32 ("<FieldRef Name=" +:+ dq +:+ joinColumn +:+ dq
                   +:+ " RefType=" +:+ dq +:+ "Id" +:+ dq +:+ " />")
      +:+ line 32 ("<FieldRef Name=" +:+ dq +:+ "ID" +:+ dq
                   +:+ " List=" +:+ dq +:+ list +:+ dq +:+ " />")
      +:+ line 28 "</Eq>"
      +:+ line 24 "</Join>"
      +:+ line 20 "</Joins>"
  | ProjectedField column list =>
      "<Field ShowField=" +:+ dq +:+ column +:+ dq
      +:+ " Type=" +:+ dq +:+ "Lookup" +:+ dq
      +:+ " Name=" +:+ dq +:+ column +:+ dq
      +:+ " List=" +:+ dq +:+ list +:+ dq +:+ " />"
  end.

Definition render_all (ps : list piece) : string :=
  fold_right (fun p acc => render p +:+ acc) EmptyString ps.

(** An entry of [where.values], and the [where] object itself, which has
    the same four properties and optionally [values]. *)
Record where_leaf : Type := {
  column : jsval;
  operation : jsval;
  value : jsval;
  type : jsval
}.

Record where_clause : Type := {
  leaf : where_leaf;
  values : option (list where_leaf)
}.

(** Lines 307-311: [queryDetails.where.value = ''] when it is undefined.
    The assignment is made on the caller's object. *)
Definition default_value (w : where_clause) : where_clause :=
  if is_undefined (value (leaf w))
  then {| leaf := {| column := column (leaf w);
                     operation := operation (leaf w);
                     value := JStr "";
                     type := type (leaf w) |};
          values := values w |}
  else w.

(** Runs the bodies of a [forEach] in order; the first exception ends it. *)
Fixpoint for_each {A} (body : A -> result (list piece)) (l : list A)
  : result (list piece) :=
  match l with
  | [] => Ok []
  | x :: rest =>
      ps <- body x ;;
      qs <- for_each body rest ;;
      Ok (ps ++ qs)
  end.

(** Lines 322-338: one entry of [where.values]. *)
Definition compile_entry (v : where_leaf) : result (list piece) :=
  t <- toLowerCase (type v) ;;
  Ok ([Open (to_string (operation v))]
      ++ (if andb (bool_decide (t = "lookup")) (negb (isNaN (value v)))
          then [FieldRef (to_string (column v)) true Tight; Lit " ";
                ValueElem (to_string (type v)) (to_string (value v))]
          else [FieldRef (to_string (column v)) false Tight; Lit " ";
                ValueElem (to_string (type v)) (to_string (value v))])
      ++ [Close (to_string (operation v))]).

(** Lines 375-378 and 402-405: one [<Value>] per element of [where.value],
    in index order. *)
Definition value_elements (ty : jsval) (vs : list jsval) : list piece :=
  List.map (fun v => ValueElem (to_string ty) (to_string v)) vs.

(** [Math.ceil(n / 60)] for an array length [n]. *)
Definition ceil_div60 (n : Z) : Z :=
  if n mod 60 =? 0 then n / 60 else n / 60 + 1.

(** [where.value.length], for an array. *)
Definition array_length (v : jsval) : Z :=
  match v with
  | JArr l => Z.of_nat (length l)
  | _ => 0
  end.

(** [where.value[0]] *)
Definition first_element (v : jsval) : jsval :=
  match v with
  | JArr (x :: _) => x
  | _ => JUndefined
  end.

(** Lines 371-381: the body of the batch loop, the same for every [i]. *)
Definition batch_clause (l : where_leaf) (i : nat) : result (list piece) :=
  vs <- forEach_elements (value l) ;;
  Ok ([Lit "<In> "; FieldRef (to_string (column l)) false Spaced; Lit " <Values>"]
      ++ value_elements (type l) vs
      ++ [Lit "</Values></In>"]).

(** Lines 389-407: the reference and the [<Values>] of a leaf whose value
    is an array. *)
Definition multi_value_body (l : where_leaf) : result (list piece) :=
  t <- toLowerCase (type l) ;;
  vs <- forEach_elements (value l) ;;
  Ok ((if andb (bool_decide (t = "lookup"))
               (negb (isNaN (first_element (value l))))
       then [Lit " "; FieldRef (to_string (column l)) true Tight]
       else [Lit " "; FieldRef (to_string (column l)) false Spaced])
      ++ [Lit "<Values>"]
      ++ value_elements (type l) vs
      ++ [Lit "</Values>"]).

(** Lines 411-425: the reference and the [<Value>] of a leaf whose value
    is not an array. *)
Definition single_value_body (l : where_leaf) : result (list piece) :=
  byId <- (if is_undefined (type l) then Ok false
           else t <- toLowerCase (type l) ;;
                Ok (andb (bool_decide (t = "lookup")) (negb (isNaN (value l))))) ;;
  Ok ((if byId
       then [Lit " "; FieldRef (to_string (column l)) true Tight]
       else [Lit " "; FieldRef (to_string (column l)) false Spaced])
      ++ (if andb (negb (is_undefined (type l)))
                  (negb (is_undefined (value l)))
          then [ValueElem (to_string (type l)) (to_string (value l))]
          else [])).

(** Lines 385-428: the clause emitted when the batching fix is not
    required. *)
Definition plain_clause (l : where_leaf) (multiWhereValue : bool)
  : result (list piece) :=
  body <- (if multiWhereValue then multi_value_body l else single_value_body l) ;;
  Ok ([Open (to_string (operation l))] ++ body
      ++ [Close (to_string (operation l))]).

(** Lines 320-340: the [where.values] form. *)
Definition compound_clause (w : where_clause) (entries : list where_leaf)
  : result (list piece) :=
  ps <- for_each compile_entry entries ;;
  Ok ([Open (to_string (operation (leaf w)))] ++ ps
      ++ [Close (to_string (operation (leaf w)))]).

(** Lines 344-434: the single-column form. *)
Definition leaf_clause (l : where_leaf) : result (list piece) :=
  cn <- constructor_name (value l) ;;
  let multiWhereValue := bool_decide (cn = "Array") in
  op <- toLowerCase (operation l) ;;
  let camlWhereInFix :=
    andb (bool_decide (op = "in"))
         (andb multiWhereValue (60 <? array_length (value l))) in
  let batches :=
    if camlWhereInFix then ceil_div60 (array_length (value l)) else 0 in
  if camlWhereInFix
  then
    ps <- for_each (batch_clause l) (seq 0 (Z.to_nat batches)) ;;
    Ok ([Lit "<Or>"] ++ ps ++ [Lit "</Or>"])
  else plain_clause l multiWhereValue.

(** Lines 313-437, on the [where] object after [default_value]. *)
Definition compile_where (w : where_clause) : result (list piece) :=
  body <- match values w with
          | Some entries => compound_clause w entries
          | None => leaf_clause (leaf w)
          end ;;
  Ok ([Lit "<Query> <Where>"] ++ body ++ [Lit "</Where></Query>"]).

Record join_details : Type := {
  direction : jsval;
  joinList : jsval;      (* [join.list] *)
  joinColumn : jsval;
  getColumns : list string   (* absent: the for-in loop runs no iteration *)
}.

(** Lines 440-460. *)
Definition compile_join (j : join_details) : list piece :=
  [Joins (to_string (direction j)) (to_string (joinList j)) (to_string (joinColumn j));
   Lit "<ProjectedFields>"]
  ++ List.map (fun c => ProjectedField c (to_string (joinList j))) (getColumns j)
  ++ [Lit "</ProjectedFields>"].

(** Lines 288-462: the pieces of [customQuery], given the columns, the
    [where] object (already defaulted) and the join. *)
Definition customQuery (listColumns : list string)
    (where_ : option where_clause) (join_ : option join_details)
  : result (list piece) :=
  wh <- match where_ with
        | Some w => compile_where w
        | None => Ok []
        end ;;
  Ok ([Lit "<View Scope='RecursiveAll'>"; Lit "<ViewFields>"]
      ++ List.map ViewField listColumns
      ++ [Lit "</ViewFields>"]
      ++ wh
      ++ (match join_ with Some j => compile_join j | None => [] end)
      ++ [Lit "</View>"]).

End Caml.
Export Caml.


(** ** Retrieval: [loadListData] (lines 256-538) and [getListData]
       (lines 195-243) *)

Module Retrieval.

Record queryDetails : Type := {
  listName : option string;
  listGuid : option string;
  listColumns : option (list string);
  query : option string;
  where_ : option where_clause;         (* [queryDetails.where] *)
  join : option join_details;
  pagePosition : option Z
}.

Definition set_pagePosition (p : option Z) (q : queryDetails) : queryDetails :=
  {| listName := listName q; listGuid := listGuid q;
     listColumns := listColumns q; query := query q;
     where_ := where_ q; join := join q; pagePosition := p |}.

Definition set_where (w : option where_clause) (q : queryDetails) : queryDetails :=
  {| listName := listName q; listGuid := listGuid q;
     listColumns := listColumns q; query := query q;
     where_ := w; join := join q; pagePosition := pagePosition q |}.

(** [get_lists().getByTitle(listName)] or [get_lists().getById(listGuid)] *)
Inductive list_handle : Type :=
| getByTitle (title : string)
| getById (guid : string).

(** What one call of [executeQueryAsync] is asked for: the list, the view
    XML, the paging position [p] of [Paged=TRUE&p_ID=p] and the columns of
    [Include(...)]. *)
Record request : Type := {
  spList : list_handle;
  viewXml : string;
  position : Z;
  included : list string
}.

Definition pagingInfo (r : request) : string :=
  "Paged=TRUE&p_ID=" +:+ pretty (position r).

Definition include_expression (r : request) : string :=
  "Include(" +:+ JS.join "," (included r) +:+ ")".

(** A returned list item: the fields it carries. [get_item] throws on a
    field it does not carry. *)
Abbreviation list_item := (gmap string jsval) (only parsing).

Definition get_item (item : list_item) (columnName : string) : result jsval :=
  match item !! columnName with
  | Some v => Ok v
  | None => Throw (HostError "get_item")
  end.

(** A row handed to the caller: [itemRow], an object keyed by column
    name. *)
Abbreviation row := (gmap string jsval) (only parsing).

(** The two ways [executeQueryAsync] resumes: [resolve()] with the item
    collection loaded, or [reject(sender, args)] with [args.get_message()]. *)
Inductive reply : Type :=
| Resolved (items : list list_item)
| Rejected (message : string).

(** [queryDetails.listColumns], once line 258 has checked it is defined. *)
Definition requested_columns (q : queryDetails) : list string :=
  match listColumns q with Some c => c | None => [] end.

(** Line 258. *)
Definition invalid_details (q : queryDetails) : bool :=
  orb (andb (bool_decide (listName q = None)) (bool_decide (listGuid q = None)))
      (orb (bool_decide (listColumns q = None))
           (bool_decide (pagePosition q = None))).

(** The identifier printed by lines 509-516: [listName] when defined, else
    [listGuid]. *)
Definition list_identifier (q : queryDetails) : string :=
  match listName q with
  | Some n => n
  | None => to_string (match listGuid q with Some g => JStr g | None => JUndefined end)
  end.

Definition missing_column_prefix (columnName listId : string) : string :=
  "spHelper Error: The column '" +:+ columnName +:+ "' requested from '"
  +:+ listId +:+ "' does not exist! Error: ".

(** Lines 498-518: fills [itemRow] column by column; the first column the
    item does not carry throws. *)
Fixpoint project_item (listId : string) (item : list_item)
    (columns : list string) (itemRow : row) : result row :=
  match columns with
  | [] => Ok itemRow
  | columnName :: rest =>
      match get_item item columnName with
      | Ok v => project_item listId item rest (<[columnName := v]> itemRow)
      | Throw error => Throw (ThrownCat (missing_column_prefix columnName listId) error)
      end
  end.

(** Lines 491-521: the [while] loop over the enumerator. *)
Fixpoint project_items (listId : string) (columns : list string)
    (items : list list_item) : result (list row) :=
  match items with
  | [] => Ok []
  | currentListItem :: rest =>
      itemRow <- project_item listId currentListItem columns ∅ ;;
      returnedItems <- project_items listId columns rest ;;
      Ok (itemRow :: returnedItems)
  end.

(** What a continuation of [loadListData] does. *)
Inductive continuation : Type :=
| onSuccess (returnedItems : list row)
| onFailure (message : string)
| Escapes (e : exn).      (* thrown out of the callback; no handler is called *)

(** Lines 485-530: [resolve] and [reject]. *)
Definition resume (q : queryDetails) (r : reply) : continuation :=
  match r with
  | Resolved items =>
      match project_items (list_identifier q) (requested_columns q) items with
      | Ok returnedItems => onSuccess returnedItems
      | Throw e => Escapes e
      end
  | Rejected message => onFailure message
  end.

(** Lines 256-532, up to [executeQueryAsync]: the descriptor as the call
    leaves it, and the request issued or the exception thrown. *)
Definition loadListData (q : queryDetails) : queryDetails * result request :=
  if invalid_details q
  then (q, Throw (Thrown "spHelper Error: Invalid query details. Minimum query details must include list title, columns and page position."))
  else
    let handle := match listName q with
                  | Some n => getByTitle n
                  | None => getById (match listGuid q with Some g => g | None => "" end)
                  end in
    let columns := requested_columns q in
    let p := match pagePosition q with Some p => p | None => 0 end in
    match query q with
    | Some xml =>
        (q, Ok {| spList := handle; viewXml := xml; position := p;
                  included := columns |})
    | None =>
        let q' := set_where (option_map default_value (where_ q)) q in
        (q', try_catch_rethrow
               "spHelper Error: Unable to read list data. Validate query details ... "
               (ps <- customQuery columns (where_ q') (join q') ;;
                Ok {| spList := handle; viewXml := render_all ps; position := p;
                      included := columns |}))
    end.

(** The remote store: a state and what [executeQueryAsync] answers. *)
Record store : Type := {
  store_state : Type;
  executeQueryAsync : store_state -> request -> reply * store_state
}.

(** How a call of [getListData] ends. *)
Inductive outcome : Type :=
| onSuccessUser (listData : list row)
| onFailureUser (errorMessage : string)
| ThrownToCaller (e : exn)     (* thrown by [getListData] itself *)
| ThrownInCallback (e : exn)   (* thrown inside a continuation *)
| OutOfFuel.

Record run : Type := {
  requests : list request;       (* in the order issued *)
  final : outcome;
  descriptor : queryDetails      (* the caller's object afterwards *)
}.

Definition sent (r : request) (k : run) : run :=
  {| requests := r :: requests k; final := final k; descriptor := descriptor k |}.

(** [queryDetails.pagePosition = queryDetails.pagePosition + n] *)
Definition advance (n : Z) (q : queryDetails) : queryDetails :=
  set_pagePosition (option_map (fun p => p + n) (pagePosition q)) q.

Definition page_size (results : list row) : Z := Z.of_nat (length results).

(** Lines 198-201: [queryDetails.pagePosition = 0] when it is undefined. *)
Definition default_pagePosition (q : queryDetails) : queryDetails :=
  match pagePosition q with
  | None => set_pagePosition (Some 0) q
  | Some _ => q
  end.

Section Loop.
Variable S : store.

(** One call [loadListData(queryDetails, resolve, reject)] and what
    follows it (lines 210-242). [nested] tells a call made from inside
    [resolve] from the first one; [fuel] bounds the number of requests. *)
Fixpoint request_loop (fuel : nat) (st : store_state S) (q : queryDetails)
    (listData : list row) (nested : bool) : run :=
  match fuel with
  | O => {| requests := []; final := OutOfFuel; descriptor := q |}
  | Datatypes.S fuel' =>
      match loadListData q with
      | (q1, Throw e) =>
          {| requests := [];
             final := if nested then ThrownInCallback e else ThrownToCaller e;
             descriptor := q1 |}
      | (q1, Ok req) =>
          let (answer, st') := executeQueryAsync S st req in
          match resume q1 answer with
          | onSuccess results =>
              let listData' := listData ++ results in
              if page_size results =? 5000
              then
                let q2 := if page_size listData' =? 5000 then advance 1 q1 else q1 in
                let q3 := advance 5000 q2 in
                sent req (request_loop fuel' st' q3 listData' true)
              else
                {| requests := [req]; final := onSuccessUser listData';
                   descriptor := q1 |}
          | onFailure errorMessage =>
              {| requests := [req]; final := onFailureUser errorMessage;
                 descriptor := q1 |}
          | Escapes e =>
              {| requests := [req]; final := ThrownInCallback e;
                 descriptor := q1 |}
          end
      end
  end.

(** Lines 195-243. *)
Definition getListData (fuel : nat) (st : store_state S) (queryDetails : queryDetails)
  : run :=
  request_loop fuel st (default_pagePosition queryDetails) [] false.
End Loop.

(** A store that answers the successive requests with a fixed script of
    replies, whatever is asked, and with an empty page afterwards. *)
Definition scripted : store :=
  {| store_state := list reply;
     executeQueryAsync := fun st _ =>
       match st with
       | r :: rest => (r, rest)
       | [] => (Resolved [], [])
       end |}.

End Retrieval.
Export Retrieval.

(** ** The write path: [updateListItem] (lines 587-683) and [addListItem]
       (lines 696-812) *)

Module WritePath.

(** An entry of [columnData]. *)
Record column_entry : Type := {
  Type_ : jsval;          (* [Type] *)
  Value : jsval;
  URL : jsval;
  Description : jsval;
  LookupID : jsval
}.

(** The objects of the SharePoint object model the code constructs. *)
Inductive sp_object : Type :=
| FieldUrlValue (url description : jsval)   (* set_url, set_description *)
| FieldLookupValue (lookupId : jsval)       (* set_lookupId *)
| FieldUserValue (user : jsval).            (* FieldUserValue.fromUser *)

(** The second argument of [spItem.set_item(key, ...)]. *)
Inductive item_value : Type :=
| Object (o : sp_object)
| Array (l : list sp_object)
| Null
| Plain (v : jsval).

(** The calls into the object model that build a field value. The code
    wraps them in [try] blocks; which arguments they reject is the
    library's matter. *)
Record sp_host : Type := {
  accepts_url : jsval -> bool;
  accepts_description : jsval -> bool;
  accepts_lookupId : jsval -> bool;
  accepts_user : jsval -> bool
}.

(** The setters as plain property setters: every argument is stored. *)
Definition storing_host : sp_host :=
  {| accepts_url := fun _ => true;
     accepts_description := fun _ => true;
     accepts_lookupId := fun _ => true;
     accepts_user := fun _ => true |}.

Definition call (accepted : bool) (op : string) : result unit :=
  if accepted then Ok tt else Throw (HostError op).

Section Host.
Variable host : sp_host.

Definition new_FieldUrlValue (url description : jsval) : result sp_object :=
  _ <- call (accepts_url host url) "set_url" ;;
  _ <- call (accepts_description host description) "set_description" ;;
  Ok (FieldUrlValue url description).

Definition new_FieldLookupValue (lookupId : jsval) : result sp_object :=
  _ <- call (accepts_lookupId host lookupId) "set_lookupId" ;;
  Ok (FieldLookupValue lookupId).

Definition fromUser (user : jsval) : result sp_object :=
  _ <- call (accepts_user host user) "fromUser" ;;
  Ok (FieldUserValue user).

(** A [forEach] that pushes one object per element. *)
Fixpoint collect (make : jsval -> result sp_object) (l : list jsval)
  : result (list sp_object) :=
  match l with
  | [] => Ok []
  | x :: rest =>
      o <- make x ;;
      os <- collect make rest ;;
      Ok (o :: os)
  end.

(** Lines 644-665 and 768-789, the same text in both methods. *)
Definition user_value (c : column_entry) : result item_value :=
  cn <- constructor_name (Value c) ;;
  if bool_decide (cn = "String")
  then user <- fromUser (Value c) ;; Ok (Array [user])
  else users <- forEach_elements (Value c) ;;
       userList <- collect fromUser users ;;
       Ok (Array userList).

(** Lines 604-670: the value [updateListItem] sets for one column. *)
Definition update_value (c : column_entry) : result item_value :=
  t <- toLowerCase (Type_ c) ;;
  if bool_decide (t = "url")
  then
    try_catch_rethrow
      "spHelper Error: Invalid URL field details. Unable to update item ... "
      (spURLField <- new_FieldUrlValue (URL c) (Description c) ;;
       Ok (Object spURLField))
  else if bool_decide (t = "lookup")
  then
    try_catch_rethrow
      "spHelper Error: Invalid Lookup field details. Unable to update item ... "
      (if negb (strict_eq_str (LookupID c) "")
       then spLookupField <- new_FieldLookupValue (LookupID c) ;;
            Ok (Object spLookupField)
       else Ok Null)
  else if bool_decide (t = "user")
  then user_value c
  else Ok (Plain (Value c)).

(** Lines 712-794: the value [addListItem] sets for one column. *)
Definition add_value (c : column_entry) : result item_value :=
  t <- toLowerCase (Type_ c) ;;
  if bool_decide (t = "url")
  then
    try_catch_rethrow
      "spHelper Error: Invalid URL field details. Unable to add item ... "
      (spURLField <- new_FieldUrlValue (URL c) (Description c) ;;
       Ok (Object spURLField))
  else if bool_decide (t = "lookup")
  then
    try_catch_rethrow
      "spHelper Error: Invalid Lookup field details. Unable to add item ... "
      (cn <- constructor_name (LookupID c) ;;
       if orb (bool_decide (cn = "Number")) (bool_decide (cn = "String"))
       then spLookupField <- new_FieldLookupValue (LookupID c) ;;
            Ok (Object spLookupField)
       else iDs <- forEach_elements (LookupID c) ;;
            spLookupFields <- collect new_FieldLookupValue iDs ;;
            Ok (Array spLookupFields))
  else if bool_decide (t = "user")
  then user_value c
  else Ok (Plain (Value c)).

(** The [for (let key in columnData)] loop: the [set_item] calls made, in
    order. *)
Fixpoint set_items (value_of : column_entry -> result item_value)
    (columnData : list (string * column_entry)) : result (list (string * item_value)) :=
  match columnData with
  | [] => Ok []
  | (key, c) :: rest =>
      v <- value_of c ;;
      vs <- set_items value_of rest ;;
      Ok ((key, v) :: vs)
  end.

Record updateDetails : Type := {
  u_listName : option string;
  itemID : option jsval;
  u_columnData : option (list (string * column_entry))
}.

Record itemDetails : Type := {
  a_listName : option string;
  a_columnData : option (list (string * column_entry))
}.

(** Lines 587-683: the field values set on the item before
    [spItem.update()], or the exception thrown. *)
Definition updateListItem (d : updateDetails) : result (list (string * item_value)) :=
  match u_listName d, itemID d, u_columnData d with
  | Some _, Some _, Some columnData =>
      try_catch_rethrow
        "spHelper Error: Unable to update item. Validate update details ... "
        (set_items update_value columnData)
  | _, _, _ =>
      Throw (Thrown "spHelper Error: Invalid update details. To update an item, the list name, item ID, and column update data is required.")
  end.

(** Lines 696-812. *)
Definition addListItem (d : itemDetails) : result (list (string * item_value)) :=
  match a_listName d, a_columnData d with
  | Some _, Some columnData =>
      try_catch_rethrow
        "SPHelper Error: Unable to add new item. Validate create details ... "
        (set_items add_value columnData)
  | _, _ =>
      Throw (Thrown "spHelper Error: Invalid create item details. To create an item, listName and columnData must be defined.")
  end.
End Host.

End WritePath.
Export WritePath.

(** ** Construction: [constructor], [initializeOptions], [setCrossDomain],
       [setClientContext] and [setWeb] (lines 13-100) *)

Module Setup.

(** The [options] object; an absent property is [JUndefined]. *)
Record options : Type := {
  opt_crossDomain : jsval;     (* [options.crossDomain] *)
  opt_targetSite : jsval       (* [options.targetSite] *)
}.

(** The client contexts the object model is asked for. *)
Inductive context : Type :=
| ClientContext (site : jsval)                         (* new SP.ClientContext(site) *)
| get_current                                          (* SP.ClientContext.get_current() *)
| AppContextSite (appContext : context) (site : jsval).
                                       (* new SP.AppContextSite(appContext, site) *)

(** The members of the class. [spWeb] is kept as the context whose
    [get_web()] it is; [None] stands for the empty object of lines 18-19. *)
Record members : Type := {
  crossDomain : bool;
  targetSite : jsval;
  appContext : option context;
  crossContext : option context;
  spWeb : option context
}.

(** Lines 16-19. *)
Definition defaults : members :=
  {| crossDomain := false; targetSite := JStr ""; appContext := None;
     crossContext := None; spWeb := None |}.

(** [v !== ''] *)
Definition is_not_empty (v : jsval) : bool := negb (strict_eq_str v "").

(** [v === true] *)
Definition is_true (v : jsval) : bool :=
  match v with JBool true => true | _ => false end.

(** Lines 59-62. *)
Definition setCrossDomain (this : members) : members :=
  {| crossDomain := true; targetSite := targetSite this;
     appContext := appContext this; crossContext := crossContext this;
     spWeb := spWeb this |}.

(** Lines 67-85. *)
Definition setClientContext (this : members) : members :=
  if andb (is_not_empty (targetSite this)) (negb (crossDomain this))
  then {| crossDomain := crossDomain this; targetSite := targetSite this;
          appContext := Some (ClientContext (targetSite this));
          crossContext := crossContext this; spWeb := spWeb this |}
  else {| crossDomain := crossDomain this; targetSite := targetSite this;
          appContext := Some get_current;
          crossContext := if crossDomain this
                          then Some (AppContextSite get_current (targetSite this))
                          else crossContext this;
          spWeb := spWeb this |}.

(** Lines 90-100. *)
Definition setWeb (this : members) : members :=
  {| crossDomain := crossDomain this; targetSite := targetSite this;
     appContext := appContext this; crossContext := crossContext this;
     spWeb := if crossDomain this then crossContext this else appContext this |}.

(** Lines 31-54. Reading a property of [options] when it is undefined is a
    TypeError. *)
Definition initializeOptions (this : members) (o : option options) : result members :=
  match o with
  | None => Throw TypeError
  | Some o =>
      let this1 :=
        if negb (is_undefined (opt_targetSite o))
        then {| crossDomain := crossDomain this; targetSite := opt_targetSite o;
                appContext := appContext this; crossContext := crossContext this;
                spWeb := spWeb this |}
        else this in
      this2 <- (if andb (negb (is_undefined (opt_crossDomain o)))
                        (is_true (opt_crossDomain o))
                then if is_not_empty (targetSite this1)
                     then Ok (setCrossDomain this1)
                     else Throw (Thrown "spHelper Error: Configuration error. Cannot set cross domain communication without a target site.")
                else Ok this1) ;;
      Ok (setWeb (setClientContext this2))
  end.

(** Lines 13-23: [new spHelper(options)]. *)
Definition constructor (o : option options) : result members :=
  initializeOptions defaults o.

End Setup.

(** ** Property readers: [getSiteProperty] (lines 115-172) and
       [getUserProperty] (lines 1216-1268) *)

Module Properties.

(** [v.includes(name)]: membership for an array, containment for a string;
    other values have no such method. *)
Definition includes (v : jsval) (name : string) : result bool :=
  match v with
  | JArr l => Ok (existsb (fun x => strict_eq_str x name) l)
  | JStr s => Ok (match String.index 0 name s with Some _ => true | None => false end)
  | _ => Throw TypeError
  end.

(** What the getters of the loaded [spWeb] return. *)
Record web : Type := {
  get_title : jsval;
  get_url : jsval;
  get_serverRelativeUrl : jsval;
  get_masterUrl : jsval
}.

(** What the getters of the loaded current user return. *)
Record user : Type := {
  user_title : jsval;      (* [get_title()] *)
  user_id : jsval;         (* [get_id()] *)
  user_email : jsval       (* [get_email()] *)
}.

(** The two ways [executeQueryAsync] resumes. *)
Inductive loaded (A : Type) : Type :=
| Resolved (a : A)
| Rejected (message : string).
Arguments Resolved {A} a.
Arguments Rejected {A} message.

(** How a call ends. *)
Inductive outcome : Type :=
| onSuccessUser (results : gmap string jsval)
| onFailureUser (errorMessage : string)
| ThrownToCaller (e : exn)
| ThrownInCallback (e : exn).

(** [if (list.includes(name)) { results[key] = v }] *)
Definition add_if_included (list : jsval) (name key : string) (v : jsval)
    (results : gmap string jsval) : result (gmap string jsval) :=
  wanted <- includes list name ;;
  Ok (if wanted then <[key := v]> results else results).

(** Lines 132-157: [resolve]. *)
Definition site_results (siteProperty : jsval) (spWeb : web)
  : result (gmap string jsval) :=
  r1 <- add_if_included siteProperty "Title" "Title" (get_title spWeb) ∅ ;;
  r2 <- add_if_included siteProperty "Url" "Url" (get_url spWeb) r1 ;;
  r3 <- add_if_included siteProperty "ServerRelativeUrl" "ServerRelativeUrl"
          (get_serverRelativeUrl spWeb) r2 ;;
  add_if_included siteProperty "MasterUrl" "MasterUrl" (get_masterUrl spWeb) r3.

(** Lines 115-172. *)
Definition getSiteProperty (siteProperty : jsval) (answer : loaded web) : outcome :=
  if is_undefined siteProperty
  then ThrownToCaller (Thrown "spHelper Error: Unable to get the site property. Ensure the siteProperty [ARRAY] is correctly configured.")
  else
    match answer with
    | Resolved spWeb =>
        match site_results siteProperty spWeb with
        | Ok results => onSuccessUser results
        | Throw e => ThrownInCallback e
        end
    | Rejected message => onFailureUser message
    end.

(** Lines 1233-1253: [resolve]. *)
Definition user_results (userProperty : jsval) (currentUser : user)
  : result (gmap string jsval) :=
  r1 <- add_if_included userProperty "Title" "Title" (user_title currentUser) ∅ ;;
  r2 <- add_if_included userProperty "id" "ID" (user_id currentUser) r1 ;;
  add_if_included userProperty "email" "Email" (user_email currentUser) r2.

(** Lines 1216-1268. *)
Definition getUserProperty (userProperty : jsval) (answer : loaded user) : outcome :=
  if is_undefined userProperty
  then ThrownToCaller (Thrown "spHelper Error: Unable to get the user property. Ensure the userProperty [ARRAY] is correctly configured.")
  else
    match answer with
    | Resolved currentUser =>
        match user_results userProperty currentUser with
        | Ok results => onSuccessUser results
        | Throw e => ThrownInCallback e
        end
    | Rejected message => onFailureUser message
    end.

End Properties.

(** ** Constants: [fieldType] (lines 1476-1609) and [numberFormatType]
       (lines 1628-1658) *)

Module Constants.

(** Lines 1484-1607: the chain of [type === n] tests. *)
Definition field_type_name (z : Z) : jsval :=
  if z =? 1 then JStr "integer"
  else if z =? 2 then JStr "text"
  else if z =? 3 then JStr "note"
  else if z =? 4 then JStr "dateTime"
  else if z =? 5 then JStr "counter"
  else if z =? 6 then JStr "choice"
  else if z =? 7 then JStr "lookup"
  else if z =? 8 then JStr "boolean"
  else if z =? 9 then JStr "number"
  else if z =? 10 then JStr "currency"
  else if z =? 11 then JStr "URL"
  else if z =? 12 then JStr "computed"
  else if z =? 13 then JStr "threading"
  else if z =? 14 then JStr "guid"
  else if z =? 15 then JStr "multiChoice"
  else if z =? 16 then JStr "gridChoice"
  else if z =? 17 then JStr "calculated"
  else if z =? 18 then JStr "file"
  else if z =? 19 then JStr "attachments"
  else if z =? 20 then JStr "user"
  else if z =? 21 then JStr "recurrence"
  else if z =? 22 then JStr "crossProjectLink"
  else if z =? 23 then JStr "modStat"
  else if z =? 24 then JStr "error"
  else if z =? 25 then JStr "contentTypeId"
  else if z =? 26 then JStr "pageSeparator"
  else if z =? 27 then JStr "threadIndex"
  else if z =? 28 then JStr "workflowStatus"
  else if z =? 29 then JStr "allDayEvent"
  else if z =? 30 then JStr "workflowEventType"
  else if z =? 31 then JStr "maxItems"
  else JUndefined.

Section FieldType.
(** [SP.FieldType[name]], the enumeration of the object model. *)
Variable SP_FieldType : string -> jsval.

(** Lines 1476-1609. A function that falls off its end returns
    undefined. *)
Definition fieldType (type : jsval) : result jsval :=
  cn <- constructor_name type ;;
  if bool_decide (cn = "String")
  then Ok (match type with JStr s => SP_FieldType s | _ => JUndefined end)
  else Ok (match type with JNum z => field_type_name z | _ => JUndefined end).
End FieldType.

(** Lines 1628-1658. *)
Definition numberFormatType (type : jsval) : result jsval :=
  t <- toLowerCase type ;;
  if bool_decide (t = "automatic") then Ok (JStr "undefined")
  else if bool_decide (t = "nodecimal") then Ok (JNum 0)
  else if bool_decide (t = "onedecimal") then Ok (JNum 1)
  else if bool_decide (t = "twodecimals") then Ok (JNum 2)
  else if bool_decide (t = "threedecimals") then Ok (JNum 3)
  else if bool_decide (t = "fourdecimals") then Ok (JNum 4)
  else if bool_decide (t = "fivedecimals") then Ok (JNum 5)
  else Ok JUndefined.

End Constants.

(** ** List details: [getListContentTypeDefault] (lines 915-956) and
       [getListDetails] (lines 969-1203) *)

Module ListDetails.

(** *** parseInt, without a radix argument

    Leading white space is skipped, then a sign, then [0x] or [0X] selects
    radix 16; the result is the value of the longest run of digits of the
    radix that follows, or NaN when there is none. *)

Definition digit_value (a : ascii) : option Z :=
  let n := Z.of_nat (nat_of_ascii a) in
  if andb (48 <=? n) (n <=? 57) then Some (n - 48)
  else if andb (97 <=? n) (n <=? 122) then Some (n - 87)
  else if andb (65 <=? n) (n <=? 90) then Some (n - 55)
  else None.

Fixpoint digits_value (radix : Z) (l : list ascii) (acc : option Z) : option Z :=
  match l with
  | a :: rest =>
      match digit_value a with
      | Some d =>
          if d <? radix
          then digits_value radix rest
                 (Some (match acc with Some n => n * radix + d | None => d end))
          else acc
      | None => acc
      end
  | [] => acc
  end.

Definition parseInt (s : string) : jsval :=
  let l := drop_while is_ws (list_ascii_of_string s) in
  let '(negative, l1) :=
    match l with
    | a :: rest =>
        if Ascii.eqb a "-" then (true, rest)
        else if Ascii.eqb a "+" then (false, rest)
        else (false, l)
    | [] => (false, l)
    end in
  let '(radix, l2) :=
    match l1 with
    | z :: x :: rest =>
        if andb (Ascii.eqb z "0") (one_of "xX" x) then (16, rest) else (10, l1)
    | _ => (10, l1)
    end in
  match digits_value radix l2 None with
  | Some n => JNum (if negative then - n else n)
  | None => JNaN
  end.

(** *** The data the object model hands back *)

(** A field of the content type: what its getters return, and the
    attributes of the first [Field] element of its schema XML ([None] when
    the parsed document has no such element). An attribute is defined on
    [fieldAttributes] exactly when the element carries it. *)
Record field : Type := {
  get_id : jsval;                     (* [get_id().toString()] *)
  get_title : jsval;
  get_internalName : jsval;
  get_defaultValue : jsval;
  get_enforceUniqueValues : jsval;
  get_required : jsval;
  get_hidden : jsval;
  get_description : jsval;
  get_fieldTypeKind : jsval;
  get_readOnlyField : jsval;
  fieldAttributes : option (gmap string string);
  get_maxLength : jsval;
  get_choices : jsval;
  get_fillInChoice : jsval;
  get_editFormat : jsval;
  get_numberOfLines : jsval;
  get_richText : jsval;
  get_appendOnly : jsval;
  get_minimumValue : jsval;
  get_maximumValue : jsval;
  get_currencyLocaleId : jsval;
  get_displayFormat : jsval;
  get_friendlyDisplayFormat : jsval;
  get_allowMultipleValues : jsval;
  get_lookupList : jsval;
  get_lookupField : jsval
}.

(** The list, its root folder and the web, as loaded. *)
Record library : Type := {
  list_id : jsval;                    (* [spList.get_id().toString()] *)
  list_title : jsval;
  list_enableAttachments : jsval;
  list_contentTypesEnabled : jsval;
  list_description : jsval;
  list_enableFolderCreation : jsval;
  list_enableMinorVersions : jsval;
  list_enableModeration : jsval;
  list_enableVersioning : jsval;
  list_forceCheckout : jsval;
  list_parentWebUrl : jsval;
  list_baseTemplate : Z;              (* [get_baseTemplate()], a number *)
  folder_serverRelativeUrl : jsval;
  folder_name : jsval;
  web_url : jsval                     (* [spWeb.get_url()] *)
}.

(** [listDetails]. *)
Record details : Type := {
  settings : gmap string jsval;
  columns : list (gmap string jsval)
}.

(** [kind === n] *)
Definition kind_is (kind : jsval) (n : Z) : bool :=
  match kind with JNum z => z =? n | _ => false end.

(** [v === true] *)
Definition is_true (v : jsval) : bool :=
  match v with JBool true => true | _ => false end.

(** ToBoolean. *)
Definition truthy (v : jsval) : bool :=
  match v with
  | JUndefined | JNull | JNaN => false
  | JBool b => b
  | JNum z => negb (z =? 0)
  | JStr s => negb (bool_decide (s = ""))
  | JArr _ => true
  end.

(** [fieldAttributes.name.value]; reading [value] off a missing attribute
    is a TypeError. *)
Definition attribute_value (attributes : gmap string string) (name : string)
  : result jsval :=
  match attributes !! name with
  | Some v => Ok (JStr v)
  | None => Throw TypeError
  end.

(** Lines 1005-1031. *)
Definition settings_of (l : library) : gmap string jsval :=
  let s :=
    <["internalName" := folder_name l]>
    (<["rootFolder" := folder_serverRelativeUrl l]>
    (<["template" := JNum (list_baseTemplate l)]>
    (<["parentWebUrl" := list_parentWebUrl l]>
    (<["forceCheckout" := list_forceCheckout l]>
    (<["enableVersioning" := list_enableVersioning l]>
    (<["enableModeration" := list_enableModeration l]>
    (<["enableMinorVersions" := list_enableMinorVersions l]>
    (<["enableFolderCreation" := list_enableFolderCreation l]>
    (<["description" := list_description l]>
    (<["contentTypesEnabled" := list_contentTypesEnabled l]>
    (<["enableAttachments" := list_enableAttachments l]>
    (<["title" := list_title l]>
    (<["id" := list_id l]> ∅))))))))))))) in
  if list_baseTemplate l =? 100
  then <["serverRelativeURL" :=
           JStr (to_string (web_url l) +:+ "/Lists/" +:+ to_string (folder_name l) +:+ "/")]> s
  else <["serverRelativeURL" :=
           JStr (to_string (web_url l) +:+ "/" +:+ to_string (folder_name l) +:+ "/")]> s.

(** The blocks of lines 1071-1172, one per kind of field, each adding its
    details to [tempColumn]. *)

(** Lines 1071-1075: String. *)
Definition text_details (f : field) (c : gmap string jsval) : gmap string jsval :=
  if kind_is (get_fieldTypeKind f) 2
  then <["maxLength" := get_maxLength f]> c
  else c.

(** Lines 1077-1087: Choice. *)
Definition choice_details (f : field) (c : gmap string jsval) : gmap string jsval :=
  let kind := get_fieldTypeKind f in
  if orb (kind_is kind 6) (kind_is kind 15)
  then
    let c1 := <["fillInChoice" := get_fillInChoice f]>
              (<["choices" := get_choices f]> c) in
    if kind_is kind 6 then <["editFormat" := get_editFormat f]> c1 else c1
  else c.

(** Lines 1089-1095: Multiple Lines. *)
Definition note_details (f : field) (c : gmap string jsval) : gmap string jsval :=
  if kind_is (get_fieldTypeKind f) 3
  then <["appendOnly" := get_appendOnly f]>
       (<["richText" := get_richText f]>
       (<["numberOfLines" := get_numberOfLines f]> c))
  else c.

(** Lines 1097-1127: Number and Currency. *)
Definition number_details (f : field) (attributes : gmap string string)
    (c : gmap string jsval) : gmap string jsval :=
  let kind := get_fieldTypeKind f in
  if orb (kind_is kind 9) (kind_is kind 10)
  then
    let c1 := <["maximumValue" := get_maximumValue f]>
              (<["minimumValue" := get_minimumValue f]> c) in
    let c2 :=
      if kind_is kind 9
      then
        let c' :=
          match attributes !! "Percentage" with
          | Some v => <["showAsPercentage" :=
                          JBool (if bool_decide (v = "FALSE") then false else true)]> c1
          | None => <["showAsPercentage" := JBool false]> c1
          end in
        match attributes !! "Decimals" with
        | Some v => <["displayFormat" := parseInt v]> c'
        | None => c'
        end
      else c1 in
    if kind_is kind 10
    then <["currencyLocaleId" := get_currencyLocaleId f]> c2
    else c2
  else c.

(** Lines 1129-1134: Date Time. *)
Definition date_details (f : field) (c : gmap string jsval) : gmap string jsval :=
  if kind_is (get_fieldTypeKind f) 4
  then <["friendlyDisplayFormat" := get_friendlyDisplayFormat f]>
       (<["displayFormat" := get_displayFormat f]> c)
  else c.

(** Lines 1136-1142: Lookup. *)
Definition lookup_details (f : field) (c : gmap string jsval) : gmap string jsval :=
  if kind_is (get_fieldTypeKind f) 7
  then <["lookupField" := get_lookupField f]>
       (<["lookupList" := get_lookupList f]>
       (<["allowMultipleValues" := get_allowMultipleValues f]> c))
  else c.

(** Lines 1144-1148: User. *)
Definition user_details (f : field) (c : gmap string jsval) : gmap string jsval :=
  if kind_is (get_fieldTypeKind f) 20
  then <["allowMultipleValues" := get_allowMultipleValues f]> c
  else c.

(** Lines 1150-1154: URL or Picture. *)
Definition url_details (f : field) (c : gmap string jsval) : gmap string jsval :=
  if kind_is (get_fieldTypeKind f) 11
  then <["displayFormat" := get_displayFormat f]> c
  else c.

(** Lines 1156-1172: Calculated. The attributes [ResultType], [Decimals],
    [Percentage] and [LCID] are read without a test. *)
Definition calculated_details (f : field) (attributes : gmap string string)
    (c : gmap string jsval) : result (gmap string jsval) :=
  if kind_is (get_fieldTypeKind f) 17
  then
    resultType <- attribute_value attributes "ResultType" ;;
    let c0 := <["resultType" := resultType]> c in
    c1 <- (if strict_eq_str resultType "Number"
           then decimals <- attribute_value attributes "Decimals" ;;
                percentage <- attribute_value attributes "Percentage" ;;
                Ok (<["showAsPercentage" := percentage]>
                    (<["displayFormat" := decimals]> c0))
           else Ok c0) ;;
    if strict_eq_str resultType "Currency"
    then decimals <- attribute_value attributes "Decimals" ;;
         lcid <- attribute_value attributes "LCID" ;;
         Ok (<["currencyLocaleId" := lcid]> (<["displayFormat" := decimals]> c1))
    else Ok c1
  else Ok c.

(** Lines 1051-1063: the general details. *)
Definition general_details (f : field) : gmap string jsval :=
  <["fieldType" := get_fieldTypeKind f]>
  (<["description" := get_description f]>
  (<["hidden" := get_hidden f]>
  (<["required" := get_required f]>
  (<["unique" := get_enforceUniqueValues f]>
  (<["default" := get_defaultValue f]>
  (<["internalName" := get_internalName f]>
  (<["title" := get_title f]>
  (<["id" := get_id f]> ∅)))))))).

(** Lines 1052-1172: [tempColumn] for a field that is kept. Line 1069
    reads [attributes] off the first [Field] element of the parsed schema,
    a TypeError when there is none. *)
Definition column_of (f : field) : result (gmap string jsval) :=
  let c0 := general_details f in
  attributes <- match fieldAttributes f with
                | Some a => Ok a
                | None => Throw TypeError
                end ;;
  let c1 := text_details f c0 in
  let c2 := choice_details f c1 in
  let c3 := note_details f c2 in
  let c4 := number_details f attributes c3 in
  let c5 := date_details f c4 in
  let c6 := lookup_details f c5 in
  let c7 := user_details f c6 in
  let c8 := url_details f c7 in
  calculated_details f attributes c8.

(** Lines 1043-1049: whether the loop builds a column for the field. *)
Definition kept (readOnlyFields : bool) (f : field) : bool :=
  andb (negb (strict_eq_str (get_internalName f) "ContentType"))
       (negb (andb readOnlyFields (is_true (get_readOnlyField f)))).

(** Lines 1038-1177: the [while] loop over the fields. *)
Fixpoint columns_of (readOnlyFields : bool) (fields : list field)
  : result (list (gmap string jsval)) :=
  match fields with
  | [] => Ok []
  | currentField :: rest =>
      if kept readOnlyFields currentField
      then
        tempColumn <- column_of currentField ;;
        others <- columns_of readOnlyFields rest ;;
        Ok (tempColumn :: others)
      else columns_of readOnlyFields rest
  end.

(** The answer to the request for the content types, whose first one is
    the default, and to the request for the fields, the list, its folder
    and the web. *)
Inductive content_types : Type :=
| ContentTypes (default_id : jsval)
| NoContentTypes (message : string).

Inductive loaded : Type :=
| Loaded (l : library) (fields : list field)
| NotLoaded (message : string).

Inductive outcome : Type :=
| onSuccessUser (listDetails : details)
| onFailureUser (errorMessage : string)
| ThrownInCallback (e : exn).

(** Lines 969-1203, with [getListContentTypeDefault] (lines 915-956) for
    the first request. The parameter [readOnlyFields] defaults to [true]
    when it is undefined. *)
Definition getListDetails (readOnlyFields : jsval)
    (first : content_types) (second : loaded) : outcome :=
  match first with
  | NoContentTypes message => onFailureUser message
  | ContentTypes contentTypeID =>
      match second with
      | NotLoaded message => onFailureUser message
      | Loaded l fields =>
          let flag := truthy (if is_undefined readOnlyFields then JBool true
                              else readOnlyFields) in
          match columns_of flag fields with
          | Ok cols => onSuccessUser {| settings := settings_of l; columns := cols |}
          | Throw e => ThrownInCallback e
          end
      end
  end.

End ListDetails.

(** ** Vocabulary of the statements *)

(** Case analysis on the condition of the first [if] of the goal. *)
Ltac case_if :=
  match goal with
  | |- context [if ?b then _ else _] => destruct b eqn:?
  end.

(** The clause emitted by each iteration of the batch loop. *)
Definition in_clause (l : where_leaf) (vs : list jsval) : list piece :=
  [Lit "<In> "; FieldRef (to_string (column l)) false Spaced; Lit " <Values>"]
  ++ value_elements (type l) vs ++ [Lit "</Values></In>"].

Definition is_value_elem (p : piece) : bool :=
  match p with ValueElem _ _ => true | _ => false end.

Definition is_field_ref (p : piece) : bool :=
  match p with FieldRef _ _ _ => true | _ => false end.

Definition carries_marker (p : piece) : bool :=
  match p with FieldRef _ true _ => true | _ => false end.

(** A leaf [{column: 'Dept', operation: op, value: v, type: ty}]. *)
Definition dept_leaf (op ty v : jsval) : where_leaf :=
  {| column := JStr "Dept"; operation := op; value := v; type := ty |}.

(** The array [[1, 2, ..., n]]. *)
Definition numbers (n : nat) : list jsval :=
  List.map (fun i => JNum (Z.of_nat i)) (seq 1 n).

Definition is_letter (a : ascii) : bool :=
  let n := nat_of_ascii a in
  orb (andb (Nat.leb 65 n) (Nat.leb n 90)) (andb (Nat.leb 97 n) (Nat.leb n 122)).

(** One or more decimal digits. *)
Definition decimal_digits (s : string) : bool :=
  all_of is_digit (list_ascii_of_string s).

(** A first character that is a letter other than the [I] of [Infinity]. *)
Definition starts_with_letter (s : string) : bool :=
  match s with
  | String a _ => andb (is_letter a) (negb (Ascii.eqb a "I"))
  | EmptyString => false
  end.

(** "Numeric", in the words of the specification: a number, or a string
    that writes one in decimal digits, with an optional sign and an
    optional fraction, such as "42", "-7" or "3.5". *)
Definition writes_a_number (s : string) : bool :=
  let l := list_ascii_of_string s in
  let unsigned := match l with
                  | a :: rest => if one_of "+-" a then rest else l
                  | [] => l
                  end in
  let tail := drop_while is_digit unsigned in
  andb (negb (bool_decide (tail = unsigned)))
       (match tail with
        | [] => true
        | d :: fraction => andb (Ascii.eqb d ".") (all_of is_digit fraction)
        end).

Definition spec_numeric (v : jsval) : bool :=
  match v with
  | JNum _ => true
  | JStr s => writes_a_number s
  | _ => false
  end.

(** The empty string and the strings of white space. *)
Definition blank (s : string) : bool := forallb is_ws (list_ascii_of_string s).

Ltac by_cases_on_ascii a :=
  destruct a as [[] [] [] [] [] [] [] []]; vm_compute; intros H;
  first [discriminate H | repeat split; reflexivity].

(** The request [r], asked again from position [p]. *)
Definition at_position (p : Z) (r : request) : request :=
  {| spList := spList r; viewXml := viewXml r; position := p;
     included := included r |}.

(** The rows a page of items projects to, for the descriptor [q]. *)
Definition projected (q : queryDetails) (items : list list_item) (rows : list row) : Prop :=
  project_items (list_identifier q) (requested_columns q) items = Ok rows.

(** [n] positions, 5000 apart, from [p]. *)
Fixpoint positions_from (p : Z) (n : nat) : list Z :=
  match n with
  | O => []
  | Datatypes.S n' => p :: positions_from (p + 5000) n'
  end.

(** The positions of [n] successive requests of one retrieval that starts
    at [p]: 5001 after the first one, 5000 after the others. *)
Definition cursors (p : Z) (n : nat) : list Z :=
  match n with
  | O => []
  | Datatypes.S n' => p :: positions_from (p + 5001) n'
  end.

(** The position of the first request. *)
Definition first_cursor (q : queryDetails) : Z :=
  match pagePosition q with Some p => p | None => 0 end.

(** A list [Customers] queried for its [ID] column, and items that carry
    that column only. *)
Definition customers : queryDetails :=
  {| listName := Some "Customers"; listGuid := None; listColumns := Some ["ID"];
     query := None; where_ := None; join := None; pagePosition := None |}.

Definition id_item (i : nat) : list_item := {[ "ID" := JNum (Z.of_nat i) ]}.

Definition id_items (first count : nat) : list list_item :=
  List.map id_item (seq first count).

(** The outcomes in which a callback of the caller is invoked. *)
Definition delivered (o : outcome) : bool :=
  match o with
  | onSuccessUser _ | onFailureUser _ => true
  | _ => false
  end.

(** The exception of lines 511 and 515. *)
Definition missing_column (columnName listId : string) : exn :=
  ThrownCat (missing_column_prefix columnName listId) (HostError "get_item").

(** [{Type: 'Lookup', LookupID: id}] *)
Definition lookup_entry (id : jsval) : column_entry :=
  {| Type_ := JStr "Lookup"; Value := JUndefined; URL := JUndefined;
     Description := JUndefined; LookupID := id |}.

(** [{Type: 'Url', URL: url, Description: description}] *)
Definition url_entry (url description : jsval) : column_entry :=
  {| Type_ := JStr "Url"; Value := JUndefined; URL := url;
     Description := description; LookupID := JUndefined |}.

Definition is_view_field (p : piece) : bool :=
  match p with ViewField _ => true | _ => false end.

Definition is_projected_field (p : piece) : bool :=
  match p with ProjectedField _ _ => true | _ => false end.

(** The pieces of the sections around the predicate: the projection and the
    join. *)
Definition is_section_piece (p : piece) : bool :=
  match p with
  | ViewField _ | ProjectedField _ _ | Joins _ _ _ => true
  | _ => false
  end.

(** [type.toLowerCase() === 'lookup'], for a type that is a string. *)
Definition is_lookup (ty : jsval) : bool :=
  match ty with
  | JStr t => bool_decide (lower t = "lookup")
  | _ => false
  end.

(** The comparison an entry of [where.values] compiles to. *)
Definition entry_pieces (e : where_leaf) : list piece :=
  [Open (to_string (operation e));
   FieldRef (to_string (column e)) (andb (is_lookup (type e)) (negb (isNaN (value e)))) Tight;
   Lit " ";
   ValueElem (to_string (type e)) (to_string (value e));
   Close (to_string (operation e))].

(** A descriptor for the list [Customers] with a [where] object. *)
Definition customers_where (w : where_clause) : queryDetails :=
  {| listName := Some "Customers"; listGuid := None; listColumns := Some ["ID"];
     query := None; where_ := Some w; join := None; pagePosition := None |}.

Definition invalid_query_details : exn :=
  Thrown "spHelper Error: Invalid query details. Minimum query details must include list title, columns and page position.".

Definition unable_to_read (cause : exn) : exn :=
  ThrownCat "spHelper Error: Unable to read list data. Validate query details ... " cause.

(** How [getListData] ends on a reply that is not a full page, with the
    rows [acc] collected so far. *)
Definition ending (c : continuation) (acc : list row) : outcome :=
  match c with
  | onSuccess rows => onSuccessUser (acc ++ rows)
  | onFailure message => onFailureUser message
  | Escapes e => ThrownInCallback e
  end.

(** A store that answers every request with the same page. *)
Definition endless (page : list list_item) : store :=
  {| store_state := unit;
     executeQueryAsync := fun st _ => (Resolved page, st) |}.

(** The exception at the bottom of a chain of rethrows. *)
Fixpoint root_cause (e : exn) : exn :=
  match e with
  | ThrownCat _ cause => root_cause cause
  | _ => e
  end.

(** Raised by the engine or by the object model, not by a [throw] of the
    code. *)
Definition raised_below (e : exn) : Prop :=
  root_cause e = TypeError \/ exists op, root_cause e = HostError op.

(** [{Type: 'User', Value: v}] *)
Definition user_entry (v : jsval) : column_entry :=
  {| Type_ := JStr "User"; Value := v; URL := JUndefined;
     Description := JUndefined; LookupID := JUndefined |}.

(** [{Type: ty, Value: v}] *)
Definition plain_entry (ty : string) (v : jsval) : column_entry :=
  {| Type_ := JStr ty; Value := v; URL := JUndefined;
     Description := JUndefined; LookupID := JUndefined |}.

(** The getter behind a key of the result of [getSiteProperty]. *)
Definition site_getter (w : Properties.web) (key : string) : option jsval :=
  if bool_decide (key = "Title") then Some (Properties.get_title w)
  else if bool_decide (key = "Url") then Some (Properties.get_url w)
  else if bool_decide (key = "ServerRelativeUrl")
       then Some (Properties.get_serverRelativeUrl w)
  else if bool_decide (key = "MasterUrl") then Some (Properties.get_masterUrl w)
  else None.

(** [names] holds the string [name]. *)
Definition requested (names : list jsval) (name : string) : bool :=
  existsb (fun x => strict_eq_str x name) names.

(** A field of kind [kind] named [name], with the given schema attributes
    and nothing else of note. *)
Definition sample_field (name : string) (kind : Z) (readOnly : bool)
    (attributes : option (gmap string string)) : ListDetails.field :=
  {| ListDetails.get_id := JStr "f-1";
     ListDetails.get_title := JStr name;
     ListDetails.get_internalName := JStr name;
     ListDetails.get_defaultValue := JNull;
     ListDetails.get_enforceUniqueValues := JBool false;
     ListDetails.get_required := JBool false;
     ListDetails.get_hidden := JBool false;
     ListDetails.get_description := JStr "";
     ListDetails.get_fieldTypeKind := JNum kind;
     ListDetails.get_readOnlyField := JBool readOnly;
     ListDetails.fieldAttributes := attributes;
     ListDetails.get_maxLength := JNum 255;
     ListDetails.get_choices := JArr [];
     ListDetails.get_fillInChoice := JBool false;
     ListDetails.get_editFormat := JNum 0;
     ListDetails.get_numberOfLines := JNum 6;
     ListDetails.get_richText := JBool false;
     ListDetails.get_appendOnly := JBool false;
     ListDetails.get_minimumValue := JNum 0;
     ListDetails.get_maximumValue := JNum 100;
     ListDetails.get_currencyLocaleId := JNum 1033;
     ListDetails.get_displayFormat := JNum 0;
     ListDetails.get_friendlyDisplayFormat := JNum 0;
     ListDetails.get_allowMultipleValues := JBool false;
     ListDetails.get_lookupList := JStr "";
     ListDetails.get_lookupField := JStr "" |}.

(** [showAsPercentage] as lines 1106-1113 set it. *)
Definition shown_as_percentage (attributes : gmap string string) : bool :=
  match attributes !! "Percentage" with
  | Some v => negb (bool_decide (v = "FALSE"))
  | None => false
  end.

(** The flag the loop of [getListDetails] tests: [readOnlyFields], [true]
    by default, read as a condition. *)
Definition skips_read_only (readOnlyFields : jsval) : bool :=
  ListDetails.truthy (if is_undefined readOnlyFields then JBool true else readOnlyFields).

(** A field whose schema, as parsed, lacks what the loop reads from it
    without a test: the [Field] element itself, or, for a Calculated field
    (kind 17), the attribute [ResultType], [Decimals] or [Percentage] for
    the result type Number, [Decimals] or [LCID] for Currency. *)
Definition lacks_schema_details (f : ListDetails.field) : Prop :=
  match ListDetails.fieldAttributes f with
  | None => True
  | Some a =>
      ListDetails.get_fieldTypeKind f = JNum 17
      /\ (a !! "ResultType" = None
          \/ (a !! "ResultType" = Some "Number"
              /\ (a !! "Decimals" = None \/ a !! "Percentage" = None))
          \/ (a !! "ResultType" = Some "Currency"
              /\ (a !! "Decimals" = None \/ a !! "LCID" = None)))
  end.

(** A custom list (template 100) named Projects. *)
Definition projects_library : ListDetails.library :=
  {| ListDetails.list_id := JStr "8f2f1c0a-1b7e-4d58-9a53-0c4d2a6b7e11";
     ListDetails.list_title := JStr "Projects";
     ListDetails.list_enableAttachments := JBool true;
     ListDetails.list_contentTypesEnabled := JBool false;
     ListDetails.list_description := JStr "";
     ListDetails.list_enableFolderCreation := JBool false;
     ListDetails.list_enableMinorVersions := JBool false;
     ListDetails.list_enableModeration := JBool false;
     ListDetails.list_enableVersioning := JBool false;
     ListDetails.list_forceCheckout := JBool false;
     ListDetails.list_parentWebUrl := JStr "/sites/pmo";
     ListDetails.list_baseTemplate := 100;
     ListDetails.folder_serverRelativeUrl := JStr "/sites/pmo/Lists/Projects";
     ListDetails.folder_name := JStr "Projects";
     ListDetails.web_url := JStr "https://contoso.example/sites/pmo" |}.

(** The texts of a list, one after the other. *)
Definition texts (l : list string) : string :=
  fold_right String.append EmptyString l.

(** Line 296: the entry of [<ViewFields>] for a column. *)
Definition view_field_text (c : string) : string :=
  "<FieldRef Name='" +:+ c +:+ "' />".

(** Line 455: the entry of [<ProjectedFields>] for a column of the joined
    list. *)
Definition projected_field_text (joined c : string) : string :=
  "<Field ShowField=" +:+ dq +:+ c +:+ dq
  +:+ " Type=" +:+ dq +:+ "Lookup" +:+ dq
  +:+ " Name=" +:+ dq +:+ c +:+ dq
  +:+ " List=" +:+ dq +:+ joined +:+ dq +:+ " />".

(** Lines 442-460: the text of the join, the [<Joins>] element and then the
    projected fields between their tags. *)
Definition join_text (j : join_details) : string :=
  render (Joins (to_string (direction j)) (to_string (joinList j))
                (to_string (joinColumn j)))
  +:+ "<ProjectedFields>"
  +:+ texts (List.map (projected_field_text (to_string (joinList j))) (getColumns j))
  +:+ "</ProjectedFields>".

(** The names [fieldType] returns, for the numbers from 1 on (lines
    1484-1607). *)
Definition field_type_names : list string :=
  ["integer"; "text"; "note"; "dateTime"; "counter"; "choice"; "lookup"; "boolean";
   "number"; "currency"; "URL"; "computed"; "threading"; "guid"; "multiChoice";
   "gridChoice"; "calculated"; "file"; "attachments"; "user"; "recurrence";
   "crossProjectLink"; "modStat"; "error"; "contentTypeId"; "pageSeparator";
   "threadIndex"; "workflowStatus"; "allDayEvent"; "workflowEventType"; "maxItems"].

(** The [z]-th name of the table, counted from 1. *)
Definition named (z : Z) : option string :=
  if 1 <=? z then nth_error field_type_names (Z.to_nat (z - 1)) else None.

(** An enumeration object that numbers the names of the table from 1, as
    [SP.FieldType] does. *)
Fixpoint position_of (name : string) (names : list string) (first : Z) : jsval :=
  match names with
  | n :: rest => if bool_decide (n = name) then JNum first
                 else position_of name rest (first + 1)
  | [] => JUndefined
  end.

Definition numbered_from_1 (name : string) : jsval :=
  position_of name field_type_names 1.

(** The decimal formats of [numberFormatType], by number of decimals (lines
    1634-1657). *)
Definition decimal_formats : list string :=
  ["nodecimal"; "onedecimal"; "twodecimals"; "threedecimals"; "fourdecimals";
   "fivedecimals"].

(** ** Samples of the coercions and of the query text *)

Example isNaN_samples :
  List.map isNaN [JStr "42"; JStr "Engineering"; JStr ""; JStr " 12.5e3 "; JStr "0x1F";
                  JStr "1e"; JStr "."; JStr "-.5"; JStr "+Infinity"; JStr "12px";
                  JArr [JNum 7]; JArr [JNum 1; JNum 2]; JNum (-3); JUndefined;
                  JStr "-0x10"; JStr "0b101"; JStr "5."; JStr "1.5.2"; JStr "1e+9";
                  JStr "0x"; JStr "+"; JStr "3e-"; JStr ".e1"; JStr "0o17"]
  = [false; true; false; false; false; true; true; false; false; true;
     false; true; false; true;
     true; false; false; true; false;
     true; true; true; true; false].
Proof. vm_compute. reflexivity. Qed.

Example to_string_samples :
  List.map to_string [JNum 0; JNum (-15); JNum 5001; JArr [JNum 1; JNull; JStr "a"]]
  = ["0"; "-15"; "5001"; "1,,a"].
Proof. vm_compute. reflexivity. Qed.

Example query_text_lookup :
  (ps <- customQuery ["Name"; "Phone"]
          (Some (default_value
                   {| leaf := dept_leaf (JStr "Eq") (JStr "Lookup") (JStr "42");
                      values := None |})) None ;;
   Ok (render_all ps))
  = Ok "<View Scope='RecursiveAll'><ViewFields><FieldRef Name='Name' /><FieldRef Name='Phone' /></ViewFields><Query> <Where><Eq> <FieldRef Name='Dept' LookupId='TRUE'/><Value Type='Lookup'>42</Value></Eq></Where></Query></View>".
Proof. vm_compute. reflexivity. Qed.

Example query_text_values :
  (ps <- compile_where
          {| leaf := dept_leaf (JStr "And") JUndefined (JStr "");
             values := Some [ {| column := JStr "Name"; operation := JStr "Eq";
                                 value := JStr "James"; type := JStr "Text" |};
                              {| column := JStr "Dept"; operation := JStr "Eq";
                                 value := JNum 7; type := JStr "Lookup" |} ] |} ;;
   Ok (render_all ps))
  = Ok "<Query> <Where><And><Eq><FieldRef Name='Name'/> <Value Type='Text'>James</Value></Eq><Eq><FieldRef Name='Dept' LookupId='TRUE'/> <Value Type='Lookup'>7</Value></Eq></And></Where></Query>".
Proof. vm_compute. reflexivity. Qed.

Example query_text_in :
  (ps <- compile_where
          {| leaf := dept_leaf (JStr "In") (JStr "Text") (JArr [JStr "a"; JStr "b"]);
             values := None |} ;;
   Ok (render_all ps))
  = Ok "<Query> <Where><In> <FieldRef Name='Dept' /><Values><Value Type='Text'>a</Value><Value Type='Text'>b</Value></Values></In></Where></Query>".
Proof. vm_compute. reflexivity. Qed.

Example paging_info :
  pagingInfo {| spList := getByTitle "Customers"; viewXml := ""; position := 5001;
                included := ["Name"; "Phone"] |} = "Paged=TRUE&p_ID=5001"
  /\ include_expression {| spList := getByTitle "Customers"; viewXml := "";
                           position := 5001; included := ["Name"; "Phone"] |}
     = "Include(Name,Phone)".
Proof. split; vm_compute; reflexivity. Qed.

(** ** Properties of the compiled predicate *)

Lemma for_each_constant {A} (ps : list piece) (body : A -> result (list piece)) (l : list A) :
  (forall x, body x = Ok ps) ->
  for_each body l = Ok (concat (repeat ps (length l))).
Proof.
  intros Hbody. induction l as [|x l IH]; simpl.
  - reflexivity.
  - rewrite Hbody. simpl. rewrite IH. reflexivity.
Qed.

Lemma ceil_div60_pos n : 60 < n -> 2 <= ceil_div60 n.
Proof.
  intros H. unfold ceil_div60.
  assert (1 <= n / 60) by (apply Z.div_le_lower_bound; lia).
  destruct (n mod 60 =? 0) eqn:E; [|lia].
  apply Z.eqb_eq in E.
  assert (Hn : n = 60 * (n / 60)) by (pose proof (Z.div_mod n 60); lia).
  assert (n / 60 <> 1) by lia. lia.
Qed.

(** [ceil_div60 n] is the least [k] with [n <= 60 * k]. *)
Lemma ceil_div60_spec n :
  0 <= n -> n <= 60 * ceil_div60 n /\ 60 * (ceil_div60 n - 1) < n.
Proof.
  intros H. unfold ceil_div60.
  pose proof (Z.div_mod n 60 ltac:(lia)).
  pose proof (Z.mod_pos_bound n 60 ltac:(lia)).
  destruct (n mod 60 =? 0) eqn:E.
  - apply Z.eqb_eq in E. lia.
  - apply Z.eqb_neq in E. lia.
Qed.

(** What [compile_where] emits when the batching fix is triggered. *)
Lemma compile_where_in_fix (l : where_leaf) (vs : list jsval) :
  toLowerCase (operation l) = Ok "in" ->
  value l = JArr vs ->
  60 < Z.of_nat (length vs) ->
  compile_where {| leaf := l; values := None |}
  = Ok ([Lit "<Query> <Where>"; Lit "<Or>"]
        ++ concat (repeat (in_clause l vs)
                          (Z.to_nat (ceil_div60 (Z.of_nat (length vs)))))
        ++ [Lit "</Or>"; Lit "</Where></Query>"]).
Proof.
  intros Hop Hval Hlen. unfold compile_where, leaf_clause. simpl.
  rewrite Hval, Hop. simpl.
  apply Z.ltb_lt in Hlen. rewrite Hlen. simpl.
  rewrite (for_each_constant (in_clause l vs)).
  - simpl. rewrite length_seq. rewrite <- !app_assoc. reflexivity.
  - intros i. unfold batch_clause. rewrite Hval. reflexivity.
Qed.

(** What it emits for an [In] over at most 60 values. *)
Lemma compile_where_in_small (l : where_leaf) (vs : list jsval) (op t : string) :
  operation l = JStr op -> lower op = "in" ->
  type l = JStr t ->
  value l = JArr vs ->
  Z.of_nat (length vs) <= 60 ->
  compile_where {| leaf := l; values := None |}
  = Ok ([Lit "<Query> <Where>"; Open op; Lit " ";
         (if andb (bool_decide (lower t = "lookup")) (negb (isNaN (first_element (JArr vs))))
          then FieldRef (to_string (column l)) true Tight
          else FieldRef (to_string (column l)) false Spaced);
         Lit "<Values>"]
        ++ value_elements (type l) vs
        ++ [Lit "</Values>"; Close op; Lit "</Where></Query>"]).
Proof.
  intros Hop Hin Hty Hval Hlen. unfold compile_where, leaf_clause. simpl.
  rewrite Hval, Hop. simpl. rewrite Hin. simpl.
  assert (E : (60 <? Z.of_nat (length vs)) = false) by (apply Z.ltb_ge; lia).
  rewrite E. simpl.
  unfold plain_clause, multi_value_body. rewrite Hty, Hval, Hop. simpl.
  case_if; simpl; rewrite <- !app_assoc; reflexivity.
Qed.

Lemma count_value_elements ty vs :
  length (List.filter is_value_elem (value_elements ty vs)) = length vs.
Proof.
  unfold value_elements. induction vs as [|v vs IH]; simpl; [reflexivity|].
  rewrite IH. reflexivity.
Qed.

Lemma no_marker_in_values ty vs :
  List.filter carries_marker (value_elements ty vs) = [].
Proof. induction vs as [|v vs IH]; simpl; [reflexivity|apply IH]. Qed.

Lemma no_reference_in_values ty vs :
  List.filter is_field_ref (value_elements ty vs) = [].
Proof. induction vs as [|v vs IH]; simpl; [reflexivity|apply IH]. Qed.

Lemma filter_concat_repeat_eq {A} (f : A -> bool) (ps : list A) n :
  List.filter f (concat (repeat ps n)) = concat (repeat (List.filter f ps) n).
Proof.
  induction n as [|n IH]; simpl; [reflexivity|].
  rewrite List.filter_app, IH. reflexivity.
Qed.

Lemma concat_repeat_nil {A} n : concat (repeat (@nil A) n) = [].
Proof. induction n as [|n IH]; simpl; [reflexivity|apply IH]. Qed.

Lemma concat_repeat_singleton {A} (x : A) n : concat (repeat [x] n) = repeat x n.
Proof. induction n as [|n IH]; simpl; [reflexivity|]. rewrite IH. reflexivity. Qed.

Lemma filter_concat_repeat {A} (f : A -> bool) (ps : list A) n :
  length (List.filter f (concat (repeat ps n))) = (n * length (List.filter f ps))%nat.
Proof.
  induction n as [|n IH]; simpl; [reflexivity|].
  rewrite List.filter_app, length_app, IH. reflexivity.
Qed.

(** C1 (code defect): when an [In] leaf has more than 60 values, the code
    emits ceil(N/60) membership clauses inside one [<Or>], but every clause
    lists all N values (the inner [forEach] of lines 375-378 walks the whole
    array on each iteration), so the clauses do not partition the values:
    the query carries N * ceil(N/60) value elements instead of N. *)
Theorem C1_every_batch_lists_all_values (l : where_leaf) (vs : list jsval) :
  toLowerCase (operation l) = Ok "in" ->
  value l = JArr vs ->
  60 < Z.of_nat (length vs) ->
  exists clauses,
    compile_where (default_value {| leaf := l; values := None |})
      = Ok ([Lit "<Query> <Where>"; Lit "<Or>"] ++ clauses
            ++ [Lit "</Or>"; Lit "</Where></Query>"])
    /\ clauses = concat (repeat (in_clause l vs)
                                (Z.to_nat (ceil_div60 (Z.of_nat (length vs)))))
    /\ length (List.filter is_value_elem clauses)
       = (Z.to_nat (ceil_div60 (Z.of_nat (length vs))) * length vs)%nat
    /\ length (List.filter is_value_elem clauses) <> length vs.
Proof.
  intros Hop Hval Hlen.
  assert (Hdef : default_value {| leaf := l; values := None |}
                 = {| leaf := l; values := None |}).
  { unfold default_value. simpl. rewrite Hval. reflexivity. }
  rewrite Hdef.
  eexists. split; [apply compile_where_in_fix; eassumption|].
  split; [reflexivity|].
  assert (Hcount : length (List.filter is_value_elem (in_clause l vs)) = length vs).
  { unfold in_clause. simpl. rewrite List.filter_app, length_app.
    rewrite count_value_elements. simpl. lia. }
  rewrite filter_concat_repeat, Hcount.
  split; [reflexivity|].
  pose proof (ceil_div60_pos _ Hlen). nia.
Qed.

(** The defect at the 130 values of the specification's example: three
    clauses of 130 values each, not batches of 60, 60 and 10. *)
Lemma C1_witness_130 :
  exists clauses,
    compile_where (default_value
      {| leaf := dept_leaf (JStr "In") (JStr "Number") (JArr (numbers 130));
         values := None |})
      = Ok ([Lit "<Query> <Where>"; Lit "<Or>"] ++ clauses
            ++ [Lit "</Or>"; Lit "</Where></Query>"])
    /\ clauses = concat (repeat (in_clause (dept_leaf (JStr "In") (JStr "Number")
                                                      (JArr (numbers 130)))
                                           (numbers 130)) 3)
    /\ length (List.filter is_value_elem clauses) = 390%nat
    /\ length (List.filter is_value_elem clauses) <> 130%nat.
Proof.
  apply (C1_every_batch_lists_all_values
           (dept_leaf (JStr "In") (JStr "Number") (JArr (numbers 130)))
           (numbers 130)).
  - reflexivity.
  - reflexivity.
  - vm_compute. reflexivity.
Defined.

(** C10: when the batching fix is triggered, no field reference of the
    compiled predicate carries [LookupId='TRUE'], whatever the leaf's type
    and values; each of the ceil(N/60) clauses has one plain reference. *)
Theorem C10_batched_references_are_plain (l : where_leaf) (vs : list jsval) :
  toLowerCase (operation l) = Ok "in" ->
  value l = JArr vs ->
  60 < Z.of_nat (length vs) ->
  exists ps,
    compile_where (default_value {| leaf := l; values := None |}) = Ok ps
    /\ List.filter carries_marker ps = []
    /\ List.filter is_field_ref ps
       = repeat (FieldRef (to_string (column l)) false Spaced)
                (Z.to_nat (ceil_div60 (Z.of_nat (length vs)))).
Proof.
  intros Hop Hval Hlen.
  assert (Hdef : default_value {| leaf := l; values := None |}
                 = {| leaf := l; values := None |}).
  { unfold default_value. simpl. rewrite Hval. reflexivity. }
  rewrite Hdef.
  eexists. split; [apply compile_where_in_fix; eassumption|].
  assert (Hm : List.filter carries_marker (in_clause l vs) = []).
  { unfold in_clause. simpl. rewrite List.filter_app, no_marker_in_values.
    reflexivity. }
  assert (Hr : List.filter is_field_ref (in_clause l vs)
               = [FieldRef (to_string (column l)) false Spaced]).
  { unfold in_clause. simpl. rewrite List.filter_app, no_reference_in_values.
    reflexivity. }
  split.
  - rewrite !List.filter_app, filter_concat_repeat_eq, Hm, concat_repeat_nil.
    reflexivity.
  - rewrite !List.filter_app, filter_concat_repeat_eq, Hr, concat_repeat_singleton.
    simpl. apply app_nil_r.
Qed.

(** A Lookup leaf with 61 numeric values: two clauses, both with a plain
    reference. *)
Lemma C10_witness_lookup_61 :
  exists ps,
    compile_where (default_value
      {| leaf := dept_leaf (JStr "In") (JStr "Lookup") (JArr (numbers 61));
         values := None |}) = Ok ps
    /\ List.filter carries_marker ps = []
    /\ List.filter is_field_ref ps
       = [FieldRef "Dept" false Spaced; FieldRef "Dept" false Spaced].
Proof.
  apply (C10_batched_references_are_plain
           (dept_leaf (JStr "In") (JStr "Lookup") (JArr (numbers 61)))
           (numbers 61)).
  - reflexivity.
  - reflexivity.
  - vm_compute. reflexivity.
Defined.

(** *** Which strings [isNaN] takes for numbers *)

Lemma digit_facts a :
  is_digit a = true ->
  is_ws a = false /\ one_of "+-" a = false /\ one_of "xXoObB" a = false
  /\ Ascii.eqb a "." = false /\ Ascii.eqb a "I" = false.
Proof. by_cases_on_ascii a. Qed.

Lemma letter_facts a :
  is_letter a = true ->
  is_ws a = false /\ one_of "+-" a = false /\ is_digit a = false
  /\ Ascii.eqb a "." = false /\ Ascii.eqb a "0" = false.
Proof. by_cases_on_ascii a. Qed.

Lemma drop_while_all p l : forallb p l = true -> drop_while p l = [].
Proof.
  induction l as [|a l IH]; simpl; [reflexivity|].
  destruct (p a); simpl; [exact IH|discriminate].
Qed.

Lemma drop_while_last p l a :
  p a = false -> drop_while p (l ++ [a]) = drop_while p l ++ [a].
Proof.
  intros Ha. induction l as [|b l IH]; simpl.
  - rewrite Ha. reflexivity.
  - destruct (p b); [exact IH|reflexivity].
Qed.

(** Trimming keeps a first character that is not white space. *)
Lemma trim_head a l : is_ws a = false -> exists l', trim (a :: l) = a :: l'.
Proof.
  intros Ha. unfold trim. simpl. rewrite Ha. simpl.
  rewrite drop_while_last by exact Ha.
  rewrite rev_app_distr. simpl. eauto.
Qed.

(** Trimming leaves a string without white space unchanged. *)
Lemma trim_no_ws l : forallb (fun a => negb (is_ws a)) l = true -> trim l = l.
Proof.
  intros H. unfold trim.
  assert (Hd : forall m, forallb (fun a => negb (is_ws a)) m = true ->
                         drop_while is_ws m = m).
  { intros [|b m]; simpl; [reflexivity|].
    destruct (is_ws b); simpl; [discriminate|reflexivity]. }
  rewrite (Hd l H). rewrite Hd.
  - apply rev_involutive.
  - rewrite forallb_forall in *. intros x Hx. apply H. apply in_rev. exact Hx.
Qed.

Lemma isNaN_decimal_digits s : decimal_digits s = true -> isNaN (JStr s) = false.
Proof.
  unfold decimal_digits, isNaN, string_is_numeric.
  generalize (list_ascii_of_string s). intros l Hl.
  destruct l as [|a l]; [discriminate|]. unfold all_of in Hl.
  assert (Hall : forallb is_digit (a :: l) = true) by exact Hl.
  rewrite trim_no_ws.
  2:{ rewrite forallb_forall in *. intros x Hx.
      destruct (digit_facts x (Hall x Hx)) as [-> _]. reflexivity. }
  simpl in Hl. apply andb_prop in Hl as [Ha Hl].
  destruct (digit_facts a Ha) as (_ & Hsign & Hradix & Hdot & HI).
  assert (Hrad : radix_literal (a :: l) = None).
  { destruct l as [|b l']; [reflexivity|]. simpl in Hl.
    apply andb_prop in Hl as [Hb _].
    destruct (digit_facts b Hb) as (_ & _ & Hb' & _).
    unfold radix_literal.
    assert (one_of "xX" b = false /\ one_of "oO" b = false /\ one_of "bB" b = false)
      as (-> & -> & ->).
    { unfold one_of in *. simpl in *.
      repeat (apply orb_false_elim in Hb' as [? Hb']).
      repeat split; repeat (apply orb_false_intro); assumption. }
    destruct (Ascii.eqb a "0"); reflexivity. }
  unfold numeric_literal. rewrite Hrad, Hsign. unfold unsigned_decimal.
  case_if; [reflexivity|].
  rewrite Hdot. cbv zeta. rewrite (drop_while_all _ _ Hall). reflexivity.
Qed.

Lemma isNaN_starts_with_letter s : starts_with_letter s = true -> isNaN (JStr s) = true.
Proof.
  destruct s as [|a s]; [discriminate|]. simpl. intros H.
  apply andb_prop in H as [Ha HI]. apply negb_true_iff in HI.
  destruct (letter_facts a Ha) as (Hws & Hsign & Hdigit & Hdot & Hzero).
  unfold string_is_numeric. simpl.
  destruct (trim_head a (list_ascii_of_string s) Hws) as [l' ->].
  assert (Hrad : radix_literal (a :: l') = None).
  { unfold radix_literal. destruct l'; [reflexivity|]. rewrite Hzero. reflexivity. }
  unfold numeric_literal. rewrite Hrad, Hsign. unfold unsigned_decimal.
  rewrite bool_decide_eq_false_2.
  2:{ intros E. injection E as E _. subst a. discriminate. }
  rewrite Hdot. cbv zeta. simpl drop_while. rewrite Hdigit.
  rewrite bool_decide_eq_true_2 by reflexivity. reflexivity.
Qed.

Lemma ws_facts a :
  is_ws a = true -> one_of "+-" a = false /\ is_digit a = false.
Proof. by_cases_on_ascii a. Qed.

Lemma sign_facts a :
  one_of "+-" a = true -> is_ws a = false /\ Ascii.eqb a "0" = false.
Proof. by_cases_on_ascii a. Qed.

Lemma drop_while_split p l :
  exists pre, l = pre ++ drop_while p l /\ forallb p pre = true.
Proof.
  induction l as [|a l (pre & Hl & Hpre)]; [exists []; split; reflexivity|].
  simpl. destruct (p a) eqn:Ha.
  - exists (a :: pre). simpl. rewrite Ha, Hpre. split; [f_equal; exact Hl|reflexivity].
  - exists []. split; reflexivity.
Qed.

Lemma drop_while_stuck p a l : p a = false -> drop_while p (a :: l) = a :: l.
Proof. intros H. simpl. rewrite H. reflexivity. Qed.

(** An unsigned decimal numeral is a StrUnsignedDecimalLiteral without
    white space. *)
Lemma unsigned_numeral u :
  negb (bool_decide (drop_while is_digit u = u)) = true ->
  match drop_while is_digit u with
  | [] => true
  | d :: fraction => andb (Ascii.eqb d ".") (all_of is_digit fraction)
  end = true ->
  unsigned_decimal u = true
  /\ forallb (fun a => negb (is_ws a)) u = true
  /\ exists d0 u', u = d0 :: u' /\ is_digit d0 = true
       /\ match u' with r :: _ => one_of "xXoObB" r = false | [] => True end.
Proof.
  intros Hsome Htail.
  apply negb_true_iff, bool_decide_eq_false in Hsome.
  destruct u as [|d0 u']; [exfalso; apply Hsome; reflexivity|].
  destruct (is_digit d0) eqn:Hd0.
  2:{ exfalso. apply Hsome. apply drop_while_stuck. exact Hd0. }
  destruct (digit_facts d0 Hd0) as (Hws0 & _ & _ & Hdot0 & HI0).
  destruct (drop_while_split is_digit (d0 :: u')) as (pre & Hu & Hpre).
  assert (Hnows : forallb (fun a => negb (is_ws a)) (d0 :: u') = true).
  { rewrite Hu. rewrite forallb_app. apply andb_true_intro. split.
    - rewrite forallb_forall in *. intros x Hx.
      destruct (digit_facts x (Hpre x Hx)) as [-> _]. reflexivity.
    - destruct (drop_while is_digit (d0 :: u')) as [|d fraction]; [reflexivity|].
      apply andb_prop in Htail as [Hd Hfrac].
      apply Ascii.eqb_eq in Hd. subst d. simpl.
      unfold all_of in Hfrac. destruct fraction as [|f fraction]; [discriminate|].
      rewrite forallb_forall in *. intros x Hx.
      destruct (digit_facts x (Hfrac x Hx)) as [-> _]. reflexivity. }
  split; [|split; [exact Hnows|]].
  - unfold unsigned_decimal.
    rewrite bool_decide_eq_false_2.
    2:{ intros E. injection E as E _. subst d0. discriminate. }
    rewrite Hdot0. cbv zeta.
    rewrite (bool_decide_eq_false_2 _ Hsome). cbn [negb andb].
    destruct (drop_while is_digit (d0 :: u')) as [|d fraction]; [reflexivity|].
    apply andb_prop in Htail as [Hd Hfrac]. rewrite Hd.
    unfold all_of in Hfrac. destruct fraction as [|f fraction]; [discriminate|].
    rewrite (drop_while_all _ _ Hfrac). reflexivity.
  - exists d0, u'. split; [reflexivity|]. split; [exact Hd0|].
    destruct u' as [|r ds]; [exact I|].
    simpl in Htail. rewrite Hd0 in Htail. simpl in Htail.
    destruct (is_digit r) eqn:Hr.
    + destruct (digit_facts r Hr) as (_ & _ & Hx & _). exact Hx.
    + apply andb_prop in Htail as [Hd _]. apply Ascii.eqb_eq in Hd. subst r. reflexivity.
Qed.

Lemma radix_literal_none a l :
  Ascii.eqb a "0" = false
  \/ match l with r :: _ => one_of "xXoObB" r = false | [] => True end ->
  radix_literal (a :: l) = None.
Proof.
  intros H. unfold radix_literal. destruct l as [|r ds]; [reflexivity|].
  destruct H as [->|H]; [reflexivity|].
  assert (one_of "xX" r = false /\ one_of "oO" r = false /\ one_of "bB" r = false)
    as (-> & -> & ->).
  { unfold one_of in *. simpl in *.
    repeat (apply orb_false_elim in H as [? H]).
    repeat split; repeat (apply orb_false_intro); assumption. }
  destruct (Ascii.eqb a "0"); reflexivity.
Qed.

(** What the specification calls numeric, [isNaN] takes for a number. *)
Lemma spec_numeric_not_NaN v : spec_numeric v = true -> isNaN v = false.
Proof.
  destruct v as [| |b|z| |s|l]; try discriminate; [reflexivity|].
  unfold spec_numeric, writes_a_number, isNaN, string_is_numeric.
  generalize (list_ascii_of_string s). intros l. cbv zeta. intros H.
  apply andb_prop in H as [Hsome Htail]. apply negb_false_iff.
  destruct l as [|a rest].
  { exfalso. apply negb_true_iff, bool_decide_eq_false in Hsome.
    apply Hsome. reflexivity. }
  destruct (one_of "+-" a) eqn:Hsign.
  - destruct (unsigned_numeral rest Hsome Htail) as (Hdec & Hnows & _).
    destruct (sign_facts a Hsign) as [Hws Hzero].
    rewrite trim_no_ws by (simpl; rewrite Hws, Hnows; reflexivity).
    unfold numeric_literal.
    rewrite (radix_literal_none a rest (or_introl Hzero)), Hsign. exact Hdec.
  - destruct (unsigned_numeral (a :: rest) Hsome Htail)
      as (Hdec & Hnows & d0 & u' & Hu & _ & Hsecond).
    injection Hu as <- <-.
    rewrite trim_no_ws by exact Hnows.
    unfold numeric_literal.
    rewrite (radix_literal_none a rest (or_intror Hsecond)), Hsign. exact Hdec.
Qed.

Lemma isNaN_blank s : blank s = true -> isNaN (JStr s) = false.
Proof.
  unfold blank, isNaN, string_is_numeric, trim. intros H.
  rewrite (drop_while_all _ _ H). reflexivity.
Qed.

Lemma blank_not_numeric s : blank s = true -> spec_numeric (JStr s) = false.
Proof.
  unfold blank, spec_numeric, writes_a_number.
  destruct (list_ascii_of_string s) as [|a l]; [reflexivity|].
  simpl. intros H. apply andb_prop in H as [Ha _].
  destruct (ws_facts a Ha) as [-> Hd]. simpl. rewrite Hd.
  rewrite bool_decide_eq_true_2 by reflexivity. reflexivity.
Qed.

Lemma letter_not_numeric s : starts_with_letter s = true -> spec_numeric (JStr s) = false.
Proof.
  destruct s as [|a s]; [discriminate|]. simpl. intros H.
  apply andb_prop in H as [Ha _].
  destruct (letter_facts a Ha) as (_ & Hsign & Hdigit & _).
  unfold writes_a_number. simpl. rewrite Hsign. simpl. rewrite Hdigit.
  rewrite bool_decide_eq_true_2 by reflexivity. reflexivity.
Qed.

(** The single-value clause of a leaf whose [type] is a string. *)
Lemma compile_where_single (l : where_leaf) (op t cn : string) :
  operation l = JStr op ->
  type l = JStr t ->
  constructor_name (value l) = Ok cn -> cn <> "Array" ->
  compile_where {| leaf := l; values := None |}
  = Ok [Lit "<Query> <Where>"; Open op; Lit " ";
        (if andb (bool_decide (lower t = "lookup")) (negb (isNaN (value l)))
         then FieldRef (to_string (column l)) true Tight
         else FieldRef (to_string (column l)) false Spaced);
        ValueElem t (to_string (value l)); Close op; Lit "</Where></Query>"].
Proof.
  intros Hop Hty Hcn Hne.
  assert (Hdef : is_undefined (value l) = false).
  { destruct (value l); try reflexivity. discriminate. }
  unfold compile_where, leaf_clause. simpl. rewrite Hcn, Hop. simpl.
  rewrite (bool_decide_eq_false_2 _ Hne). rewrite andb_false_r.
  unfold plain_clause, single_value_body. rewrite Hty, Hop, Hdef. simpl.
  case_if; reflexivity.
Qed.

(** C7, the claim refuted: the empty string and the boolean [true] are not
    numeric, yet as values of a Lookup leaf they compile to a reference
    that carries [LookupId='TRUE']: [isNaN] is false of both. *)
Lemma C7_counterexample_empty_string_carries_marker :
  spec_numeric (JStr "") = false
  /\ compile_where (default_value
       {| leaf := dept_leaf (JStr "Eq") (JStr "Lookup") (JStr ""); values := None |})
     = Ok [Lit "<Query> <Where>"; Open "Eq"; Lit " ";
           FieldRef "Dept" true Tight;
           ValueElem "Lookup" ""; Close "Eq"; Lit "</Where></Query>"]
  /\ spec_numeric (JBool true) = false
  /\ compile_where (default_value
       {| leaf := dept_leaf (JStr "Eq") (JStr "Lookup") (JBool true); values := None |})
     = Ok [Lit "<Query> <Where>"; Open "Eq"; Lit " ";
           FieldRef "Dept" true Tight;
           ValueElem "Lookup" "true"; Close "Eq"; Lit "</Where></Query>"].
Proof. repeat split; reflexivity. Qed.

(** C7 as amended: a single-value leaf whose type is Lookup (in any letter
    case) compiles to a field reference that carries [LookupId='TRUE']
    exactly when [isNaN] of the value is false. Every numeric value, a
    number or a string that writes one such as "42", is of that kind and
    gets the marker; a string that starts with a letter, such as
    "Engineering", is not and gets the plain reference. The empty string,
    a string of white space and a boolean get the marker as well, although
    they are not numeric. *)
Theorem C7_lookup_marker_follows_isNaN (l : where_leaf) (op t cn : string) :
  operation l = JStr op ->
  type l = JStr t -> lower t = "lookup" ->
  constructor_name (value l) = Ok cn -> cn <> "Array" ->
  compile_where (default_value {| leaf := l; values := None |})
  = Ok [Lit "<Query> <Where>"; Open op; Lit " ";
        FieldRef (to_string (column l)) (negb (isNaN (value l)))
                 (if isNaN (value l) then Spaced else Tight);
        ValueElem t (to_string (value l)); Close op; Lit "</Where></Query>"]
  /\ (forall z, value l = JNum z -> isNaN (value l) = false)
  /\ (forall s, value l = JStr s -> decimal_digits s = true -> isNaN (value l) = false)
  /\ (forall s, value l = JStr s -> starts_with_letter s = true -> isNaN (value l) = true)
  /\ (spec_numeric (value l) = true -> isNaN (value l) = false)
  /\ (forall s, value l = JStr s -> starts_with_letter s = true ->
        spec_numeric (value l) = false)
  /\ (forall s, value l = JStr s -> blank s = true ->
        isNaN (value l) = false /\ spec_numeric (value l) = false)
  /\ (forall b, value l = JBool b ->
        isNaN (value l) = false /\ spec_numeric (value l) = false).
Proof.
  intros Hop Hty Hlookup Hcn Hne.
  assert (Hdef : default_value {| leaf := l; values := None |}
                 = {| leaf := l; values := None |}).
  { unfold default_value. simpl. destruct (value l); try reflexivity. discriminate. }
  rewrite Hdef. repeat apply conj.
  - rewrite (compile_where_single l op t cn) by assumption.
    rewrite Hlookup. simpl. destruct (isNaN (value l)); reflexivity.
  - intros z ->. reflexivity.
  - intros s -> Hs. apply isNaN_decimal_digits. exact Hs.
  - intros s -> Hs. apply isNaN_starts_with_letter. exact Hs.
  - apply spec_numeric_not_NaN.
  - intros s -> Hs. apply letter_not_numeric. exact Hs.
  - intros s -> Hs. split; [apply isNaN_blank|apply blank_not_numeric]; exact Hs.
  - intros b ->. split; reflexivity.
Qed.

(** The two values of the specification: "42" compiles with the marker,
    "Engineering" without it. *)
Lemma C7_witness_42_and_Engineering :
  compile_where (default_value
    {| leaf := dept_leaf (JStr "Eq") (JStr "Lookup") (JStr "42"); values := None |})
  = Ok [Lit "<Query> <Where>"; Open "Eq"; Lit " ";
        FieldRef "Dept" true Tight;
        ValueElem "Lookup" "42"; Close "Eq"; Lit "</Where></Query>"]
  /\
  compile_where (default_value
    {| leaf := dept_leaf (JStr "Eq") (JStr "Lookup") (JStr "Engineering"); values := None |})
  = Ok [Lit "<Query> <Where>"; Open "Eq"; Lit " ";
        FieldRef "Dept" false Spaced;
        ValueElem "Lookup" "Engineering"; Close "Eq"; Lit "</Where></Query>"].
Proof.
  split.
  - apply (C7_lookup_marker_follows_isNaN
             (dept_leaf (JStr "Eq") (JStr "Lookup") (JStr "42"))
             "Eq" "Lookup" "String");
      [reflexivity | reflexivity | reflexivity | reflexivity | discriminate].
  - apply (C7_lookup_marker_follows_isNaN
             (dept_leaf (JStr "Eq") (JStr "Lookup") (JStr "Engineering"))
             "Eq" "Lookup" "String");
      [reflexivity | reflexivity | reflexivity | reflexivity | discriminate].
Defined.

(** A leaf with [value] omitted reads as the same leaf with [value: '']
    once line 310 has run. *)
Lemma default_value_empty (l : where_leaf) :
  value l = JUndefined \/ value l = JStr "" ->
  default_value {| leaf := l; values := None |}
  = {| leaf := {| column := column l; operation := operation l;
                  value := JStr ""; type := type l |};
       values := None |}.
Proof.
  intros [H|H]; unfold default_value; simpl; rewrite H; simpl.
  - reflexivity.
  - destruct l; simpl in *. subst. reflexivity.
Qed.

(** C8, the claim refuted: with a type tag supplied and an empty value,
    the compiled predicate does contain a value element, an empty one. *)
Lemma C8_counterexample_typed_leaf_has_value_element :
  exists ps,
    compile_where (default_value
      {| leaf := dept_leaf (JStr "Eq") (JStr "Text") (JStr ""); values := None |})
    = Ok ps
    /\ ps = [Lit "<Query> <Where>"; Open "Eq"; Lit " "; FieldRef "Dept" false Spaced;
             ValueElem "Text" ""; Close "Eq"; Lit "</Where></Query>"]
    /\ existsb is_value_elem ps = true.
Proof. eexists. split; [reflexivity|]. split; reflexivity. Qed.

(** With the value omitted and a type tag supplied, line 310 has turned the
    value into the empty string before line 422 tests it, and the empty
    element is emitted as well. *)
Example omitted_value_with_type :
  compile_where (default_value
    {| leaf := dept_leaf (JStr "Eq") (JStr "Text") JUndefined; values := None |})
  = Ok [Lit "<Query> <Where>"; Open "Eq"; Lit " "; FieldRef "Dept" false Spaced;
        ValueElem "Text" ""; Close "Eq"; Lit "</Where></Query>"].
Proof. reflexivity. Qed.

(** C8 as amended: a leaf whose value is omitted or the empty string
    compiles to a field reference for its column. Without a type tag no
    value element is emitted. With a type tag [t] and the empty string as
    value, the reference is followed by the empty element
    [<Value Type='t'></Value>] (and, the empty string not being NaN, a
    Lookup type tag puts the marker on the reference). *)
Theorem C8_empty_value_clause (l : where_leaf) (op : string) :
  operation l = JStr op ->
  (value l = JUndefined \/ value l = JStr "" ->
   type l = JUndefined ->
   compile_where (default_value {| leaf := l; values := None |})
   = Ok [Lit "<Query> <Where>"; Open op; Lit " ";
         FieldRef (to_string (column l)) false Spaced;
         Close op; Lit "</Where></Query>"])
  /\
  (forall t, value l = JStr "" -> type l = JStr t ->
   compile_where (default_value {| leaf := l; values := None |})
   = Ok [Lit "<Query> <Where>"; Open op; Lit " ";
         (if bool_decide (lower t = "lookup")
          then FieldRef (to_string (column l)) true Tight
          else FieldRef (to_string (column l)) false Spaced);
         ValueElem t ""; Close op; Lit "</Where></Query>"]).
Proof.
  intros Hop. split.
  - intros Hval Hty. rewrite (default_value_empty l Hval).
    unfold compile_where, leaf_clause. simpl. rewrite Hop. simpl.
    rewrite andb_false_r. unfold plain_clause, single_value_body. simpl. rewrite Hty.
    reflexivity.
  - intros t Hval Hty. rewrite (default_value_empty l (or_intror Hval)).
    rewrite (compile_where_single _ op t "String"); simpl; try assumption;
      try reflexivity; try discriminate.
    rewrite andb_true_r. reflexivity.
Qed.

Lemma C8_witness_untyped_and_typed :
  compile_where (default_value
    {| leaf := dept_leaf (JStr "IsNull") JUndefined JUndefined; values := None |})
  = Ok [Lit "<Query> <Where>"; Open "IsNull"; Lit " "; FieldRef "Dept" false Spaced;
        Close "IsNull"; Lit "</Where></Query>"]
  /\
  compile_where (default_value
    {| leaf := dept_leaf (JStr "Eq") (JStr "Lookup") (JStr ""); values := None |})
  = Ok [Lit "<Query> <Where>"; Open "Eq"; Lit " "; FieldRef "Dept" true Tight;
        ValueElem "Lookup" ""; Close "Eq"; Lit "</Where></Query>"].
Proof.
  split.
  - apply (proj1 (C8_empty_value_clause
                    (dept_leaf (JStr "IsNull") JUndefined JUndefined) "IsNull" eq_refl)).
    + left. reflexivity.
    + reflexivity.
  - apply (proj2 (C8_empty_value_clause
                    (dept_leaf (JStr "Eq") (JStr "Lookup") (JStr "")) "Eq" eq_refl)
                 "Lookup"); reflexivity.
Defined.

(** ** Properties of the retrieval loop *)

Lemma default_value_idem w : default_value (default_value w) = default_value w.
Proof.
  unfold default_value. destruct (is_undefined (value (leaf w))) eqn:E; simpl.
  - reflexivity.
  - rewrite E. reflexivity.
Qed.

Lemma loadListData_keeps_position q :
  pagePosition (fst (loadListData q)) = pagePosition q.
Proof.
  unfold loadListData. destruct (invalid_details q); [reflexivity|].
  destruct (query q); reflexivity.
Qed.

Lemma loadListData_position q q1 req :
  loadListData q = (q1, Ok req) ->
  pagePosition q = Some (position req) /\ pagePosition q1 = Some (position req).
Proof.
  intros H.
  assert (Hq1 : pagePosition q1 = pagePosition q).
  { rewrite <- (loadListData_keeps_position q), H. reflexivity. }
  rewrite Hq1. cut (pagePosition q = Some (position req)); [tauto|].
  unfold loadListData in H.
  destruct (invalid_details q) eqn:Hinv; [discriminate|].
  unfold invalid_details in Hinv.
  apply orb_false_elim in Hinv as [_ Hinv].
  apply orb_false_elim in Hinv as [_ Hinv].
  destruct (pagePosition q) as [p|]; [|discriminate].
  destruct (query q).
  - injection H as _ <-. reflexivity.
  - injection H as _ H.
    destruct (customQuery _ _ _); simpl in H; [|discriminate].
    injection H as <-. reflexivity.
Qed.

(** Once a call of [loadListData] has succeeded, calling it again on the
    descriptor it left, at any position, issues the same request at that
    position and leaves the descriptor as it is. *)
Lemma loadListData_again q q1 req p :
  loadListData q = (q1, Ok req) ->
  loadListData (set_pagePosition (Some p) q1)
  = (set_pagePosition (Some p) q1, Ok (at_position p req)).
Proof.
  intros H. unfold loadListData in *.
  destruct (invalid_details q) eqn:Hinv; [discriminate|].
  assert (Hw : forall wh, option_map default_value (option_map default_value wh)
                          = option_map default_value wh).
  { intros [w|]; simpl; [rewrite default_value_idem|]; reflexivity. }
  destruct q as [ln lg lc qu wh jn pp].
  destruct qu as [xml|]; simpl in H.
  - injection H as <- <-.
    destruct ln, lg, lc, pp; try discriminate Hinv; reflexivity.
  - injection H as <- H.
    unfold set_where, set_pagePosition, requested_columns in *. simpl in *.
    rewrite Hw.
    destruct (customQuery _ _ _); simpl in *; [|discriminate].
    injection H as <-.
    destruct ln, lg, lc, pp; try discriminate Hinv; reflexivity.
Qed.

Lemma project_items_length id cols items rows :
  project_items id cols items = Ok rows -> length rows = length items.
Proof.
  revert rows. induction items as [|item items IH]; simpl; intros rows H.
  - injection H as <-. reflexivity.
  - destruct (project_item id item cols ∅); simpl in H; [|discriminate].
    destruct (project_items id cols items); simpl in H; [|discriminate].
    injection H as <-. simpl. f_equal. apply IH. reflexivity.
Qed.

(** The continuation rule of [resolve] (lines 210-234), for any store: a
    page of exactly 5000 rows advances the position and asks again; any
    other page ends the retrieval with the rows collected. *)
Lemma request_loop_resolved S fuel st q q1 req items st' rows listData nested :
  loadListData q = (q1, Ok req) ->
  executeQueryAsync S st req = (Resolved items, st') ->
  project_items (list_identifier q1) (requested_columns q1) items = Ok rows ->
  request_loop S (Datatypes.S fuel) st q listData nested
  = if page_size rows =? 5000
    then sent req
           (request_loop S fuel st'
              (advance 5000 (if page_size (listData ++ rows) =? 5000
                             then advance 1 q1 else q1))
              (listData ++ rows) true)
    else {| requests := [req]; final := onSuccessUser (listData ++ rows);
            descriptor := q1 |}.
Proof.
  intros Hload Hexec Hrows. simpl. rewrite Hload, Hexec. unfold resume.
  rewrite Hrows. reflexivity.
Qed.

Lemma loadListData_identity q :
  list_identifier (fst (loadListData q)) = list_identifier q
  /\ requested_columns (fst (loadListData q)) = requested_columns q.
Proof.
  unfold loadListData. destruct (invalid_details q); [split; reflexivity|].
  destruct (query q); split; reflexivity.
Qed.

(** The requests that follow the first full page. *)
Lemma later_pages q q1 req :
  loadListData q = (q1, Ok req) ->
  forall fulls full_rows,
    Forall2 (fun items rows => projected q1 items rows /\ page_size rows = 5000)
            fulls full_rows ->
  forall last last_rows rest,
    projected q1 last last_rows -> page_size last_rows <> 5000 ->
  forall fuel p listData nested,
    (length fulls < fuel)%nat -> page_size listData <> 0 ->
    request_loop scripted fuel (List.map Resolved fulls ++ Resolved last :: rest)
                 (set_pagePosition (Some p) q1) listData nested
    = {| requests := List.map (fun c => at_position c req)
                              (positions_from p (Datatypes.S (length fulls)));
         final := onSuccessUser (listData ++ concat full_rows ++ last_rows);
         descriptor := set_pagePosition
                         (Some (p + 5000 * Z.of_nat (length fulls))) q1 |}.
Proof.
  intros Hload fulls full_rows Hfulls.
  induction Hfulls as [|items rows fulls full_rows [Hrows Hsize] _ IH];
    intros last last_rows rest Hlast Hshort fuel p listData nested Hfuel Hacc.
  - destruct fuel as [|fuel]; [simpl in Hfuel; lia|].
    cbn [List.map app].
    rewrite (request_loop_resolved scripted fuel (Resolved last :: rest) _ _ _ last rest last_rows
               listData nested (loadListData_again q q1 req p Hload) eq_refl Hlast).
    apply Z.eqb_neq in Hshort. rewrite Hshort. simpl.
    rewrite Z.add_0_r. reflexivity.
  - destruct fuel as [|fuel]; [simpl in Hfuel; lia|].
    cbn [List.map app].
    rewrite (request_loop_resolved scripted fuel
               (Resolved items :: List.map Resolved fulls ++ Resolved last :: rest)
               _ _ _ items
               (List.map Resolved fulls ++ Resolved last :: rest) rows
               listData nested (loadListData_again q q1 req p Hload) eq_refl Hrows).
    assert (Hfull : (page_size rows =? 5000) = true) by (apply Z.eqb_eq; exact Hsize).
    assert (Hmore : (page_size (listData ++ rows) =? 5000) = false).
    { apply Z.eqb_neq. unfold page_size in *. rewrite length_app. lia. }
    rewrite Hfull, Hmore.
    change (advance 5000 (set_pagePosition (Some p) q1))
      with (set_pagePosition (Some (p + 5000)) q1).
    rewrite (IH last last_rows rest Hlast Hshort fuel (p + 5000) (listData ++ rows) true).
    + unfold sent. simpl. f_equal.
      * rewrite <- !app_assoc. reflexivity.
      * f_equal. f_equal. simpl length. lia.
    + simpl in Hfuel. lia.
    + unfold page_size in *. rewrite length_app. lia.
Qed.

(** C2: against a store that answers with full pages of 5000 items and then
    a page of another size, [getListData] issues one request per page and no
    more, hands the rows of all pages, in request order, to the success
    callback, and asks for the positions [p], [p + 5001], [p + 10001], ...
    where [p] is the starting position (0 when none is given). The
    retrieval goes on exactly as long as the pages are full: for any store,
    a page of exactly 5000 rows makes [resolve] advance the position and
    ask again, and a page of any other size makes it hand the rows collected
    to the success callback. *)
Theorem C2_retrieval_follows_full_pages
    (q : queryDetails) (req : request)
    (fulls : list (list list_item)) (full_rows : list (list row))
    (last : list list_item) (last_rows : list row)
    (rest : list reply) (fuel : nat) :
  snd (loadListData (default_pagePosition q)) = Ok req ->
  Forall2 (fun items rows => projected q items rows /\ page_size items = 5000)
          fulls full_rows ->
  projected q last last_rows ->
  page_size last <> 5000 ->
  (length fulls < fuel)%nat ->
  (final (getListData scripted fuel (List.map Resolved fulls ++ Resolved last :: rest) q)
     = onSuccessUser (concat full_rows ++ last_rows)
   /\ List.map position
        (requests (getListData scripted fuel
                     (List.map Resolved fulls ++ Resolved last :: rest) q))
      = cursors (first_cursor q) (Datatypes.S (length fulls))
   /\ length (requests (getListData scripted fuel
                          (List.map Resolved fulls ++ Resolved last :: rest) q))
      = Datatypes.S (length fulls))
  /\
  (forall (S : store) (n : nat) (st st' : store_state S) (q' q1 : queryDetails)
          (req' : request) (items : list list_item) (rows listData : list row)
          (nested : bool),
     loadListData q' = (q1, Ok req') ->
     executeQueryAsync S st req' = (Resolved items, st') ->
     projected q1 items rows ->
     (page_size rows = 5000 ->
      request_loop S (Datatypes.S n) st q' listData nested
      = sent req'
          (request_loop S n st'
             (advance 5000 (if page_size (listData ++ rows) =? 5000
                            then advance 1 q1 else q1))
             (listData ++ rows) true))
     /\ (page_size rows <> 5000 ->
         request_loop S (Datatypes.S n) st q' listData nested
         = {| requests := [req']; final := onSuccessUser (listData ++ rows);
              descriptor := q1 |})).
Proof.
  intros Hreq Hfulls Hlast Hshort Hfuel.
  split.
  2:{ intros S n st st' q' q1 req' items rows listData nested Hload Hexec Hrows.
      rewrite (request_loop_resolved S n st q' q1 req' items st' rows listData nested
                 Hload Hexec Hrows).
      split; intros Hsize.
      - apply Z.eqb_eq in Hsize. rewrite Hsize. reflexivity.
      - apply Z.eqb_neq in Hsize. rewrite Hsize. reflexivity. }
  set (q0 := default_pagePosition q) in *.
  destruct (loadListData q0) as [q1 res] eqn:Hload. simpl in Hreq. subst res.
  destruct (loadListData_identity q0) as [Hid Hcols]. rewrite Hload in Hid, Hcols.
  simpl in Hid, Hcols.
  assert (Hq0 : list_identifier q0 = list_identifier q
                /\ requested_columns q0 = requested_columns q).
  { unfold q0, default_pagePosition. destruct (pagePosition q); split; reflexivity. }
  destruct Hq0 as [Hq0id Hq0cols].
  assert (Hproj : forall items rows, projected q items rows -> projected q1 items rows).
  { unfold projected. intros items rows H. rewrite Hid, Hcols, Hq0id, Hq0cols. exact H. }
  destruct (loadListData_position _ _ _ Hload) as [Hp0 Hp1].
  assert (Hfirst : first_cursor q = position req).
  { unfold first_cursor. unfold q0, default_pagePosition in Hp0.
    destruct (pagePosition q) eqn:E; simpl in Hp0; congruence. }
  unfold getListData. fold q0.
  destruct fuel as [|fuel]; [simpl in Hfuel; lia|].
  destruct Hfulls as [|items rows fulls full_rows [Hrows Hsize] Hfulls].
  - cbn [List.map app].
    rewrite (request_loop_resolved scripted fuel (Resolved last :: rest) _ _ _ last rest last_rows
               [] false Hload eq_refl (Hproj _ _ Hlast)).
    assert (Hlen : page_size last_rows = page_size last).
    { unfold page_size. f_equal. eapply project_items_length. exact Hlast. }
    assert (Hne : (page_size last_rows =? 5000) = false)
      by (apply Z.eqb_neq; lia).
    rewrite Hne. simpl. rewrite Hfirst. repeat split; reflexivity.
  - cbn [List.map app].
    rewrite (request_loop_resolved scripted fuel
               (Resolved items :: List.map Resolved fulls ++ Resolved last :: rest)
               _ _ _ items
               (List.map Resolved fulls ++ Resolved last :: rest) rows
               [] false Hload eq_refl (Hproj _ _ Hrows)).
    assert (Hlen : page_size rows = 5000).
    { unfold page_size in *. rewrite (project_items_length _ _ _ _ Hrows). exact Hsize. }
    simpl app. rewrite Hlen. simpl Z.eqb. cbv iota.
    assert (Hq1 : q1 = set_pagePosition (Some (position req)) q1).
    { destruct q1; simpl in *. unfold set_pagePosition. simpl. congruence. }
    assert (Hadv : advance 5000 (advance 1 q1)
                   = set_pagePosition (Some (position req + 5001)) q1).
    { rewrite Hq1 at 1. unfold advance, set_pagePosition. simpl.
      f_equal. f_equal. lia. }
    rewrite Hadv.
    assert (Hlater : Forall2 (fun items rows =>
                                projected q1 items rows /\ page_size rows = 5000)
                             fulls full_rows).
    { clear -Hfulls Hproj. induction Hfulls as [|i r fs rs [Hi Hs] _ IH];
        constructor; [|exact IH].
      split; [apply Hproj; exact Hi|].
      unfold page_size in *. rewrite (project_items_length _ _ _ _ Hi). exact Hs. }
    assert (Hlast_rows : page_size last_rows <> 5000).
    { unfold page_size in *. rewrite (project_items_length _ _ _ _ Hlast). exact Hshort. }
    rewrite (later_pages q0 q1 req Hload fulls full_rows Hlater last last_rows rest
               (Hproj _ _ Hlast) Hlast_rows fuel (position req + 5001) rows true).
    + unfold sent. simpl. rewrite Hfirst.
      assert (Hpos : forall c n, List.map position
                       (List.map (fun c => at_position c req) (positions_from c n))
                     = positions_from c n).
      { intros c n. revert c. induction n as [|n IHn]; intros c; simpl;
          [reflexivity|]. f_equal. apply IHn. }
      split; [|split].
      * rewrite <- app_assoc. reflexivity.
      * f_equal. apply (Hpos _ (Datatypes.S (length fulls))).
      * rewrite length_map. f_equal. f_equal.
        clear. generalize (position req + 5001 + 5000).
        induction (length fulls) as [|n IHn]; intros c; simpl; [reflexivity|].
        f_equal. apply IHn.
    + simpl in Hfuel. lia.
    + lia.
Qed.

Lemma id_item_projected i :
  project_item "Customers" (id_item i) ["ID"] ∅ = Ok (id_item i).
Proof.
  unfold project_item, get_item, id_item. rewrite lookup_singleton_eq. reflexivity.
Qed.

Lemma id_items_projected first count :
  projected customers (id_items first count) (id_items first count).
Proof.
  unfold projected, id_items.
  change (list_identifier customers) with "Customers".
  change (requested_columns customers) with ["ID"].
  revert first.
  induction count as [|count IH]; intros first; [reflexivity|].
  cbn [List.map seq project_items]. rewrite id_item_projected. cbn [bind].
  rewrite (IH (Datatypes.S first)). reflexivity.
Qed.

Lemma id_items_size first count : page_size (id_items first count) = Z.of_nat count.
Proof. unfold page_size, id_items. rewrite length_map, length_seq. reflexivity. Qed.

Example rows_of_the_three_pages :
  page_size (concat [id_items 1 5000; id_items 5001 5000] ++ id_items 10001 3217)
  = 13217.
Proof.
  pose proof (id_items_size 1 5000) as H1.
  pose proof (id_items_size 5001 5000) as H2.
  pose proof (id_items_size 10001 3217) as H3.
  revert H1 H2 H3.
  generalize (id_items 1 5000), (id_items 5001 5000), (id_items 10001 3217).
  intros p1 p2 p3 H1 H2 H3. unfold page_size in *. cbn [concat].
  rewrite !length_app. cbn [length]. lia.
Qed.

(** The store of the specification's example: pages of 5000, 5000 and 3217
    items. Three requests, at 0, 5001 and 10001, and 13217 rows. *)
Lemma C2_witness_5000_5000_3217 :
  (final (getListData scripted 3
           (List.map Resolved [id_items 1 5000; id_items 5001 5000]
            ++ Resolved (id_items 10001 3217) :: []) customers)
    = onSuccessUser (concat [id_items 1 5000; id_items 5001 5000]
                     ++ id_items 10001 3217)
  /\ List.map position
       (requests (getListData scripted 3
                    (List.map Resolved [id_items 1 5000; id_items 5001 5000]
                     ++ Resolved (id_items 10001 3217) :: []) customers))
     = [0; 5001; 10001]
  /\ length (requests (getListData scripted 3
                         (List.map Resolved [id_items 1 5000; id_items 5001 5000]
                          ++ Resolved (id_items 10001 3217) :: []) customers))
     = 3%nat)
  /\ page_size (concat [id_items 1 5000; id_items 5001 5000] ++ id_items 10001 3217)
     = 13217.
Proof.
  split; [|exact rows_of_the_three_pages].
  apply (fun H1 H2 H3 H4 H5 =>
         proj1 (C2_retrieval_follows_full_pages customers
           {| spList := getByTitle "Customers";
              viewXml := "<View Scope='RecursiveAll'><ViewFields><FieldRef Name='ID' /></ViewFields></View>";
              position := 0; included := ["ID"] |}
           [id_items 1 5000; id_items 5001 5000]
           [id_items 1 5000; id_items 5001 5000]
           (id_items 10001 3217) (id_items 10001 3217) [] 3 H1 H2 H3 H4 H5)).
  - reflexivity.
  - constructor;
      [split; [apply id_items_projected | rewrite id_items_size; reflexivity]|].
    constructor;
      [split; [apply id_items_projected | rewrite id_items_size; reflexivity]|].
    constructor.
  - apply id_items_projected.
  - rewrite id_items_size. lia.
  - cbn [length]. lia.
Defined.


(** Where a run of the loop leaves the descriptor's [pagePosition]. *)
Lemma request_loop_descriptor (S : store) :
  forall fuel (st : store_state S) q listData nested p,
    pagePosition q = Some p ->
    exists p',
      pagePosition (descriptor (request_loop S fuel st q listData nested)) = Some p'
      /\ p <= p'
      /\ (requests (request_loop S fuel st q listData nested) = []
          \/ head (List.map position
                     (requests (request_loop S fuel st q listData nested))) = Some p)
      /\ (delivered (final (request_loop S fuel st q listData nested)) = true ->
          last (List.map position
                  (requests (request_loop S fuel st q listData nested))) = Some p'
          /\ ((2 <= length (requests (request_loop S fuel st q listData nested)))%nat ->
              p < p')).
Proof.
  induction fuel as [|fuel IH]; intros st q listData nested p Hp.
  - exists p. simpl. split; [exact Hp|]. split; [lia|]. split; [left; reflexivity|].
    discriminate.
  - simpl. destruct (loadListData q) as [q1 [req|e]] eqn:Hload.
    2:{ exists p. simpl.
        pose proof (loadListData_keeps_position q) as Hk. rewrite Hload in Hk.
        simpl in Hk. rewrite Hk.
        split; [exact Hp|]. split; [lia|]. split; [left; reflexivity|].
        destruct nested; discriminate. }
    destruct (loadListData_position _ _ _ Hload) as [Hq Hq1].
    assert (Hreq : position req = p) by congruence.
    assert (Hone : forall o,
               exists p',
                 pagePosition q1 = Some p' /\ p <= p'
                 /\ ([req] = [] \/ head (List.map position [req]) = Some p)
                 /\ (delivered o = true ->
                     last (List.map position [req]) = Some p'
                     /\ ((2 <= length [req])%nat -> p < p'))).
    { intros o. exists p. rewrite Hq1. simpl. rewrite Hreq.
      split; [reflexivity|]. split; [lia|]. split; [right; reflexivity|].
      intros _. split; [reflexivity|lia]. }
    destruct (executeQueryAsync S st req) as [answer st'].
    destruct (resume q1 answer) as [results|message|e].
    + destruct (page_size results =? 5000).
      * set (q3 := advance 5000
                     (if page_size (listData ++ results) =? 5000
                      then advance 1 q1 else q1)).
        assert (Hq3 : exists p3, pagePosition q3 = Some p3 /\ p + 5000 <= p3).
        { unfold q3. destruct (page_size (listData ++ results) =? 5000);
            unfold advance; simpl; rewrite Hq1; simpl; eexists; split;
              try reflexivity; lia. }
        destruct Hq3 as (p3 & Hp3 & Hle).
        destruct (IH st' q3 (listData ++ results) true p3 Hp3)
          as (p' & Hd & Hle' & Hhead & Hlast).
        exists p'. unfold sent. simpl. rewrite Hreq.
        split; [exact Hd|]. split; [lia|]. split; [right; reflexivity|].
        intros Hdel. destruct (Hlast Hdel) as [Hl _]. split; [|lia].
        rewrite last_cons, Hl. reflexivity.
      * apply (Hone (onSuccessUser (listData ++ results))).
    + apply (Hone (onFailureUser message)).
    + apply (Hone (ThrownInCallback e)).
Qed.

(** C9: [getListData] writes to the caller's descriptor. Whatever the
    store answers, the descriptor ends with a defined [pagePosition] (0 is
    stored when it was missing, and the first request is made from there);
    when the retrieval ends in a callback, that field holds the position of
    the last request issued, and after two requests or more it is larger
    than the position the retrieval started from, so it differs from what
    the caller passed. *)
Theorem C9_getListData_writes_pagePosition
    (S : store) (fuel : nat) (st : store_state S) (q : queryDetails) :
  exists p,
    pagePosition (descriptor (getListData S fuel st q)) = Some p
    /\ (pagePosition q = None ->
        requests (getListData S fuel st q) = []
        \/ head (List.map position (requests (getListData S fuel st q))) = Some 0)
    /\ (delivered (final (getListData S fuel st q)) = true ->
        last (List.map position (requests (getListData S fuel st q))) = Some p
        /\ ((2 <= length (requests (getListData S fuel st q)))%nat ->
            first_cursor q < p
            /\ pagePosition (descriptor (getListData S fuel st q)) <> pagePosition q)).
Proof.
  unfold getListData.
  assert (Hstart : pagePosition (default_pagePosition q) = Some (first_cursor q)).
  { unfold default_pagePosition, first_cursor.
    destruct (pagePosition q) eqn:E; [exact E|reflexivity]. }
  destruct (request_loop_descriptor S fuel st (default_pagePosition q) [] false
              (first_cursor q) Hstart) as (p & Hd & Hle & Hhead & Hlast).
  exists p. split; [exact Hd|]. split.
  - intros Hnone. unfold first_cursor in Hhead. rewrite Hnone in Hhead. exact Hhead.
  - intros Hdel. destruct (Hlast Hdel) as [Hl Hlt]. split; [exact Hl|].
    intros Hlen. specialize (Hlt Hlen). split; [exact Hlt|].
    rewrite Hd. unfold first_cursor in Hlt.
    destruct (pagePosition q) as [p0|]; [|discriminate].
    intros E. injection E as E. lia.
Qed.

(** A retrieval over two pages, of 5000 items and of one item, from a
    descriptor without [pagePosition]: the descriptor is left at 5001. *)
Lemma C9_witness_two_pages :
  pagePosition (descriptor (getListData scripted 2
                  [Resolved (id_items 1 5000); Resolved (id_items 5001 1)] customers))
    = Some 5001
  /\ pagePosition customers = None
  /\ exists p,
      pagePosition (descriptor (getListData scripted 2
                      [Resolved (id_items 1 5000); Resolved (id_items 5001 1)] customers))
        = Some p
      /\ (pagePosition customers = None ->
          requests (getListData scripted 2
                      [Resolved (id_items 1 5000); Resolved (id_items 5001 1)] customers) = []
          \/ head (List.map position (requests (getListData scripted 2
                      [Resolved (id_items 1 5000); Resolved (id_items 5001 1)] customers)))
             = Some 0)
      /\ (delivered (final (getListData scripted 2
                      [Resolved (id_items 1 5000); Resolved (id_items 5001 1)] customers))
          = true ->
          last (List.map position (requests (getListData scripted 2
                      [Resolved (id_items 1 5000); Resolved (id_items 5001 1)] customers)))
            = Some p
          /\ ((2 <= length (requests (getListData scripted 2
                      [Resolved (id_items 1 5000); Resolved (id_items 5001 1)] customers)))%nat ->
              first_cursor customers < p
              /\ pagePosition (descriptor (getListData scripted 2
                      [Resolved (id_items 1 5000); Resolved (id_items 5001 1)] customers))
                 <> pagePosition customers)).
Proof.
  split; [vm_compute; reflexivity|]. split; [reflexivity|].
  apply (C9_getListData_writes_pagePosition scripted 2
           [Resolved (id_items 1 5000); Resolved (id_items 5001 1)] customers).
Defined.

(** An item either carries every requested column and projects to a row,
    or lacks one of them and the projection throws, naming it. *)
Lemma project_item_cases id (item : list_item) cols (itemRow : row) :
  (Forall (fun c => item !! c <> None) cols
   /\ exists itemRow', project_item id item cols itemRow = Ok itemRow')
  \/ (exists c, In c cols /\ item !! c = None
                /\ project_item id item cols itemRow = Throw (missing_column c id)).
Proof.
  revert itemRow. induction cols as [|c cols IH]; intros itemRow; simpl.
  - left. split; [constructor|eauto].
  - unfold get_item. destruct (item !! c) as [v|] eqn:E.
    + destruct (IH (<[c := v]> itemRow)) as [[Hall [r Hr]]|(c' & Hin & Hc' & Hthrow)].
      * left. split; [constructor; [congruence|exact Hall]|eauto].
      * right. exists c'. auto.
    + right. exists c. auto.
Qed.

Lemma project_items_missing id cols (items : list list_item) :
  (exists item c, In item items /\ In c cols /\ item !! c = None) ->
  exists item c, In item items /\ In c cols /\ item !! c = None
                 /\ project_items id cols items = Throw (missing_column c id).
Proof.
  induction items as [|item items IH]; intros (bad & c & Hbad & Hc & Hnone).
  - destruct Hbad.
  - simpl. destruct (project_item_cases id item cols ∅)
      as [[Hall [r Hr]]|(c' & Hin & Hc' & Hthrow)].
    + rewrite Hr. simpl.
      destruct Hbad as [->|Hbad].
      * rewrite Forall_forall in Hall. exfalso.
        apply (Hall c); [apply list_elem_of_In; exact Hc|exact Hnone].
      * destruct IH as (item' & c' & Hin' & Hc' & Hnone' & Hthrow).
        { exists bad, c. auto. }
        exists item', c'. rewrite Hthrow. simpl. auto.
    + exists item, c'. rewrite Hthrow. simpl. auto.
Qed.

(** C4, the claim refuted: a page with an item that lacks the requested
    column [Phone] does not reach the failure callback; the exception leaves
    the continuation, whereas a rejection by the store does reach it. *)
Lemma C4_counterexample_not_the_failure_callback :
  let q := {| listName := Some "Customers"; listGuid := None;
              listColumns := Some ["Name"; "Phone"]; query := None;
              where_ := None; join := None; pagePosition := None |} in
  final (getListData scripted 5 [Resolved [{[ "Name" := JStr "Ann" ]}]] q)
    = ThrownInCallback (missing_column "Phone" "Customers")
  /\ (forall message,
        final (getListData scripted 5 [Resolved [{[ "Name" := JStr "Ann" ]}]] q)
        <> onFailureUser message)
  /\ final (getListData scripted 5 [Rejected "The list does not exist."] q)
     = onFailureUser "The list does not exist.".
Proof.
  split; [vm_compute; reflexivity|]. split; [|vm_compute; reflexivity].
  intros message. vm_compute. discriminate.
Qed.

(** C4 as amended: when an item of a returned page lacks a requested
    column, the continuation throws an exception whose text names that
    column and the list; the retrieval ends there: no callback of the
    caller is invoked (neither the failure callback nor the success
    callback, so the rows of that page and of the pages before it are not
    delivered) and no further request is issued. *)
Theorem C4_missing_column_is_thrown
    (S : store) (fuel : nat) (st st' : store_state S)
    (q q1 : queryDetails) (req : request) (items : list list_item)
    (listData : list row) (nested : bool) :
  loadListData q = (q1, Ok req) ->
  executeQueryAsync S st req = (Resolved items, st') ->
  (exists item c, In item items /\ In c (requested_columns q1) /\ item !! c = None) ->
  exists item c,
    In item items /\ In c (requested_columns q1) /\ item !! c = None
    /\ request_loop S (Datatypes.S fuel) st q listData nested
       = {| requests := [req];
            final := ThrownInCallback (missing_column c (list_identifier q1));
            descriptor := q1 |}
    /\ delivered (final (request_loop S (Datatypes.S fuel) st q listData nested)) = false.
Proof.
  intros Hload Hexec Hmissing.
  destruct (project_items_missing (list_identifier q1) _ _ Hmissing)
    as (item & c & Hitem & Hc & Hnone & Hthrow).
  exists item, c. split; [exact Hitem|]. split; [exact Hc|]. split; [exact Hnone|].
  assert (Hrun : request_loop S (Datatypes.S fuel) st q listData nested
                 = {| requests := [req];
                      final := ThrownInCallback (missing_column c (list_identifier q1));
                      descriptor := q1 |}).
  { simpl. rewrite Hload, Hexec. unfold resume. rewrite Hthrow. reflexivity. }
  rewrite Hrun. split; reflexivity.
Qed.

(** A second page whose item lacks [Phone], after a full first page. *)
Lemma C4_witness_missing_phone :
  let q := {| listName := Some "Customers"; listGuid := None;
              listColumns := Some ["Name"; "Phone"]; query := None;
              where_ := None; join := None; pagePosition := Some 5001 |} in
  let req := {| spList := getByTitle "Customers";
                viewXml := "<View Scope='RecursiveAll'><ViewFields><FieldRef Name='Name' /><FieldRef Name='Phone' /></ViewFields></View>";
                position := 5001; included := ["Name"; "Phone"] |} in
  exists (item : list_item) c,
    In item [{[ "Name" := JStr "Ann" ]}] /\ In c (requested_columns q)
    /\ item !! c = None
    /\ request_loop scripted 1 [Resolved [{[ "Name" := JStr "Ann" ]}]] q
                    (id_items 1 5000) true
       = {| requests := [req];
            final := ThrownInCallback (missing_column c (list_identifier q));
            descriptor := q |}
    /\ delivered (final (request_loop scripted 1 [Resolved [{[ "Name" := JStr "Ann" ]}]] q
                                      (id_items 1 5000) true)) = false.
Proof.
  intros q req.
  apply (C4_missing_column_is_thrown scripted 0
           [Resolved [{[ "Name" := JStr "Ann" ]}]] [] q q req
           [{[ "Name" := JStr "Ann" ]}] (id_items 1 5000) true).
  - reflexivity.
  - reflexivity.
  - exists {[ "Name" := JStr "Ann" ]}, "Phone".
    split; [left; reflexivity|]. split; [right; left; reflexivity|].
    vm_compute. reflexivity.
Defined.

(** ** Properties of the write path *)

Lemma collect_accepted (host : sp_host) (ids : list jsval) :
  (forall v, accepts_lookupId host v = true) ->
  collect (new_FieldLookupValue host) ids = Ok (List.map FieldLookupValue ids).
Proof.
  intros Hacc. induction ids as [|v ids IH]; simpl; [reflexivity|].
  unfold new_FieldLookupValue at 1. rewrite Hacc. simpl. rewrite IH. reflexivity.
Qed.

(** Outside the Lookup type the two methods run the same text: they set
    the same value, and fail together. *)
Lemma update_add_agree_off_lookup (host : sp_host) (c : column_entry) (t : string) :
  toLowerCase (Type_ c) = Ok t -> t <> "lookup" ->
  (forall v, update_value host c = Ok v <-> add_value host c = Ok v)
  /\ ((exists e, update_value host c = Throw e) <-> (exists e, add_value host c = Throw e)).
Proof.
  intros Ht Hne. unfold update_value, add_value. rewrite Ht. simpl.
  rewrite (bool_decide_eq_false_2 _ Hne).
  destruct (bool_decide (t = "url")).
  - destruct (new_FieldUrlValue host (URL c) (Description c)); simpl.
    + split; [tauto|]. split; intros [e He]; discriminate.
    + split; [split; discriminate|]. split; intros _; eauto.
  - destruct (bool_decide (t = "user")); tauto.
Qed.

(** C3 (code defect): the two methods do not map a Lookup descriptor alike.
    On [LookupID: ''] [updateListItem] clears the field while [addListItem]
    builds a lookup value holding the empty string; on [LookupID: [3,7,9]]
    [addListItem] builds one lookup value per element while [updateListItem]
    builds a single lookup value holding the whole array. *)
Theorem C3_update_and_add_differ_on_lookup :
  update_value storing_host (lookup_entry (JStr "")) = Ok Null
  /\ add_value storing_host (lookup_entry (JStr ""))
     = Ok (Object (FieldLookupValue (JStr "")))
  /\ update_value storing_host (lookup_entry (JArr [JNum 3; JNum 7; JNum 9]))
     = Ok (Object (FieldLookupValue (JArr [JNum 3; JNum 7; JNum 9])))
  /\ add_value storing_host (lookup_entry (JArr [JNum 3; JNum 7; JNum 9]))
     = Ok (Array [FieldLookupValue (JNum 3); FieldLookupValue (JNum 7);
                  FieldLookupValue (JNum 9)]).
Proof. repeat split; reflexivity. Qed.

(** C5 (code defect): each method handles one half of the Lookup rule.
    With setters that accept every identifier, [addListItem] expands a
    sequence to one reference per element, in order, but builds a reference
    from the empty identifier instead of clearing the field;
    [updateListItem] clears the field on the empty identifier, but puts a
    whole sequence into one reference instead of expanding it. *)
Theorem C5_lookup_halves (host : sp_host) (c : column_entry) (ids : list jsval) :
  (forall v, accepts_lookupId host v = true) ->
  toLowerCase (Type_ c) = Ok "lookup" ->
  (LookupID c = JArr ids ->
     add_value host c = Ok (Array (List.map FieldLookupValue ids))
     /\ update_value host c = Ok (Object (FieldLookupValue (JArr ids))))
  /\
  (LookupID c = JStr "" ->
     update_value host c = Ok Null
     /\ add_value host c = Ok (Object (FieldLookupValue (JStr "")))).
Proof.
  intros Hacc Hty. unfold add_value, update_value. rewrite Hty. simpl.
  split; intros Hid; rewrite Hid; simpl.
  - rewrite (collect_accepted host ids Hacc). simpl.
    unfold new_FieldLookupValue. rewrite Hacc. simpl. split; reflexivity.
  - unfold new_FieldLookupValue. rewrite Hacc. simpl. split; reflexivity.
Qed.

Lemma C5_witness_3_7_9_and_empty :
  (add_value storing_host (lookup_entry (JArr [JNum 3; JNum 7; JNum 9]))
   = Ok (Array [FieldLookupValue (JNum 3); FieldLookupValue (JNum 7);
                FieldLookupValue (JNum 9)])
   /\ update_value storing_host (lookup_entry (JArr [JNum 3; JNum 7; JNum 9]))
      = Ok (Object (FieldLookupValue (JArr [JNum 3; JNum 7; JNum 9]))))
  /\
  (update_value storing_host (lookup_entry (JStr "")) = Ok Null
   /\ add_value storing_host (lookup_entry (JStr ""))
      = Ok (Object (FieldLookupValue (JStr "")))).
Proof.
  split.
  - apply (C5_lookup_halves storing_host (lookup_entry (JArr [JNum 3; JNum 7; JNum 9]))
             [JNum 3; JNum 7; JNum 9]); reflexivity.
  - apply (C5_lookup_halves storing_host (lookup_entry (JStr "")) []); reflexivity.
Defined.

(** C6, the claim refuted: with setters that store what they are given, a
    Url descriptor without [Description] does not fail; the field value is
    built with an undefined description, in both methods. *)
Lemma C6_counterexample_missing_description :
  update_value storing_host (url_entry (JStr "http://x") JUndefined)
    = Ok (Object (FieldUrlValue (JStr "http://x") JUndefined))
  /\ add_value storing_host (url_entry (JStr "http://x") JUndefined)
     = Ok (Object (FieldUrlValue (JStr "http://x") JUndefined))
  /\ updateListItem storing_host
       {| u_listName := Some "Links"; itemID := Some (JNum 52);
          u_columnData := Some [("Home", url_entry (JStr "http://x") JUndefined)] |}
     = Ok [("Home", Object (FieldUrlValue (JStr "http://x") JUndefined))].
Proof. repeat split; reflexivity. Qed.

(** C6 as amended: for a descriptor whose type tag is Url (in any letter
    case), both methods hand [URL] and [Description] to the setters as they
    are, present or not, and never replace them by a default. The mapping
    fails only when a setter of the object model rejects its argument, and
    then with the "Invalid URL field details" error; the code does not check
    by itself that the two properties are present. *)
Theorem C6_url_fields_pass_through (host : sp_host) (c : column_entry) :
  toLowerCase (Type_ c) = Ok "url" ->
  (accepts_url host (URL c) = true -> accepts_description host (Description c) = true ->
     update_value host c = Ok (Object (FieldUrlValue (URL c) (Description c)))
     /\ add_value host c = Ok (Object (FieldUrlValue (URL c) (Description c))))
  /\
  (accepts_url host (URL c) = false \/ accepts_description host (Description c) = false ->
     exists op,
       update_value host c
       = Throw (ThrownCat "spHelper Error: Invalid URL field details. Unable to update item ... "
                          (HostError op))
       /\ add_value host c
          = Throw (ThrownCat "spHelper Error: Invalid URL field details. Unable to add item ... "
                             (HostError op))).
Proof.
  intros Hty. unfold update_value, add_value, new_FieldUrlValue. rewrite Hty. simpl.
  split.
  - intros -> ->. simpl. split; reflexivity.
  - intros [H|H].
    + rewrite H. simpl. exists "set_url". split; reflexivity.
    + rewrite H. destruct (accepts_url host (URL c)); simpl.
      * exists "set_description". split; reflexivity.
      * exists "set_url". split; reflexivity.
Qed.

Lemma C6_witness_url_and_description :
  update_value storing_host (url_entry (JStr "http://x") (JStr "x"))
    = Ok (Object (FieldUrlValue (JStr "http://x") (JStr "x")))
  /\ add_value storing_host (url_entry (JStr "http://x") (JStr "x"))
     = Ok (Object (FieldUrlValue (JStr "http://x") (JStr "x"))).
Proof.
  apply (C6_url_fields_pass_through storing_host
           (url_entry (JStr "http://x") (JStr "x")) eq_refl); reflexivity.
Defined.

(** ** Further properties of the query document *)

Lemma for_each_Forall {A} (P : piece -> Prop) (body : A -> result (list piece)) :
  (forall x ps, body x = Ok ps -> Forall P ps) ->
  forall l ps, for_each body l = Ok ps -> Forall P ps.
Proof.
  intros Hbody. induction l as [|x l IH]; simpl; intros ps H.
  - injection H as <-. constructor.
  - destruct (body x) as [p1|] eqn:E1; simpl in H; [|discriminate].
    destruct (for_each body l) as [p2|] eqn:E2; simpl in H; [|discriminate].
    injection H as <-. apply Forall_app. split; [eapply Hbody; eauto|apply IH; reflexivity].
Qed.

Lemma for_each_throws {A} (body : A -> result (list piece)) :
  (forall x e, body x = Throw e -> e = TypeError) ->
  forall l e, for_each body l = Throw e -> e = TypeError.
Proof.
  intros Hbody. induction l as [|x l IH]; simpl; intros e H; [discriminate|].
  destruct (body x) as [p1|e1] eqn:E1; simpl in H.
  - destruct (for_each body l) as [p2|e2] eqn:E2; simpl in H; [discriminate|].
    injection H as <-. apply IH. reflexivity.
  - injection H as <-. eapply Hbody; eauto.
Qed.

Lemma toLowerCase_throws v e : toLowerCase v = Throw e -> e = TypeError.
Proof. destruct v; simpl; intros H; try discriminate; injection H as <-; reflexivity. Qed.

Lemma constructor_name_throws v e : constructor_name v = Throw e -> e = TypeError.
Proof. destruct v; simpl; intros H; try discriminate; injection H as <-; reflexivity. Qed.

Lemma forEach_elements_throws v e : forEach_elements v = Throw e -> e = TypeError.
Proof. destruct v; simpl; intros H; try discriminate; injection H as <-; reflexivity. Qed.

(** Every exception of the predicate compiler is a TypeError of the engine:
    the code itself throws nothing there. *)
Lemma compile_where_throws w e : compile_where w = Throw e -> e = TypeError.
Proof.
  unfold compile_where. intros H.
  destruct (values w) as [entries|].
  - unfold compound_clause in H.
    destruct (for_each compile_entry entries) as [ps|e'] eqn:E; simpl in H; [discriminate|].
    injection H as <-. revert E. apply for_each_throws.
    intros x e0. unfold compile_entry.
    destruct (toLowerCase (type x)) eqn:Et; simpl; [discriminate|].
    intros H; injection H as <-. eapply toLowerCase_throws; eauto.
  - unfold leaf_clause in H.
    destruct (constructor_name (value (leaf w))) as [cn|e1] eqn:E1; simpl in H.
    2:{ injection H as <-. eapply constructor_name_throws; eauto. }
    destruct (toLowerCase (operation (leaf w))) as [op|e2] eqn:E2; simpl in H.
    2:{ injection H as <-. eapply toLowerCase_throws; eauto. }
    destruct (bool_decide (op = "in") &&
              (bool_decide (cn = "Array") && (60 <? array_length (value (leaf w))))).
    + destruct (for_each _ _) as [ps|e3] eqn:E3 in H; simpl in H; [discriminate|].
      injection H as <-. revert E3. apply for_each_throws.
      intros i e0. unfold batch_clause.
      destruct (forEach_elements (value (leaf w))) eqn:Ef; simpl; [discriminate|].
      intros H; injection H as <-. eapply forEach_elements_throws; eauto.
    + unfold plain_clause in H.
      destruct (bool_decide (cn = "Array")).
      * unfold multi_value_body in H.
        destruct (toLowerCase (type (leaf w))) as [t|e4] eqn:E4; simpl in H.
        2:{ injection H as <-. eapply toLowerCase_throws; eauto. }
        destruct (forEach_elements (value (leaf w))) as [vs|e5] eqn:E5; simpl in H;
          [discriminate|].
        injection H as <-. eapply forEach_elements_throws; eauto.
      * unfold single_value_body in H.
        destruct (is_undefined (type (leaf w))); simpl in H; [discriminate|].
        destruct (toLowerCase (type (leaf w))) as [t|e4] eqn:E4; simpl in H;
          [discriminate|].
        injection H as <-. eapply toLowerCase_throws; eauto.
Qed.

(** The two ways [loadListData] throws: the check of line 258, or a
    TypeError raised while the [where] object is compiled and rethrown by
    the [catch] of line 534. *)
Lemma loadListData_throws q e :
  snd (loadListData q) = Throw e ->
  (invalid_details q = true /\ e = invalid_query_details)
  \/ (invalid_details q = false /\ query q = None
      /\ (exists w, where_ q = Some w) /\ e = unable_to_read TypeError).
Proof.
  unfold loadListData. destruct (invalid_details q) eqn:Hinv; simpl.
  - intros H. injection H as <-. left. split; reflexivity.
  - destruct (query q) as [xml|]; simpl; [discriminate|].
    unfold customQuery. simpl.
    destruct (where_ q) as [w|]; simpl; [|discriminate].
    destruct (compile_where (default_value w)) as [ps|e'] eqn:E; simpl; [discriminate|].
    intros H. injection H as <-.
    rewrite (compile_where_throws _ _ E).
    right. repeat split; eauto.
Qed.

Lemma nested_loop_never_throws_to_caller (S : store) :
  forall fuel (st : store_state S) q listData e,
    final (request_loop S fuel st q listData true) <> ThrownToCaller e.
Proof.
  induction fuel as [|fuel IH]; intros st q listData e; simpl; [discriminate|].
  destruct (loadListData q) as [q1 [req|e']]; simpl; [|discriminate].
  destruct (executeQueryAsync S st req) as [answer st'].
  destruct (resume q1 answer); simpl; try discriminate.
  destruct (page_size returnedItems =? 5000); simpl; [apply IH|discriminate].
Qed.

(** X1: when [getListData] itself throws, it has issued no request, and the
    exception is one of two: the "Invalid query details" text, for a
    descriptor without list name and GUID or without columns, or the
    "Unable to read list data" text around a TypeError, for a descriptor
    that has a [where] object and no [query]. *)
Theorem X1_getListData_throws_before_any_request
    (S : store) (fuel : nat) (st : store_state S) (q : queryDetails) (e : exn) :
  final (getListData S fuel st q) = ThrownToCaller e ->
  requests (getListData S fuel st q) = []
  /\ (((listName q = None /\ listGuid q = None) \/ listColumns q = None)
      /\ e = invalid_query_details
      \/ query q = None /\ (exists w, where_ q = Some w)
         /\ e = unable_to_read TypeError).
Proof.
  unfold getListData. destruct fuel as [|fuel]; simpl; [discriminate|].
  destruct (loadListData (default_pagePosition q)) as [q1 [req|e']] eqn:Hload; simpl.
  - destruct (executeQueryAsync S st req) as [answer st'].
    destruct (resume q1 answer); simpl; try discriminate.
    destruct (page_size returnedItems =? 5000); simpl; [|discriminate].
    intros H. exfalso. eapply nested_loop_never_throws_to_caller. exact H.
  - intros H. injection H as ->. split; [reflexivity|].
    assert (Hsnd : snd (loadListData (default_pagePosition q)) = Throw e)
      by (rewrite Hload; reflexivity).
    destruct (loadListData_throws _ _ Hsnd) as [[Hinv ->]|(Hinv & Hq & Hw & ->)].
    + left. split; [|reflexivity].
      unfold invalid_details, default_pagePosition in Hinv.
      destruct q as [ln lg lc qu wh jn pp]. simpl in *.
      destruct ln, lg, lc, pp; simpl in Hinv; try discriminate; auto.
    + right. unfold default_pagePosition in Hq, Hw.
      destruct (pagePosition q); simpl in Hq, Hw; auto.
Qed.

Lemma X1_witness_where_without_operation :
  requests (getListData scripted 3 []
              (customers_where {| leaf := dept_leaf JUndefined (JStr "Text") (JStr "x");
                                  values := None |})) = []
  /\ (((listName (customers_where {| leaf := dept_leaf JUndefined (JStr "Text") (JStr "x");
                                     values := None |}) = None
        /\ listGuid (customers_where {| leaf := dept_leaf JUndefined (JStr "Text") (JStr "x");
                                        values := None |}) = None)
       \/ listColumns (customers_where {| leaf := dept_leaf JUndefined (JStr "Text") (JStr "x");
                                          values := None |}) = None)
      /\ unable_to_read TypeError = invalid_query_details
      \/ query (customers_where {| leaf := dept_leaf JUndefined (JStr "Text") (JStr "x");
                                   values := None |}) = None
         /\ (exists w, where_ (customers_where
                                 {| leaf := dept_leaf JUndefined (JStr "Text") (JStr "x");
                                    values := None |}) = Some w)
         /\ unable_to_read TypeError = unable_to_read TypeError).
Proof.
  apply (X1_getListData_throws_before_any_request scripted 3 []
           (customers_where {| leaf := dept_leaf JUndefined (JStr "Text") (JStr "x");
                               values := None |})
           (unable_to_read TypeError)).
  reflexivity.
Defined.

Lemma compile_entries_in_order (entries : list where_leaf) :
  Forall (fun e => exists t, type e = JStr t) entries ->
  for_each compile_entry entries = Ok (flat_map entry_pieces entries).
Proof.
  induction 1 as [|e entries [t Ht] _ IH]; simpl; [reflexivity|].
  rewrite IH. unfold compile_entry, entry_pieces, is_lookup. rewrite Ht. simpl.
  case_if; reflexivity.
Qed.

(** X2: a [where] object with [values] compiles to one comparison per
    entry, in the order of the array, between the tags of [where.operation];
    an entry carries the lookup marker when its type is Lookup and its
    value is not NaN. The [column], [value] and [type] of the [where]
    object itself play no part. *)
Theorem X2_where_values_compile_in_order (w : where_clause) (entries : list where_leaf) :
  values w = Some entries ->
  Forall (fun e => exists t, type e = JStr t) entries ->
  compile_where (default_value w)
  = Ok ([Lit "<Query> <Where>"; Open (to_string (operation (leaf w)))]
        ++ flat_map entry_pieces entries
        ++ [Close (to_string (operation (leaf w))); Lit "</Where></Query>"]).
Proof.
  intros Hvalues Htypes.
  assert (Hdef : values (default_value w) = Some entries
                 /\ operation (leaf (default_value w)) = operation (leaf w)).
  { unfold default_value. destruct (is_undefined (value (leaf w))); simpl; auto. }
  destruct Hdef as [Hv Hop].
  unfold compile_where, compound_clause. rewrite Hv, Hop.
  rewrite (compile_entries_in_order entries Htypes). simpl.
  rewrite <- !app_assoc. reflexivity.
Qed.

Lemma X2_witness_name_and_department :
  compile_where (default_value
    {| leaf := {| column := JUndefined; operation := JStr "And";
                  value := JUndefined; type := JUndefined |};
       values := Some [ {| column := JStr "Name"; operation := JStr "Eq";
                           value := JStr "James"; type := JStr "Text" |};
                        {| column := JStr "Dept"; operation := JStr "Neq";
                           value := JNum 7; type := JStr "LOOKUP" |} ] |})
  = Ok [Lit "<Query> <Where>"; Open "And";
        Open "Eq"; FieldRef "Name" false Tight; Lit " "; ValueElem "Text" "James";
        Close "Eq";
        Open "Neq"; FieldRef "Dept" true Tight; Lit " "; ValueElem "LOOKUP" "7";
        Close "Neq";
        Close "And"; Lit "</Where></Query>"].
Proof.
  apply (X2_where_values_compile_in_order
           {| leaf := {| column := JUndefined; operation := JStr "And";
                         value := JUndefined; type := JUndefined |};
              values := Some [ {| column := JStr "Name"; operation := JStr "Eq";
                                  value := JStr "James"; type := JStr "Text" |};
                               {| column := JStr "Dept"; operation := JStr "Neq";
                                  value := JNum 7; type := JStr "LOOKUP" |} ] |}
           [ {| column := JStr "Name"; operation := JStr "Eq";
                value := JStr "James"; type := JStr "Text" |};
             {| column := JStr "Dept"; operation := JStr "Neq";
                value := JNum 7; type := JStr "LOOKUP" |} ]).
  - reflexivity.
  - repeat constructor; eexists; reflexivity.
Defined.

(** X3: a leaf whose value is an array and whose type is omitted cannot be
    compiled: reading the letter case of the missing type is a TypeError.
    The batched path (an [In] over more than 60 values) is the exception:
    it does not look at the type and writes [Type='undefined'] into every
    value element. *)
Theorem X3_array_value_without_type (l : where_leaf) (vs : list jsval) (op : string) :
  operation l = JStr op ->
  value l = JArr vs ->
  type l = JUndefined ->
  (~ (lower op = "in" /\ 60 < Z.of_nat (length vs)) ->
   compile_where (default_value {| leaf := l; values := None |}) = Throw TypeError)
  /\
  (lower op = "in" -> 60 < Z.of_nat (length vs) ->
   exists ps,
     compile_where (default_value {| leaf := l; values := None |}) = Ok ps
     /\ List.filter is_value_elem ps
        = concat (repeat (List.map (fun v => ValueElem "undefined" (to_string v)) vs)
                         (Z.to_nat (ceil_div60 (Z.of_nat (length vs)))))).
Proof.
  intros Hop Hval Hty.
  assert (Hdef : default_value {| leaf := l; values := None |}
                 = {| leaf := l; values := None |}).
  { unfold default_value. simpl. rewrite Hval. reflexivity. }
  rewrite Hdef. split.
  - intros Hnot. unfold compile_where, leaf_clause. simpl. rewrite Hval, Hop. simpl.
    assert (Hb : bool_decide (lower op = "in") && (60 <? Z.of_nat (length vs)) = false).
    { destruct (bool_decide (lower op = "in")) eqn:E1; [|reflexivity].
      destruct (60 <? Z.of_nat (length vs)) eqn:E2; [|reflexivity].
      exfalso. apply Hnot. split; [apply bool_decide_eq_true in E1; exact E1|].
      apply Z.ltb_lt. exact E2. }
    rewrite Hb. unfold plain_clause, multi_value_body. rewrite Hty. reflexivity.
  - intros Hin Hlen. eexists. split.
    + apply compile_where_in_fix; [rewrite Hop; simpl; rewrite Hin; reflexivity
                                  |exact Hval|exact Hlen].
    + rewrite !List.filter_app, filter_concat_repeat_eq. simpl.
      rewrite app_nil_r. f_equal. f_equal.
      unfold in_clause. simpl. rewrite List.filter_app. simpl. rewrite app_nil_r.
      rewrite Hty. unfold value_elements. simpl.
      clear. induction vs as [|v vs IH]; simpl; [reflexivity|]. rewrite IH. reflexivity.
Qed.

Lemma X3_witness_two_names_and_61_numbers :
  compile_where (default_value
    {| leaf := dept_leaf (JStr "In") JUndefined (JArr [JStr "a"; JStr "b"]);
       values := None |}) = Throw TypeError
  /\
  exists ps,
    compile_where (default_value
      {| leaf := dept_leaf (JStr "IN") JUndefined (JArr (numbers 61)); values := None |})
    = Ok ps
    /\ List.filter is_value_elem ps
       = concat (repeat (List.map (fun v => ValueElem "undefined" (to_string v))
                                  (numbers 61)) 2).
Proof.
  split.
  - apply (proj1 (X3_array_value_without_type
                    (dept_leaf (JStr "In") JUndefined (JArr [JStr "a"; JStr "b"]))
                    [JStr "a"; JStr "b"] "In" eq_refl eq_refl eq_refl)).
    intros [_ H]. vm_compute in H. discriminate.
  - apply (proj2 (X3_array_value_without_type
                    (dept_leaf (JStr "IN") JUndefined (JArr (numbers 61)))
                    (numbers 61) "IN" eq_refl eq_refl eq_refl)).
    + reflexivity.
    + vm_compute. reflexivity.
Defined.

(** The predicate compiler emits no piece of the projection or of the join. *)
Lemma compile_where_pieces w ps :
  compile_where w = Ok ps -> Forall (fun p => is_section_piece p = false) ps.
Proof.
  assert (Hvals : forall ty vs,
             Forall (fun p => is_section_piece p = false) (value_elements ty vs)).
  { intros ty vs. unfold value_elements. induction vs; simpl; constructor; auto. }
  unfold compile_where. intros H.
  destruct (match values w with
            | Some entries => compound_clause w entries
            | None => leaf_clause (leaf w)
            end) as [body|] eqn:Hbody; simpl in H; [|discriminate].
  injection H as <-.
  assert (Forall (fun p => is_section_piece p = false) body); [|repeat constructor;
    apply Forall_app; split; [assumption|repeat constructor]].
  destruct (values w) as [entries|].
  - unfold compound_clause in Hbody.
    destruct (for_each compile_entry entries) as [ps|] eqn:E; simpl in Hbody; [|discriminate].
    injection Hbody as <-. constructor; [reflexivity|].
    apply Forall_app. split; [|repeat constructor].
    revert E. apply for_each_Forall. intros x qs. unfold compile_entry.
    destruct (toLowerCase (type x)); simpl; [|discriminate].
    intros Hq. injection Hq as <-. case_if; repeat constructor.
  - unfold leaf_clause in Hbody.
    destruct (constructor_name (value (leaf w))) as [cn|]; simpl in Hbody; [|discriminate].
    destruct (toLowerCase (operation (leaf w))) as [op|]; simpl in Hbody; [|discriminate].
    destruct (bool_decide (op = "in") &&
              (bool_decide (cn = "Array") && (60 <? array_length (value (leaf w))))).
    + destruct (for_each _ _) as [ps|] eqn:E in Hbody; simpl in Hbody; [|discriminate].
      injection Hbody as <-. constructor; [reflexivity|].
      apply Forall_app. split; [|repeat constructor].
      revert E. apply for_each_Forall. intros i qs. unfold batch_clause.
      destruct (forEach_elements (value (leaf w))); simpl; [|discriminate].
      intros Hq. injection Hq as <-. repeat constructor.
      apply Forall_app. split; [apply Hvals|repeat constructor].
    + unfold plain_clause in Hbody.
      destruct (if bool_decide (cn = "Array")
                then multi_value_body (leaf w) else single_value_body (leaf w))
        as [inner|] eqn:Hinner; simpl in Hbody; [|discriminate].
      injection Hbody as <-. constructor; [reflexivity|].
      apply Forall_app. split; [|repeat constructor].
      destruct (bool_decide (cn = "Array")).
      * unfold multi_value_body in Hinner.
        destruct (toLowerCase (type (leaf w))); simpl in Hinner; [|discriminate].
        destruct (forEach_elements (value (leaf w))); simpl in Hinner; [|discriminate].
        injection Hinner as <-.
        apply Forall_app. split; [case_if; repeat constructor|].
        constructor; [reflexivity|].
        apply Forall_app. split; [apply Hvals|repeat constructor].
      * unfold single_value_body in Hinner.
        destruct (if is_undefined (type (leaf w)) then Ok false else _) as [byId|];
          simpl in Hinner; [|discriminate].
        injection Hinner as <-.
        apply Forall_app. split; [destruct byId; repeat constructor|].
        case_if; repeat constructor.
Qed.

Lemma filter_none {A} (f : A -> bool) (l : list A) :
  Forall (fun x => f x = false) l -> List.filter f l = [].
Proof.
  induction 1 as [|x l Hx _ IH]; simpl; [reflexivity|]. rewrite Hx. exact IH.
Qed.

Lemma filter_all {A} (f : A -> bool) (l : list A) :
  Forall (fun x => f x = true) l -> List.filter f l = l.
Proof.
  induction 1 as [|x l Hx _ IH]; simpl; [reflexivity|]. rewrite Hx, IH. reflexivity.
Qed.

Lemma append_assoc (a b c : string) : (a +:+ b) +:+ c = a +:+ (b +:+ c).
Proof.
  induction a as [|x a IH]; [reflexivity|].
  change (String x ((a +:+ b) +:+ c) = String x (a +:+ (b +:+ c))).
  rewrite IH. reflexivity.
Qed.

Lemma append_nil_r (a : string) : a +:+ "" = a.
Proof.
  induction a as [|x a IH]; [reflexivity|].
  change (String x (a +:+ "") = String x a). rewrite IH. reflexivity.
Qed.

Lemma render_all_app ps qs : render_all (ps ++ qs) = render_all ps +:+ render_all qs.
Proof.
  induction ps as [|p ps IH]; simpl; [reflexivity|].
  rewrite IH, append_assoc. reflexivity.
Qed.

Lemma render_all_map (g : string -> piece) (f : string -> string) (l : list string) :
  (forall c, render (g c) = f c) ->
  render_all (List.map g l) = texts (List.map f l).
Proof.
  intros H. induction l as [|c l IH]; simpl; [reflexivity|].
  rewrite H, IH. reflexivity.
Qed.

(** X4: whatever the [where] and [join] objects are, the text of the
    compiled view is the opening [<View>] tag, then the requested columns
    between [<ViewFields>] and [</ViewFields>], one [<FieldRef Name='c' />]
    per column exactly as given, in order and with duplicates kept, then
    the text of the predicate, then for a join the [<Joins>] element and,
    between [<ProjectedFields>] and [</ProjectedFields>], one [<Field>]
    entry per column of [getColumns], each bound to the joined list, and
    the closing tag. Nothing else in the view is a view field or a
    projected field. *)
Theorem X4_view_fields_and_projected_fields
    (listColumns : list string) (w : option where_clause) (j : option join_details)
    (ps : list piece) :
  customQuery listColumns w j = Ok ps ->
  (exists wh,
     match w with Some w0 => compile_where w0 = Ok wh | None => wh = [] end
     /\ render_all ps
        = "<View Scope='RecursiveAll'>"
          +:+ "<ViewFields>"
          +:+ texts (List.map view_field_text listColumns)
          +:+ "</ViewFields>"
          +:+ render_all wh
          +:+ match j with Some j0 => join_text j0 | None => "" end
          +:+ "</View>")
  /\ List.filter is_view_field ps = List.map ViewField listColumns
  /\ List.filter is_projected_field ps
     = match j with
       | Some j => List.map (fun c => ProjectedField c (to_string (joinList j)))
                            (getColumns j)
       | None => []
       end.
Proof.
  unfold customQuery. intros H.
  destruct (match w with Some w0 => compile_where w0 | None => Ok [] end)
    as [wh|] eqn:Hwh; simpl in H; [|discriminate].
  injection H as <-.
  assert (Hnone : Forall (fun p => is_section_piece p = false) wh).
  { destruct w as [w0|]; [eapply compile_where_pieces; eauto|].
    injection Hwh as <-. constructor. }
  assert (Hv : List.filter is_view_field wh = []).
  { apply filter_none. eapply Forall_impl; [exact Hnone|].
    intros [] Hp; simpl in *; congruence. }
  assert (Hp : List.filter is_projected_field wh = []).
  { apply filter_none. eapply Forall_impl; [exact Hnone|].
    intros [] Hq; simpl in *; congruence. }
  assert (Hmap : forall f (g : string -> piece) (l : list string),
             (forall c, f (g c) = true) -> List.filter f (List.map g l) = List.map g l).
  { intros f g l Hf. induction l as [|c l IH]; simpl; [reflexivity|].
    rewrite Hf, IH. reflexivity. }
  assert (Hmap0 : forall f (g : string -> piece) (l : list string),
             (forall c, f (g c) = false) -> List.filter f (List.map g l) = []).
  { intros f g l Hf. induction l as [|c l IH]; simpl; [reflexivity|].
    rewrite Hf, IH. reflexivity. }
  split; [|split].
  - exists wh. split.
    { destruct w as [w0|]; [exact Hwh|]. injection Hwh as <-. reflexivity. }
    change ([Lit "<View Scope='RecursiveAll'>"; Lit "<ViewFields>"]
            ++ List.map ViewField listColumns ++ [Lit "</ViewFields>"] ++ wh
            ++ match j with Some j0 => compile_join j0 | None => [] end
            ++ [Lit "</View>"])
      with (Lit "<View Scope='RecursiveAll'>" :: Lit "<ViewFields>"
            :: (List.map ViewField listColumns
                ++ Lit "</ViewFields>"
                   :: (wh ++ (match j with Some j0 => compile_join j0 | None => [] end
                              ++ [Lit "</View>"])))).
    cbn [render_all fold_right render].
    fold (render_all (List.map ViewField listColumns
                      ++ Lit "</ViewFields>"
                         :: (wh ++ (match j with
                                    | Some j0 => compile_join j0
                                    | None => []
                                    end ++ [Lit "</View>"])))).
    rewrite render_all_app.
    rewrite (render_all_map ViewField view_field_text) by reflexivity.
    do 3 f_equal.
    change (render_all (Lit "</ViewFields>" :: ?l)) with ("</ViewFields>" +:+ render_all l).
    f_equal. rewrite render_all_app. f_equal. rewrite render_all_app.
    change (render_all [Lit "</View>"]) with ("</View>" +:+ "").
    rewrite append_nil_r. f_equal.
    destruct j as [j0|]; [|reflexivity].
    unfold compile_join, join_text.
    change ([Joins (to_string (direction j0)) (to_string (joinList j0))
                   (to_string (joinColumn j0)); Lit "<ProjectedFields>"]
            ++ List.map (fun c => ProjectedField c (to_string (joinList j0))) (getColumns j0)
            ++ [Lit "</ProjectedFields>"])
      with ([Joins (to_string (direction j0)) (to_string (joinList j0))
                   (to_string (joinColumn j0)); Lit "<ProjectedFields>"]
            ++ (List.map (fun c => ProjectedField c (to_string (joinList j0)))
                         (getColumns j0)
                ++ [Lit "</ProjectedFields>"])).
    rewrite !render_all_app.
    rewrite (render_all_map (fun c => ProjectedField c (to_string (joinList j0)))
               (projected_field_text (to_string (joinList j0)))) by reflexivity.
    change (render_all [Lit "</ProjectedFields>"]) with ("</ProjectedFields>" +:+ "").
    rewrite append_nil_r.
    change (render_all [Joins (to_string (direction j0)) (to_string (joinList j0))
                          (to_string (joinColumn j0)); Lit "<ProjectedFields>"])
      with (render (Joins (to_string (direction j0)) (to_string (joinList j0))
                          (to_string (joinColumn j0)))
            +:+ ("<ProjectedFields>" +:+ "")).
    rewrite append_nil_r, append_assoc. reflexivity.
  - cbn [List.filter is_view_field]. rewrite List.filter_app.
    cbn [List.filter is_view_field].
    rewrite !List.filter_app, Hv, Hmap by reflexivity.
    destruct j as [j0|]; unfold compile_join;
      rewrite ?List.filter_app, ?Hmap0 by reflexivity; simpl;
      rewrite !app_nil_r; reflexivity.
  - cbn [List.filter is_projected_field]. rewrite List.filter_app.
    cbn [List.filter is_projected_field].
    rewrite !List.filter_app, Hp, Hmap0 by reflexivity.
    destruct j as [j0|]; unfold compile_join;
      rewrite ?List.filter_app, ?Hmap by reflexivity; simpl;
      rewrite ?app_nil_r; reflexivity.
Qed.

Lemma X4_witness_columns_and_join :
  exists ps,
    customQuery ["Name"; "Order"; "Name"]
      (Some (default_value {| leaf := dept_leaf (JStr "Eq") (JStr "Text") (JStr "x");
                              values := None |}))
      (Some {| direction := JStr "LEFT"; joinList := JStr "Orders";
               joinColumn := JStr "Order"; getColumns := ["Total"; "Date"] |})
    = Ok ps
    /\ render_all ps
       = "<View Scope='RecursiveAll'>"
         +:+ "<ViewFields>"
         +:+ "<FieldRef Name='Name' /><FieldRef Name='Order' /><FieldRef Name='Name' />"
         +:+ "</ViewFields>"
         +:+ "<Query> <Where><Eq> <FieldRef Name='Dept' /><Value Type='Text'>x</Value></Eq></Where></Query>"
         +:+ join_text {| direction := JStr "LEFT"; joinList := JStr "Orders";
                          joinColumn := JStr "Order"; getColumns := ["Total"; "Date"] |}
         +:+ "</View>"
    /\ List.filter is_view_field ps = [ViewField "Name"; ViewField "Order"; ViewField "Name"]
    /\ List.filter is_projected_field ps
       = [ProjectedField "Total" "Orders"; ProjectedField "Date" "Orders"].
Proof.
  eexists. split; [reflexivity|].
  destruct (X4_view_fields_and_projected_fields ["Name"; "Order"; "Name"]
              (Some (default_value
                       {| leaf := dept_leaf (JStr "Eq") (JStr "Text") (JStr "x");
                          values := None |}))
              (Some {| direction := JStr "LEFT"; joinList := JStr "Orders";
                       joinColumn := JStr "Order"; getColumns := ["Total"; "Date"] |})
              _ eq_refl) as [(wh & Hwh & Htext) [Hv Hp]].
  split; [|split; [exact Hv|exact Hp]].
  vm_compute in Hwh. injection Hwh as <-. exact Htext.
Defined.

(** ** Further properties of the retrieval loop *)

Lemma positions_from_requests req p n :
  List.map position (List.map (fun c => at_position c req) (positions_from p n))
  = positions_from p n.
Proof.
  revert p. induction n as [|n IH]; intros p; simpl; [reflexivity|].
  rewrite IH. reflexivity.
Qed.

Lemma later_requests (S : store) q q1 req :
  loadListData q = (q1, Ok req) ->
  forall fuel (st : store_state S) p listData nested,
    page_size listData <> 0 ->
    requests (request_loop S fuel st (set_pagePosition (Some p) q1) listData nested)
    = List.map (fun c => at_position c req)
        (positions_from p
           (length (requests (request_loop S fuel st (set_pagePosition (Some p) q1)
                                           listData nested)))).
Proof.
  intros Hload. induction fuel as [|fuel IH]; intros st p listData nested Hacc.
  - reflexivity.
  - simpl. rewrite (loadListData_again q q1 req p Hload).
    destruct (executeQueryAsync S st (at_position p req)) as [answer st'].
    destruct (resume (set_pagePosition (Some p) q1) answer) as [results|m|e];
      try reflexivity.
    destruct (page_size results =? 5000) eqn:Hfull; [|reflexivity].
    apply Z.eqb_eq in Hfull.
    assert (Hmore : (page_size (listData ++ results) =? 5000) = false).
    { apply Z.eqb_neq. unfold page_size in *. rewrite length_app. lia. }
    rewrite Hmore.
    change (advance 5000 (set_pagePosition (Some p) q1))
      with (set_pagePosition (Some (p + 5000)) q1).
    unfold sent. simpl. f_equal. apply IH.
    unfold page_size in *. rewrite length_app. lia.
Qed.

(** X5: whatever the store answers, all requests of one retrieval ask for
    the same list, the same view XML and the same columns as the first, and
    they are made from the positions [p], [p + 5001], [p + 10001], ... in
    that order, [p] being the starting position. *)
Theorem X5_requests_differ_by_position_only
    (S : store) (fuel : nat) (st : store_state S) (q : queryDetails) (req : request) :
  snd (loadListData (default_pagePosition q)) = Ok req ->
  requests (getListData S fuel st q)
  = List.map (fun c => at_position c req)
      (cursors (first_cursor q) (length (requests (getListData S fuel st q))))
  /\ List.map position (requests (getListData S fuel st q))
     = cursors (first_cursor q) (length (requests (getListData S fuel st q))).
Proof.
  intros Hreq.
  cut (requests (getListData S fuel st q)
       = List.map (fun c => at_position c req)
           (cursors (first_cursor q) (length (requests (getListData S fuel st q))))).
  { intros H. split; [exact H|]. rewrite H at 1.
    destruct (length (requests (getListData S fuel st q))) as [|n]; [reflexivity|].
    simpl. f_equal. apply positions_from_requests. }
  unfold getListData.
  set (q0 := default_pagePosition q) in *.
  destruct (loadListData q0) as [q1 res] eqn:Hload. simpl in Hreq. subst res.
  destruct (loadListData_position _ _ _ Hload) as [Hp0 Hp1].
  assert (Hfirst : first_cursor q = position req).
  { unfold first_cursor. unfold q0, default_pagePosition in Hp0.
    destruct (pagePosition q) eqn:E; simpl in Hp0; congruence. }
  assert (Hself : at_position (position req) req = req) by (destruct req; reflexivity).
  destruct fuel as [|fuel]; [reflexivity|].
  cbn [request_loop]. rewrite Hload.
  destruct (executeQueryAsync S st req) as [answer st'].
  destruct (resume q1 answer) as [results|m|e];
    try (simpl; rewrite Hfirst, Hself; reflexivity).
  destruct (page_size results =? 5000) eqn:Hfull;
    [|simpl; rewrite Hfirst, Hself; reflexivity].
  apply Z.eqb_eq in Hfull. cbn [app]. rewrite Hfull. simpl Z.eqb. cbv iota.
  assert (Hq1 : q1 = set_pagePosition (Some (position req)) q1).
  { destruct q1; simpl in *. unfold set_pagePosition. simpl. congruence. }
  assert (Hadv : advance 5000 (advance 1 q1)
                 = set_pagePosition (Some (position req + 5001)) q1).
  { rewrite Hq1 at 1. unfold advance, set_pagePosition. simpl. f_equal. f_equal. lia. }
  rewrite Hadv. unfold sent. simpl. rewrite Hfirst, Hself. f_equal.
  apply (later_requests S q0 q1 req Hload). lia.
Qed.

Lemma X5_witness_three_pages :
  requests (getListData scripted 3
              [Resolved (id_items 1 5000); Resolved (id_items 5001 5000);
               Resolved (id_items 10001 3217)] customers)
  = List.map (fun c => at_position c
                {| spList := getByTitle "Customers";
                   viewXml := "<View Scope='RecursiveAll'><ViewFields><FieldRef Name='ID' /></ViewFields></View>";
                   position := 0; included := ["ID"] |})
      (cursors (first_cursor customers)
         (length (requests (getListData scripted 3
              [Resolved (id_items 1 5000); Resolved (id_items 5001 5000);
               Resolved (id_items 10001 3217)] customers))))
  /\ List.map position (requests (getListData scripted 3
              [Resolved (id_items 1 5000); Resolved (id_items 5001 5000);
               Resolved (id_items 10001 3217)] customers))
     = cursors (first_cursor customers)
         (length (requests (getListData scripted 3
              [Resolved (id_items 1 5000); Resolved (id_items 5001 5000);
               Resolved (id_items 10001 3217)] customers))).
Proof.
  apply (X5_requests_differ_by_position_only scripted 3
           [Resolved (id_items 1 5000); Resolved (id_items 5001 5000);
            Resolved (id_items 10001 3217)] customers
           {| spList := getByTitle "Customers";
              viewXml := "<View Scope='RecursiveAll'><ViewFields><FieldRef Name='ID' /></ViewFields></View>";
              position := 0; included := ["ID"] |}).
  reflexivity.
Defined.

Lemma request_loop_row_count (S : store) :
  forall fuel (st : store_state S) q listData nested rows,
    final (request_loop S fuel st q listData nested) = onSuccessUser rows ->
    exists k,
      0 <= k /\ k <> 5000
      /\ page_size rows
         = page_size listData
           + 5000 * (Z.of_nat (length (requests (request_loop S fuel st q listData nested))) - 1)
           + k.
Proof.
  induction fuel as [|fuel IH]; intros st q listData nested rows; simpl; [discriminate|].
  destruct (loadListData q) as [q1 [req|e]]; simpl; [|destruct nested; discriminate].
  destruct (executeQueryAsync S st req) as [answer st'].
  destruct (resume q1 answer) as [results|m|e]; simpl; try discriminate.
  destruct (page_size results =? 5000) eqn:Hfull; simpl.
  - intros H. apply Z.eqb_eq in Hfull.
    destruct (IH _ _ _ _ _ H) as (k & Hk0 & Hk & Hrows).
    exists k. split; [exact Hk0|]. split; [exact Hk|].
    rewrite Hrows. unfold page_size in *. rewrite length_app. lia.
  - intros H. injection H as <-. apply Z.eqb_neq in Hfull.
    exists (page_size results). split; [unfold page_size; lia|]. split; [exact Hfull|].
    unfold page_size. rewrite length_app. simpl. lia.
Qed.

(** X6: when a retrieval succeeds after [n] requests, it delivers
    [5000 * (n - 1) + k] rows, where [k], the size of the last page, is not
    5000: every page but the last was full, and a list of exactly
    [5000 * m] items costs [m + 1] requests. *)
Theorem X6_rows_delivered
    (S : store) (fuel : nat) (st : store_state S) (q : queryDetails) (rows : list row) :
  final (getListData S fuel st q) = onSuccessUser rows ->
  exists k,
    0 <= k /\ k <> 5000
    /\ page_size rows
       = 5000 * (Z.of_nat (length (requests (getListData S fuel st q))) - 1) + k.
Proof.
  unfold getListData. intros H.
  destruct (request_loop_row_count S _ _ _ _ _ _ H) as (k & Hk0 & Hk & Hrows).
  exists k. split; [exact Hk0|]. split; [exact Hk|]. rewrite Hrows. reflexivity.
Qed.

Lemma X6_witness_full_page_then_empty :
  exists k,
    0 <= k /\ k <> 5000
    /\ page_size (id_items 1 5000)
       = 5000 * (Z.of_nat (length (requests (getListData scripted 2
                                      [Resolved (id_items 1 5000)] customers))) - 1) + k.
Proof.
  apply (X6_rows_delivered scripted 2 [Resolved (id_items 1 5000)] customers
           (id_items 1 5000)).
  unfold getListData.
  pose proof (id_items_projected 1 5000) as Hp.
  pose proof (id_items_size 1 5000) as Hs.
  revert Hp Hs. generalize (id_items 1 5000). intros page Hp Hs.
  rewrite (request_loop_resolved scripted 1 [Resolved page]
             (default_pagePosition customers) _ _ page [] page [] false
             eq_refl eq_refl Hp).
  cbn [app]. rewrite Hs. change (Z.of_nat 5000 =? 5000) with true. cbn iota.
  unfold sent. cbn [final].
  match goal with
  | |- context [request_loop scripted 1 [] ?q page true] =>
      rewrite (request_loop_resolved scripted 0 [] q _ _ [] [] [] page true
                 eq_refl eq_refl eq_refl)
  end.
  change (page_size [] =? 5000) with false. cbn iota. cbn [final].
  rewrite app_nil_r. reflexivity.
Defined.

Lemma later_pages_then q q1 req :
  loadListData q = (q1, Ok req) ->
  forall fulls full_rows,
    Forall2 (fun items rows => projected q1 items rows /\ page_size rows = 5000)
            fulls full_rows ->
  forall reply rest,
    (forall rows, resume q1 reply = onSuccess rows -> page_size rows <> 5000) ->
  forall fuel p listData nested,
    (length fulls < fuel)%nat -> page_size listData <> 0 ->
    request_loop scripted fuel (List.map Resolved fulls ++ reply :: rest)
                 (set_pagePosition (Some p) q1) listData nested
    = {| requests := List.map (fun c => at_position c req)
                              (positions_from p (Datatypes.S (length fulls)));
         final := ending (resume q1 reply) (listData ++ concat full_rows);
         descriptor := set_pagePosition
                         (Some (p + 5000 * Z.of_nat (length fulls))) q1 |}.
Proof.
  intros Hload fulls full_rows Hfulls.
  induction Hfulls as [|items rows fulls full_rows [Hrows Hsize] _ IH];
    intros reply rest Hshort fuel p listData nested Hfuel Hacc.
  - destruct fuel as [|fuel]; [simpl in Hfuel; lia|].
    cbn [List.map app request_loop].
    rewrite (loadListData_again q q1 req p Hload).
    cbn [executeQueryAsync scripted].
    change (resume (set_pagePosition (Some p) q1) reply) with (resume q1 reply).
    destruct (resume q1 reply) as [results|m|e] eqn:Hres; simpl;
      rewrite ?Z.add_0_r, ?app_nil_r; try reflexivity.
    specialize (Hshort results eq_refl). apply Z.eqb_neq in Hshort.
    rewrite Hshort. reflexivity.
  - destruct fuel as [|fuel]; [simpl in Hfuel; lia|].
    cbn [List.map app].
    rewrite (request_loop_resolved scripted fuel
               (Resolved items :: List.map Resolved fulls ++ reply :: rest)
               _ _ _ items
               (List.map Resolved fulls ++ reply :: rest) rows
               listData nested (loadListData_again q q1 req p Hload) eq_refl Hrows).
    assert (Hfull : (page_size rows =? 5000) = true) by (apply Z.eqb_eq; exact Hsize).
    assert (Hmore : (page_size (listData ++ rows) =? 5000) = false).
    { apply Z.eqb_neq. unfold page_size in *. rewrite length_app. lia. }
    rewrite Hfull, Hmore.
    change (advance 5000 (set_pagePosition (Some p) q1))
      with (set_pagePosition (Some (p + 5000)) q1).
    rewrite (IH reply rest Hshort fuel (p + 5000) (listData ++ rows) true).
    + unfold sent. simpl. f_equal.
      * rewrite <- !app_assoc. reflexivity.
      * f_equal. f_equal. simpl length. lia.
    + simpl in Hfuel. lia.
    + unfold page_size in *. rewrite length_app. lia.
Qed.

(** X7: when the store rejects a request after any number of full pages,
    the failure callback gets the store's message as it is, nothing is
    asked again, and the rows of the pages already received are not
    delivered. *)
Theorem X7_rejection_ends_retrieval
    (q : queryDetails) (req : request)
    (fulls : list (list list_item)) (full_rows : list (list row))
    (message : string) (rest : list reply) (fuel : nat) :
  snd (loadListData (default_pagePosition q)) = Ok req ->
  Forall2 (fun items rows => projected q items rows /\ page_size items = 5000)
          fulls full_rows ->
  (length fulls < fuel)%nat ->
  final (getListData scripted fuel
           (List.map Resolved fulls ++ Rejected message :: rest) q)
    = onFailureUser message
  /\ length (requests (getListData scripted fuel
                         (List.map Resolved fulls ++ Rejected message :: rest) q))
     = Datatypes.S (length fulls).
Proof.
  intros Hreq Hfulls Hfuel.
  set (q0 := default_pagePosition q) in *.
  destruct (loadListData q0) as [q1 res] eqn:Hload. simpl in Hreq. subst res.
  destruct (loadListData_identity q0) as [Hid Hcols]. rewrite Hload in Hid, Hcols.
  simpl in Hid, Hcols.
  assert (Hq0 : list_identifier q0 = list_identifier q
                /\ requested_columns q0 = requested_columns q).
  { unfold q0, default_pagePosition. destruct (pagePosition q); split; reflexivity. }
  destruct Hq0 as [Hq0id Hq0cols].
  assert (Hproj : forall items rows, projected q items rows -> projected q1 items rows).
  { unfold projected. intros items rows H. rewrite Hid, Hcols, Hq0id, Hq0cols. exact H. }
  destruct (loadListData_position _ _ _ Hload) as [Hp0 Hp1].
  unfold getListData. fold q0.
  destruct fuel as [|fuel]; [simpl in Hfuel; lia|].
  destruct Hfulls as [|items rows fulls full_rows [Hrows Hsize] Hfulls].
  - cbn [List.map app request_loop]. rewrite Hload. simpl. split; reflexivity.
  - cbn [List.map app].
    rewrite (request_loop_resolved scripted fuel
               (Resolved items :: List.map Resolved fulls ++ Rejected message :: rest)
               _ _ _ items
               (List.map Resolved fulls ++ Rejected message :: rest) rows
               [] false Hload eq_refl (Hproj _ _ Hrows)).
    assert (Hlen : page_size rows = 5000).
    { unfold page_size in *. rewrite (project_items_length _ _ _ _ Hrows). exact Hsize. }
    cbn [app]. rewrite Hlen. simpl Z.eqb. cbv iota.
    assert (Hq1 : q1 = set_pagePosition (Some (position req)) q1).
    { destruct q1; simpl in *. unfold set_pagePosition. simpl. congruence. }
    assert (Hadv : advance 5000 (advance 1 q1)
                   = set_pagePosition (Some (position req + 5001)) q1).
    { rewrite Hq1 at 1. unfold advance, set_pagePosition. simpl.
      f_equal. f_equal. lia. }
    rewrite Hadv.
    assert (Hlater : Forall2 (fun items rows =>
                                projected q1 items rows /\ page_size rows = 5000)
                             fulls full_rows).
    { clear -Hfulls Hproj. induction Hfulls as [|i r fs rs [Hi Hs] _ IH];
        constructor; [|exact IH].
      split; [apply Hproj; exact Hi|].
      unfold page_size in *. rewrite (project_items_length _ _ _ _ Hi). exact Hs. }
    rewrite (later_pages_then q0 q1 req Hload fulls full_rows Hlater
               (Rejected message) rest ltac:(discriminate)
               fuel (position req + 5001) rows true).
    + unfold sent. simpl. split; [reflexivity|].
      rewrite length_map. f_equal. f_equal.
      clear. generalize (position req + 5001 + 5000).
      induction (length fulls) as [|n IHn]; intros c; simpl; [reflexivity|].
      f_equal. apply IHn.
    + simpl in Hfuel. lia.
    + lia.
Qed.

Lemma X7_witness_rejected_second_page :
  final (getListData scripted 2
           (List.map Resolved [id_items 1 5000]
            ++ Rejected "The request timed out." :: []) customers)
    = onFailureUser "The request timed out."
  /\ length (requests (getListData scripted 2
                         (List.map Resolved [id_items 1 5000]
                          ++ Rejected "The request timed out." :: []) customers))
     = 2%nat.
Proof.
  apply (X7_rejection_ends_retrieval customers
           {| spList := getByTitle "Customers";
              viewXml := "<View Scope='RecursiveAll'><ViewFields><FieldRef Name='ID' /></ViewFields></View>";
              position := 0; included := ["ID"] |}
           [id_items 1 5000] [id_items 1 5000] "The request timed out." [] 2).
  - reflexivity.
  - constructor;
      [split; [apply id_items_projected | rewrite id_items_size; reflexivity]|].
    constructor.
  - cbn [length]. lia.
Defined.

Lemma endless_later q q1 req (page : list list_item) (rows : list row) :
  loadListData q = (q1, Ok req) ->
  projected q1 page rows -> page_size rows = 5000 ->
  forall fuel p listData nested,
    page_size listData <> 0 ->
    final (request_loop (endless page) fuel tt (set_pagePosition (Some p) q1)
                        listData nested) = OutOfFuel
    /\ length (requests (request_loop (endless page) fuel tt
                           (set_pagePosition (Some p) q1) listData nested)) = fuel.
Proof.
  intros Hload Hrows Hsize. induction fuel as [|fuel IH]; intros p listData nested Hacc.
  - split; reflexivity.
  - rewrite (request_loop_resolved (endless page) fuel tt _ _ _ page tt rows
               listData nested (loadListData_again q q1 req p Hload) eq_refl Hrows).
    assert (Hfull : (page_size rows =? 5000) = true) by (apply Z.eqb_eq; exact Hsize).
    assert (Hmore : (page_size (listData ++ rows) =? 5000) = false).
    { apply Z.eqb_neq. unfold page_size in *. rewrite length_app. lia. }
    rewrite Hfull, Hmore.
    change (advance 5000 (set_pagePosition (Some p) q1))
      with (set_pagePosition (Some (p + 5000)) q1).
    destruct (IH (p + 5000) (listData ++ rows) true) as [Hf Hl].
    { unfold page_size in *. rewrite length_app. lia. }
    unfold sent. simpl. split; [exact Hf|]. f_equal. exact Hl.
Qed.

(** X8: the loop has no bound of its own. Against a store that answers
    every request with a full page, [getListData] never reaches a callback:
    whatever number of requests it is allowed, it issues them all and is
    still asking. *)
Theorem X8_full_pages_forever
    (q : queryDetails) (req : request) (page : list list_item) (rows : list row)
    (fuel : nat) :
  snd (loadListData (default_pagePosition q)) = Ok req ->
  projected q page rows ->
  page_size page = 5000 ->
  final (getListData (endless page) fuel tt q) = OutOfFuel
  /\ length (requests (getListData (endless page) fuel tt q)) = fuel.
Proof.
  intros Hreq Hrows Hsize.
  set (q0 := default_pagePosition q) in *.
  destruct (loadListData q0) as [q1 res] eqn:Hload. simpl in Hreq. subst res.
  destruct (loadListData_identity q0) as [Hid Hcols]. rewrite Hload in Hid, Hcols.
  simpl in Hid, Hcols.
  assert (Hq0 : list_identifier q0 = list_identifier q
                /\ requested_columns q0 = requested_columns q).
  { unfold q0, default_pagePosition. destruct (pagePosition q); split; reflexivity. }
  destruct Hq0 as [Hq0id Hq0cols].
  assert (Hproj : projected q1 page rows).
  { unfold projected in *. rewrite Hid, Hcols, Hq0id, Hq0cols. exact Hrows. }
  assert (Hlen : page_size rows = 5000).
  { unfold page_size in *. rewrite (project_items_length _ _ _ _ Hrows). exact Hsize. }
  destruct (loadListData_position _ _ _ Hload) as [Hp0 Hp1].
  unfold getListData. fold q0.
  destruct fuel as [|fuel]; [split; reflexivity|].
  rewrite (request_loop_resolved (endless page) fuel tt _ _ _ page tt rows
             [] false Hload eq_refl Hproj).
  cbn [app]. rewrite Hlen. simpl Z.eqb. cbv iota.
  assert (Hq1 : q1 = set_pagePosition (Some (position req)) q1).
  { destruct q1; simpl in *. unfold set_pagePosition. simpl. congruence. }
  assert (Hadv : advance 5000 (advance 1 q1)
                 = set_pagePosition (Some (position req + 5001)) q1).
  { rewrite Hq1 at 1. unfold advance, set_pagePosition. simpl. f_equal. f_equal. lia. }
  rewrite Hadv.
  destruct (endless_later q0 q1 req page rows Hload Hproj Hlen fuel
              (position req + 5001) rows true) as [Hf Hl]; [lia|].
  unfold sent. simpl. split; [exact Hf|]. f_equal. exact Hl.
Qed.

Lemma X8_witness_seven_requests :
  final (getListData (endless (id_items 1 5000)) 7 tt customers) = OutOfFuel
  /\ length (requests (getListData (endless (id_items 1 5000)) 7 tt customers)) = 7%nat.
Proof.
  apply (X8_full_pages_forever customers
           {| spList := getByTitle "Customers";
              viewXml := "<View Scope='RecursiveAll'><ViewFields><FieldRef Name='ID' /></ViewFields></View>";
              position := 0; included := ["ID"] |}
           (id_items 1 5000) (id_items 1 5000) 7).
  - reflexivity.
  - apply id_items_projected.
  - rewrite id_items_size. reflexivity.
Defined.

Lemma project_item_lookup id (item : list_item) cols (itemRow row' : row) :
  project_item id item cols itemRow = Ok row' ->
  forall c, row' !! c = if bool_decide (c ∈ cols) then item !! c else itemRow !! c.
Proof.
  revert itemRow. induction cols as [|a cols IH]; intros itemRow H c.
  - simpl in H. injection H as <-.
    rewrite bool_decide_eq_false_2 by (apply not_elem_of_nil). reflexivity.
  - simpl in H. unfold get_item in H. destruct (item !! a) as [v|] eqn:Ha; [|discriminate].
    rewrite (IH _ H c).
    destruct (decide (c = a)) as [->|Hne].
    + rewrite (bool_decide_eq_true_2 (a ∈ a :: cols)) by (apply elem_of_cons; auto).
      destruct (bool_decide (a ∈ cols)); [reflexivity|].
      rewrite lookup_insert_eq. symmetry. exact Ha.
    + rewrite lookup_insert_ne by congruence.
      destruct (bool_decide (c ∈ cols)) eqn:E.
      * apply bool_decide_eq_true in E.
        rewrite bool_decide_eq_true_2 by (apply elem_of_cons; auto). reflexivity.
      * apply bool_decide_eq_false in E.
        rewrite bool_decide_eq_false_2; [reflexivity|].
        intros Hin. apply elem_of_cons in Hin as [?|?]; contradiction.
Qed.

(** X9: the rows handed to the caller are the returned items cut down to
    the requested columns, one row per item in the order received: a row
    has the item's value under every requested column and nothing under
    any other name, however many fields the item carries and however often
    a column is requested. *)
Theorem X9_rows_are_items_cut_to_columns
    (listId : string) (columns : list string)
    (items : list list_item) (rows : list row) :
  project_items listId columns items = Ok rows ->
  Forall2 (fun (item : list_item) (r : row) =>
             forall c, r !! c = if bool_decide (c ∈ columns) then item !! c else None)
          items rows.
Proof.
  revert rows. induction items as [|item items IH]; simpl; intros rows H.
  - injection H as <-. constructor.
  - destruct (project_item listId item columns ∅) as [r|] eqn:Hr; simpl in H;
      [|discriminate].
    destruct (project_items listId columns items) as [rs|]; simpl in H; [|discriminate].
    injection H as <-. constructor; [|apply IH; reflexivity].
    intros c. rewrite (project_item_lookup _ _ _ _ _ Hr c).
    rewrite lookup_empty. reflexivity.
Qed.

Lemma X9_witness_two_items :
  Forall2 (fun (item : list_item) (r : row) =>
             forall c, r !! c = if bool_decide (c ∈ ["Name"; "Phone"; "Name"])
                                then item !! c else None)
          [ {[ "Name" := JStr "Ann"; "Phone" := JStr "555"; "Created" := JStr "2019" ]};
            {[ "Name" := JStr "Bob"; "Phone" := JNull ]} ]
          [ {[ "Name" := JStr "Ann"; "Phone" := JStr "555" ]};
            {[ "Name" := JStr "Bob"; "Phone" := JNull ]} ].
Proof.
  apply (X9_rows_are_items_cut_to_columns "Customers" ["Name"; "Phone"; "Name"]).
  vm_compute. reflexivity.
Defined.

(** ** Further properties of the write path *)

Lemma set_items_keys (value_of : column_entry -> result item_value)
    (columnData : list (string * column_entry)) (sets : list (string * item_value)) :
  set_items value_of columnData = Ok sets ->
  Forall2 (fun kc kv => fst kv = fst kc /\ value_of (snd kc) = Ok (snd kv))
          columnData sets.
Proof.
  revert sets. induction columnData as [|[key c] rest IH]; simpl; intros sets H.
  - injection H as <-. constructor.
  - destruct (value_of c) as [v|] eqn:Hv; simpl in H; [|discriminate].
    destruct (set_items value_of rest) as [vs|]; simpl in H; [|discriminate].
    injection H as <-. constructor; [split; [reflexivity|exact Hv]|].
    apply IH. reflexivity.
Qed.

Lemma set_items_fails (value_of : column_entry -> result item_value)
    (columnData : list (string * column_entry)) :
  (exists kc e, In kc columnData /\ value_of (snd kc) = Throw e) ->
  exists e, set_items value_of columnData = Throw e.
Proof.
  induction columnData as [|[key c] rest IH]; intros (kc & e & Hin & He).
  - destruct Hin.
  - simpl. destruct (value_of c) as [v|e'] eqn:Hv; simpl; [|eauto].
    destruct Hin as [<-|Hin]; [simpl in He; congruence|].
    destruct IH as [e'' He'']; [eauto|]. rewrite He''. simpl. eauto.
Qed.

(** X10: [updateListItem] and [addListItem] are all or nothing. When they
    return, one value has been set per key of [columnData], under that key
    and in the order of the keys; when the mapping of any one column
    throws, the method throws and reaches neither [update()] nor
    [executeQueryAsync]. *)
Theorem X10_one_value_per_key_or_none
    (host : sp_host) (columnData : list (string * column_entry)) :
  (forall d sets,
     u_columnData d = Some columnData ->
     updateListItem host d = Ok sets ->
     List.map fst sets = List.map fst columnData
     /\ Forall2 (fun kc kv => fst kv = fst kc /\ update_value host (snd kc) = Ok (snd kv))
                columnData sets)
  /\ (forall d sets,
        a_columnData d = Some columnData ->
        addListItem host d = Ok sets ->
        List.map fst sets = List.map fst columnData
        /\ Forall2 (fun kc kv => fst kv = fst kc /\ add_value host (snd kc) = Ok (snd kv))
                   columnData sets)
  /\ (forall d kc e,
        u_columnData d = Some columnData ->
        In kc columnData -> update_value host (snd kc) = Throw e ->
        exists e', updateListItem host d = Throw e')
  /\ (forall d kc e,
        a_columnData d = Some columnData ->
        In kc columnData -> add_value host (snd kc) = Throw e ->
        exists e', addListItem host d = Throw e').
Proof.
  assert (Hkeys : forall (value_of : column_entry -> result item_value) sets,
             Forall2 (fun kc kv => fst kv = fst kc /\ value_of (snd kc) = Ok (snd kv))
                     columnData sets ->
             List.map fst sets = List.map fst columnData).
  { intros value_of sets H. induction H as [|kc kv l1 l2 [Hk _] _ IH]; simpl;
      [reflexivity|]. rewrite Hk, IH. reflexivity. }
  repeat split.
  - apply (Hkeys (update_value host)).
    unfold updateListItem in H0. rewrite H in H0.
    destruct (u_listName d), (itemID d); try discriminate.
    destruct (set_items (update_value host) columnData) eqn:E; simpl in H0; [|discriminate].
    injection H0 as <-. apply set_items_keys. exact E.
  - unfold updateListItem in H0. rewrite H in H0.
    destruct (u_listName d), (itemID d); try discriminate.
    destruct (set_items (update_value host) columnData) eqn:E; simpl in H0; [|discriminate].
    injection H0 as <-. apply set_items_keys. exact E.
  - apply (Hkeys (add_value host)).
    unfold addListItem in H0. rewrite H in H0.
    destruct (a_listName d); try discriminate.
    destruct (set_items (add_value host) columnData) eqn:E; simpl in H0; [|discriminate].
    injection H0 as <-. apply set_items_keys. exact E.
  - unfold addListItem in H0. rewrite H in H0.
    destruct (a_listName d); try discriminate.
    destruct (set_items (add_value host) columnData) eqn:E; simpl in H0; [|discriminate].
    injection H0 as <-. apply set_items_keys. exact E.
  - intros d kc e Hd Hin He. unfold updateListItem. rewrite Hd.
    destruct (u_listName d), (itemID d); eauto.
    destruct (set_items_fails (update_value host) columnData) as [e' He']; [eauto|].
    rewrite He'. simpl. eauto.
  - intros d kc e Hd Hin He. unfold addListItem. rewrite Hd.
    destruct (a_listName d); eauto.
    destruct (set_items_fails (add_value host) columnData) as [e' He']; [eauto|].
    rewrite He'. simpl. eauto.
Qed.

Lemma X10_witness_title_and_owner :
  List.map fst [("Title", Plain (JStr "Report"));
                ("Owner", Array [FieldUserValue (JStr "ann")])]
  = List.map fst [("Title", plain_entry "Text" (JStr "Report"));
                  ("Owner", user_entry (JStr "ann"))]
  /\ Forall2 (fun kc kv => fst kv = fst kc
                           /\ update_value storing_host (snd kc) = Ok (snd kv))
             [("Title", plain_entry "Text" (JStr "Report"));
              ("Owner", user_entry (JStr "ann"))]
             [("Title", Plain (JStr "Report"));
              ("Owner", Array [FieldUserValue (JStr "ann")])].
Proof.
  apply (proj1 (X10_one_value_per_key_or_none storing_host
                  [("Title", plain_entry "Text" (JStr "Report"));
                   ("Owner", user_entry (JStr "ann"))])
               {| u_listName := Some "Documents"; itemID := Some (JNum 52);
                  u_columnData := Some [("Title", plain_entry "Text" (JStr "Report"));
                                        ("Owner", user_entry (JStr "ann"))] |}
               [("Title", Plain (JStr "Report"));
                ("Owner", Array [FieldUserValue (JStr "ann")])]);
    reflexivity.
Defined.

Lemma collect_users (host : sp_host) (users : list jsval) :
  (forall v, accepts_user host v = true) ->
  collect (fromUser host) users = Ok (List.map FieldUserValue users).
Proof.
  intros Hacc. induction users as [|v users IH]; simpl; [reflexivity|].
  unfold fromUser at 1. rewrite Hacc. simpl. rewrite IH. reflexivity.
Qed.

(** X11: for a User column both methods build a list of user values: one
    element for a string, one element per entry, in order, for an array, so
    that a name and the array holding just that name map alike. A value
    that is neither (a number, a missing value) is a TypeError. *)
Theorem X11_user_values (host : sp_host) (c : column_entry) :
  (forall v, accepts_user host v = true) ->
  toLowerCase (Type_ c) = Ok "user" ->
  (forall s, Value c = JStr s ->
     update_value host c = Ok (Array [FieldUserValue (JStr s)])
     /\ add_value host c = Ok (Array [FieldUserValue (JStr s)]))
  /\ (forall users, Value c = JArr users ->
        update_value host c = Ok (Array (List.map FieldUserValue users))
        /\ add_value host c = Ok (Array (List.map FieldUserValue users)))
  /\ ((forall s, Value c <> JStr s) -> (forall users, Value c <> JArr users) ->
      update_value host c = Throw TypeError /\ add_value host c = Throw TypeError).
Proof.
  intros Hacc Hty. unfold update_value, add_value, user_value. rewrite Hty. simpl.
  split; [|split].
  - intros s ->. simpl. unfold fromUser. rewrite Hacc. simpl. split; reflexivity.
  - intros users ->. simpl. rewrite (collect_users host users Hacc). simpl.
    split; reflexivity.
  - intros Hs Ha. destruct (Value c) as [| |b|z| |s|l]; simpl; try (split; reflexivity).
    + exfalso. apply (Hs s). reflexivity.
    + exfalso. apply (Ha l). reflexivity.
Qed.

Lemma X11_witness_one_name_two_ways :
  (update_value storing_host (user_entry (JStr "ann"))
   = Ok (Array [FieldUserValue (JStr "ann")])
   /\ add_value storing_host (user_entry (JStr "ann"))
      = Ok (Array [FieldUserValue (JStr "ann")]))
  /\ (update_value storing_host (user_entry (JArr [JStr "ann"]))
      = Ok (Array [FieldUserValue (JStr "ann")])
      /\ add_value storing_host (user_entry (JArr [JStr "ann"]))
         = Ok (Array [FieldUserValue (JStr "ann")]))
  /\ (update_value storing_host (user_entry (JNum 12)) = Throw TypeError
      /\ add_value storing_host (user_entry (JNum 12)) = Throw TypeError).
Proof.
  split; [|split].
  - apply (X11_user_values storing_host (user_entry (JStr "ann"))); reflexivity.
  - apply (proj1 (proj2 (X11_user_values storing_host (user_entry (JArr [JStr "ann"]))
                           ltac:(reflexivity) eq_refl)) [JStr "ann"]).
    reflexivity.
  - apply (proj2 (proj2 (X11_user_values storing_host (user_entry (JNum 12))
                           ltac:(reflexivity) eq_refl))); discriminate.
Defined.

Lemma call_throws accepted op e : call accepted op = Throw e -> e = HostError op.
Proof. destruct accepted; simpl; intros H; [discriminate|]. injection H as <-. reflexivity. Qed.

Lemma collect_throws (make : jsval -> result sp_object) (l : list jsval) e :
  (forall x e', make x = Throw e' -> raised_below e') ->
  collect make l = Throw e -> raised_below e.
Proof.
  intros Hmake. induction l as [|x l IH]; simpl; [discriminate|].
  destruct (make x) as [o|e1] eqn:E1; simpl.
  - destruct (collect make l) as [os|e2]; simpl; [discriminate|].
    intros H. injection H as <-. apply IH. reflexivity.
  - intros H. injection H as <-. eapply Hmake; eauto.
Qed.

Lemma new_FieldLookupValue_throws host v e :
  new_FieldLookupValue host v = Throw e -> raised_below e.
Proof.
  unfold new_FieldLookupValue.
  destruct (call _ _) eqn:E; simpl; [discriminate|].
  intros H. injection H as <-. right. rewrite (call_throws _ _ _ E). eauto.
Qed.

Lemma fromUser_throws host v e : fromUser host v = Throw e -> raised_below e.
Proof.
  unfold fromUser.
  destruct (call _ _) eqn:E; simpl; [discriminate|].
  intros H. injection H as <-. right. rewrite (call_throws _ _ _ E). eauto.
Qed.

Lemma new_FieldUrlValue_throws host u d e :
  new_FieldUrlValue host u d = Throw e -> raised_below e.
Proof.
  unfold new_FieldUrlValue.
  destruct (call (accepts_url host u) _) eqn:E1; simpl.
  - destruct (call (accepts_description host d) _) eqn:E2; simpl; [discriminate|].
    intros H. injection H as <-. right. rewrite (call_throws _ _ _ E2). eauto.
  - intros H. injection H as <-. right. rewrite (call_throws _ _ _ E1). eauto.
Qed.

Lemma user_value_throws host c e : user_value host c = Throw e -> raised_below e.
Proof.
  unfold user_value.
  destruct (constructor_name (Value c)) as [cn|e1] eqn:E1; simpl.
  2:{ intros H. injection H as <-. left. rewrite (constructor_name_throws _ _ E1).
      reflexivity. }
  destruct (bool_decide (cn = "String")).
  - destruct (fromUser host (Value c)) eqn:E2; simpl; [discriminate|].
    intros H. injection H as <-. eapply fromUser_throws; eauto.
  - destruct (forEach_elements (Value c)) as [users|e3] eqn:E3; simpl.
    2:{ intros H. injection H as <-. left. rewrite (forEach_elements_throws _ _ E3).
        reflexivity. }
    destruct (collect (fromUser host) users) eqn:E4; simpl; [discriminate|].
    intros H. injection H as <-. revert E4. apply collect_throws.
    intros x e'. apply fromUser_throws.
Qed.

Lemma rethrown prefix e : raised_below e -> raised_below (ThrownCat prefix e).
Proof. unfold raised_below. simpl. auto. Qed.

(** X12: the mapping of a column has no rejection of its own. A type tag
    other than Url, Lookup and User, known to SharePoint or not, passes
    [Value] on unchanged and cannot fail; and whenever the mapping of any
    column fails, the exception at the bottom is a TypeError of the engine
    or an error of a call into the object model. *)
Theorem X12_mapping_never_rejects (host : sp_host) (c : column_entry) :
  (forall t, Type_ c = JStr t ->
     lower t <> "url" -> lower t <> "lookup" -> lower t <> "user" ->
     update_value host c = Ok (Plain (Value c))
     /\ add_value host c = Ok (Plain (Value c)))
  /\ (forall e, update_value host c = Throw e -> raised_below e)
  /\ (forall e, add_value host c = Throw e -> raised_below e).
Proof.
  split; [|split].
  - intros t Ht H1 H2 H3. unfold update_value, add_value. rewrite Ht. simpl.
    rewrite !bool_decide_eq_false_2 by assumption. split; reflexivity.
  - intros e. unfold update_value.
    destruct (toLowerCase (Type_ c)) as [t|e0] eqn:Et; simpl.
    2:{ intros H. injection H as <-. left. rewrite (toLowerCase_throws _ _ Et).
        reflexivity. }
    destruct (bool_decide (t = "url")).
    { destruct (new_FieldUrlValue host (URL c) (Description c)) eqn:E; simpl;
        [discriminate|].
      intros H. injection H as <-. apply rethrown. eapply new_FieldUrlValue_throws; eauto. }
    destruct (bool_decide (t = "lookup")).
    { destruct (negb (strict_eq_str (LookupID c) "")); simpl; [|discriminate].
      destruct (new_FieldLookupValue host (LookupID c)) eqn:E; simpl; [discriminate|].
      intros H. injection H as <-. apply rethrown.
      eapply new_FieldLookupValue_throws; eauto. }
    destruct (bool_decide (t = "user")); [apply user_value_throws|discriminate].
  - intros e. unfold add_value.
    destruct (toLowerCase (Type_ c)) as [t|e0] eqn:Et; simpl.
    2:{ intros H. injection H as <-. left. rewrite (toLowerCase_throws _ _ Et).
        reflexivity. }
    destruct (bool_decide (t = "url")).
    { destruct (new_FieldUrlValue host (URL c) (Description c)) eqn:E; simpl;
        [discriminate|].
      intros H. injection H as <-. apply rethrown. eapply new_FieldUrlValue_throws; eauto. }
    destruct (bool_decide (t = "lookup")).
    { destruct (constructor_name (LookupID c)) as [cn|e1] eqn:E1; simpl.
      2:{ intros H. injection H as <-. apply rethrown. left.
          rewrite (constructor_name_throws _ _ E1). reflexivity. }
      destruct (bool_decide (cn = "Number") || bool_decide (cn = "String")).
      - destruct (new_FieldLookupValue host (LookupID c)) eqn:E; simpl; [discriminate|].
        intros H. injection H as <-. apply rethrown.
        eapply new_FieldLookupValue_throws; eauto.
      - destruct (forEach_elements (LookupID c)) as [ids|e3] eqn:E3; simpl.
        2:{ intros H. injection H as <-. apply rethrown. left.
            rewrite (forEach_elements_throws _ _ E3). reflexivity. }
        destruct (collect (new_FieldLookupValue host) ids) eqn:E4; simpl; [discriminate|].
        intros H. injection H as <-. apply rethrown. revert E4. apply collect_throws.
        intros x e'. apply new_FieldLookupValue_throws. }
    destruct (bool_decide (t = "user")); [apply user_value_throws|discriminate].
Qed.

Lemma X12_witness_unknown_type_tag :
  update_value storing_host (plain_entry "Geolocation" (JStr "45.5,-73.6"))
    = Ok (Plain (JStr "45.5,-73.6"))
  /\ add_value storing_host (plain_entry "Geolocation" (JStr "45.5,-73.6"))
     = Ok (Plain (JStr "45.5,-73.6")).
Proof.
  apply (proj1 (X12_mapping_never_rejects storing_host
                  (plain_entry "Geolocation" (JStr "45.5,-73.6"))) "Geolocation");
    [reflexivity | discriminate | discriminate | discriminate].
Defined.

(** X13: a Lookup column whose [LookupID] is missing or null is not
    cleared by either method: [updateListItem] builds a lookup value around
    the missing identifier, and [addListItem] fails with the "Invalid Lookup
    field details" error, on a TypeError. *)
Theorem X13_lookup_without_identifier (host : sp_host) (c : column_entry) :
  toLowerCase (Type_ c) = Ok "lookup" ->
  LookupID c = JUndefined \/ LookupID c = JNull ->
  accepts_lookupId host (LookupID c) = true ->
  update_value host c = Ok (Object (FieldLookupValue (LookupID c)))
  /\ add_value host c
     = Throw (ThrownCat "spHelper Error: Invalid Lookup field details. Unable to add item ... "
                        TypeError).
Proof.
  intros Hty Hid Hacc. unfold update_value, add_value, new_FieldLookupValue.
  rewrite Hty, Hacc. simpl.
  destruct Hid as [-> | ->]; simpl; split; reflexivity.
Qed.

Lemma X13_witness_lookup_without_id :
  update_value storing_host (lookup_entry JUndefined)
    = Ok (Object (FieldLookupValue JUndefined))
  /\ add_value storing_host (lookup_entry JUndefined)
     = Throw (ThrownCat "spHelper Error: Invalid Lookup field details. Unable to add item ... "
                        TypeError).
Proof.
  apply (X13_lookup_without_identifier storing_host (lookup_entry JUndefined));
    [reflexivity | left; reflexivity | reflexivity].
Defined.

(** ** Construction *)

(** X14: whenever the constructor returns, the helper has an application
    context and a web taken from a context that was created. It is in
    cross-domain mode exactly when [options.crossDomain] is the boolean
    [true] (a truthy value such as 1 or 'true' is not enough); in that mode
    the target site is not the empty string and the web comes from the
    cross-domain context, otherwise no cross-domain context exists and the
    web comes from the application context. *)
Theorem X14_constructor_invariant (o : Setup.options) (m : Setup.members) :
  Setup.constructor (Some o) = Ok m ->
  Setup.crossDomain m = Setup.is_true (Setup.opt_crossDomain o)
  /\ Setup.appContext m <> None
  /\ Setup.spWeb m <> None
  /\ (Setup.crossDomain m = true ->
      Setup.is_not_empty (Setup.targetSite m) = true
      /\ Setup.appContext m = Some Setup.get_current
      /\ Setup.crossContext m
         = Some (Setup.AppContextSite Setup.get_current (Setup.targetSite m))
      /\ Setup.spWeb m = Setup.crossContext m)
  /\ (Setup.crossDomain m = false ->
      Setup.crossContext m = None
      /\ Setup.spWeb m = Setup.appContext m
      /\ Setup.appContext m
         = Some (if Setup.is_not_empty (Setup.targetSite m)
                 then Setup.ClientContext (Setup.targetSite m)
                 else Setup.get_current)).
Proof.
  unfold Setup.constructor, Setup.initializeOptions. simpl.
  destruct o as [cd ts]. simpl.
  assert (Hund : Setup.is_true cd = true -> is_undefined cd = false)
    by (destruct cd; simpl; congruence).
  destruct (Setup.is_true cd) eqn:Hcd.
  - rewrite (Hund eq_refl). simpl.
    destruct (is_undefined ts) eqn:Hts; simpl.
    + discriminate.
    + destruct (Setup.is_not_empty ts) eqn:Hne; simpl; [|discriminate].
      intros H. injection H as <-. unfold Setup.setWeb, Setup.setClientContext. simpl.
      rewrite andb_false_r. simpl.
      repeat split; try discriminate; auto.
  - rewrite andb_false_r. simpl.
    intros H. injection H as <-.
    unfold Setup.setWeb, Setup.setClientContext.
    destruct (is_undefined ts); simpl.
    + repeat split; try discriminate; auto.
    + rewrite andb_true_r. destruct (Setup.is_not_empty ts) eqn:Hne; simpl;
        rewrite ?Hne; repeat split; try discriminate; auto.
Qed.

Lemma X14_witness_cross_domain :
  Setup.crossDomain
    {| Setup.crossDomain := true; Setup.targetSite := JStr "http://host/site";
       Setup.appContext := Some Setup.get_current;
       Setup.crossContext := Some (Setup.AppContextSite Setup.get_current
                                     (JStr "http://host/site"));
       Setup.spWeb := Some (Setup.AppContextSite Setup.get_current
                              (JStr "http://host/site")) |}
  = Setup.is_true (JBool true)
  /\ Setup.constructor (Some {| Setup.opt_crossDomain := JStr "true";
                                Setup.opt_targetSite := JStr "http://host/site" |})
     = Ok {| Setup.crossDomain := false; Setup.targetSite := JStr "http://host/site";
             Setup.appContext := Some (Setup.ClientContext (JStr "http://host/site"));
             Setup.crossContext := None;
             Setup.spWeb := Some (Setup.ClientContext (JStr "http://host/site")) |}.
Proof.
  split; [|reflexivity].
  apply (X14_constructor_invariant
           {| Setup.opt_crossDomain := JBool true;
              Setup.opt_targetSite := JStr "http://host/site" |}).
  reflexivity.
Defined.

(** ** Property readers *)

Example includes_samples :
  Properties.includes (JArr [JStr "Title"; JStr "Url"]) "Url" = Ok true
  /\ Properties.includes (JArr [JStr "Title"; JStr "Url"]) "url" = Ok false
  /\ Properties.includes (JStr "Title,Url") "Url" = Ok true
  /\ Properties.includes (JStr "Title") "Url" = Ok false
  /\ Properties.includes (JNum 3) "Url" = Throw TypeError.
Proof. repeat split; reflexivity. Qed.

(** X15: given an array of names, [getSiteProperty] answers a success with
    an object that has, for each of [Title], [Url], [ServerRelativeUrl] and
    [MasterUrl] found in the array (in that exact letter case), the value
    of the matching getter of the web, and no other key: any other name in
    the array is passed over without an error. *)
Theorem X15_site_properties_requested_and_known
    (names : list jsval) (w : Properties.web) :
  exists results,
    Properties.getSiteProperty (JArr names) (Properties.Resolved w)
    = Properties.onSuccessUser results
    /\ forall key : string,
         results !! key = if requested names key then site_getter w key else None.
Proof.
  unfold Properties.getSiteProperty, Properties.site_results,
    Properties.add_if_included, Properties.includes. simpl.
  fold (requested names "Title"). fold (requested names "Url").
  fold (requested names "ServerRelativeUrl"). fold (requested names "MasterUrl").
  eexists. split; [reflexivity|].
  intros key. unfold site_getter.
  destruct (decide (key = "Title")) as [->|H1];
    [|destruct (decide (key = "Url")) as [->|H2];
      [|destruct (decide (key = "ServerRelativeUrl")) as [->|H3];
        [|destruct (decide (key = "MasterUrl")) as [->|H4]]]].
  - destruct (requested names "Title"), (requested names "Url"),
      (requested names "ServerRelativeUrl"), (requested names "MasterUrl");
      simplify_map_eq; reflexivity.
  - destruct (requested names "Title"), (requested names "Url"),
      (requested names "ServerRelativeUrl"), (requested names "MasterUrl");
      simplify_map_eq; reflexivity.
  - destruct (requested names "Title"), (requested names "Url"),
      (requested names "ServerRelativeUrl"), (requested names "MasterUrl");
      simplify_map_eq; reflexivity.
  - destruct (requested names "Title"), (requested names "Url"),
      (requested names "ServerRelativeUrl"), (requested names "MasterUrl");
      simplify_map_eq; reflexivity.
  - rewrite !bool_decide_eq_false_2 by assumption.
    destruct (requested names "Title"), (requested names "Url"),
      (requested names "ServerRelativeUrl"), (requested names "MasterUrl"),
      (requested names key); simplify_map_eq; reflexivity.
Qed.

(** X16: [getUserProperty] reads the names [Title], [id] and [email], in
    that letter case, and answers under the keys [Title], [ID] and [Email]:
    the result has a key exactly when its name is in the array, and never
    any other key, so that asking for [Email] or [ID] yields nothing. *)
Theorem X16_user_properties_names_and_keys
    (names : list jsval) (u : Properties.user) :
  exists results,
    Properties.getUserProperty (JArr names) (Properties.Resolved u)
    = Properties.onSuccessUser results
    /\ results !! "Title"
       = (if requested names "Title" then Some (Properties.user_title u) else None)
    /\ results !! "ID"
       = (if requested names "id" then Some (Properties.user_id u) else None)
    /\ results !! "Email"
       = (if requested names "email" then Some (Properties.user_email u) else None)
    /\ forall key : string,
         key <> "Title" -> key <> "ID" -> key <> "Email" -> results !! key = None.
Proof.
  unfold Properties.getUserProperty, Properties.user_results,
    Properties.add_if_included, Properties.includes. simpl.
  fold (requested names "Title"). fold (requested names "id").
  fold (requested names "email").
  eexists. split; [reflexivity|].
  destruct (requested names "Title"), (requested names "id"), (requested names "email");
    repeat split; intros; simplify_map_eq; reflexivity.
Qed.

Lemma X16_witness_Email_and_ID :
  exists results,
    Properties.getUserProperty (JArr [JStr "Email"; JStr "ID"])
      (Properties.Resolved
         {| Properties.user_title := JStr "Ada"; Properties.user_id := JNum 7;
            Properties.user_email := JStr "ada@example.org" |})
    = Properties.onSuccessUser results
    /\ results !! "Email" = None
    /\ results !! "Manager" = None.
Proof.
  destruct (X16_user_properties_names_and_keys [JStr "Email"; JStr "ID"]
              {| Properties.user_title := JStr "Ada"; Properties.user_id := JNum 7;
                 Properties.user_email := JStr "ada@example.org" |})
    as (results & H & _ & _ & HE & Hother).
  exists results. split; [exact H|]. split; [exact HE|].
  apply Hother; discriminate.
Defined.

(** ** Constants *)

Lemma lower_ascii_idem a : lower_ascii (lower_ascii a) = lower_ascii a.
Proof. destruct a as [[] [] [] [] [] [] [] []]; vm_compute; reflexivity. Qed.

Lemma lower_idem s : lower (lower s) = lower s.
Proof.
  induction s as [|a s IH]; simpl; [reflexivity|].
  rewrite lower_ascii_idem, IH. reflexivity.
Qed.

Lemma field_type_name_table z :
  Constants.field_type_name z
  = match named z with Some n => JStr n | None => JUndefined end.
Proof.
  unfold named. destruct (Z.leb_spec 1 z) as [H1|H1].
  - destruct (Z_le_dec z 31) as [H2|H2].
    + assert (Hcases :
        z = 1 \/ z = 2 \/ z = 3 \/ z = 4 \/ z = 5 \/ z = 6 \/ z = 7 \/ z = 8 \/ z = 9
        \/ z = 10 \/ z = 11 \/ z = 12 \/ z = 13 \/ z = 14 \/ z = 15 \/ z = 16
        \/ z = 17 \/ z = 18 \/ z = 19 \/ z = 20 \/ z = 21 \/ z = 22 \/ z = 23
        \/ z = 24 \/ z = 25 \/ z = 26 \/ z = 27 \/ z = 28 \/ z = 29 \/ z = 30
        \/ z = 31) by lia.
      repeat (destruct Hcases as [->|Hcases]; [reflexivity|]). subst z. reflexivity.
    + assert (Hn : nth_error field_type_names (Z.to_nat (z - 1)) = None).
      { apply nth_error_None. change (length field_type_names) with 31%nat. lia. }
      rewrite Hn. unfold Constants.field_type_name.
      repeat (match goal with
              | |- context [?a =? ?b] =>
                  let E := fresh in destruct (Z.eqb_spec a b) as [E|E]; [exfalso; lia|]
              end). reflexivity.
  - unfold Constants.field_type_name.
    repeat (match goal with
            | |- context [?a =? ?b] =>
                let E := fresh in destruct (Z.eqb_spec a b) as [E|E]; [exfalso; lia|]
            end). reflexivity.
Qed.

Lemma named_in_range z : 1 <= z <= 31 -> exists name, named z = Some name.
Proof.
  intros Hz. unfold named. destruct (Z.leb_spec 1 z); [|lia].
  destruct (nth_error field_type_names (Z.to_nat (z - 1))) as [name|] eqn:E; [eauto|].
  apply nth_error_None in E. change (length field_type_names) with 31%nat in E. lia.
Qed.

Lemma named_out_of_range z : ~ (1 <= z <= 31) -> named z = None.
Proof.
  intros Hz. unfold named. destruct (Z.leb_spec 1 z); [|reflexivity].
  apply nth_error_None. change (length field_type_names) with 31%nat. lia.
Qed.

Lemma field_type_names_NoDup : List.NoDup field_type_names.
Proof.
  apply NoDup_ListNoDup, (bool_decide_unpack (NoDup field_type_names)).
  vm_compute. exact I.
Qed.

Lemma named_injective z z' name :
  named z = Some name -> named z' = Some name -> z' = z.
Proof.
  unfold named. destruct (Z.leb_spec 1 z); [|discriminate].
  destruct (Z.leb_spec 1 z'); [|discriminate].
  intros H1 H2.
  assert (Z.to_nat (z - 1) = Z.to_nat (z' - 1)); [|lia].
  apply (proj1 (List.NoDup_nth_error field_type_names) field_type_names_NoDup).
  - apply nth_error_Some. rewrite H1. discriminate.
  - rewrite H1, H2. reflexivity.
Qed.

(** X17: on a number [fieldType] answers the name the table of the source
    gives it, [integer] for 1, [text] for 2, and so on to [maxItems] for
    31, and undefined for any other number; no two numbers share a name.
    On a string it answers what [SP.FieldType] holds under it, so that
    with an enumeration that numbers the 31 names from 1, the two
    directions undo each other. *)
Theorem X17_fieldType_names (SP_FieldType : string -> jsval) (z : Z) :
  ((1 <= z <= 31 ->
    exists name, Constants.fieldType SP_FieldType (JNum z) = Ok (JStr name))
   /\ (~ (1 <= z <= 31) -> Constants.fieldType SP_FieldType (JNum z) = Ok JUndefined)
   /\ (forall z', 1 <= z <= 31 ->
         Constants.fieldType SP_FieldType (JNum z')
         = Constants.fieldType SP_FieldType (JNum z) ->
         z' = z))
  /\ Constants.fieldType SP_FieldType (JNum z)
     = Ok (match named z with Some name => JStr name | None => JUndefined end)
  /\ (forall name, Constants.fieldType SP_FieldType (JStr name) = Ok (SP_FieldType name))
  /\ ((forall (i : nat) name,
         nth_error field_type_names i = Some name ->
         SP_FieldType name = JNum (Z.of_nat i + 1)) ->
      forall name, named z = Some name ->
        Constants.fieldType SP_FieldType (JNum z) = Ok (JStr name)
        /\ Constants.fieldType SP_FieldType (JStr name) = Ok (JNum z)).
Proof.
  assert (Hnum : forall y, Constants.fieldType SP_FieldType (JNum y)
                           = Ok (match named y with
                                 | Some name => JStr name
                                 | None => JUndefined
                                 end)).
  { intros y. unfold Constants.fieldType. simpl. rewrite field_type_name_table.
    reflexivity. }
  split; [split; [|split]|split; [|split]].
  - intros Hz. destruct (named_in_range z Hz) as [name Hname].
    exists name. rewrite Hnum, Hname. reflexivity.
  - intros Hz. rewrite Hnum, (named_out_of_range z Hz). reflexivity.
  - intros z' Hz. rewrite !Hnum.
    destruct (named_in_range z Hz) as [name Hname]. rewrite Hname.
    destruct (named z') as [name'|] eqn:Hname'; [|discriminate].
    intros E. injection E as ->. eapply named_injective; eauto.
  - apply Hnum.
  - intros name. reflexivity.
  - intros Hsp name Hname. rewrite Hnum, Hname. split; [reflexivity|].
    unfold Constants.fieldType. simpl. f_equal.
    unfold named in Hname. destruct (Z.leb_spec 1 z); [|discriminate].
    rewrite (Hsp _ _ Hname). f_equal. lia.
Qed.

Lemma numbered_from_1_table (i : nat) name :
  nth_error field_type_names i = Some name ->
  numbered_from_1 name = JNum (Z.of_nat i + 1).
Proof.
  intros H.
  do 31 (destruct i as [|i]; [injection H as <-; reflexivity|]).
  destruct i; discriminate H.
Qed.

Lemma X17_witness_lookup_is_7 :
  Constants.fieldType numbered_from_1 (JNum 7) = Ok (JStr "lookup")
  /\ Constants.fieldType numbered_from_1 (JStr "lookup") = Ok (JNum 7)
  /\ Constants.fieldType numbered_from_1 (JNum 40) = Ok JUndefined.
Proof.
  destruct (X17_fieldType_names numbered_from_1 7) as [_ [_ [_ Hround]]].
  destruct (Hround numbered_from_1_table "lookup" eq_refl) as [H7 Hlookup].
  split; [exact H7|]. split; [exact Hlookup|].
  destruct (X17_fieldType_names numbered_from_1 40) as [[_ [Hout _]] _].
  apply Hout. lia.
Defined.

(** X18: [numberFormatType] does not look at the letter case of its
    argument. It answers the string 'undefined' (not the value undefined)
    for 'automatic' and for nothing else; for [nodecimal], [onedecimal],
    [twodecimals], [threedecimals], [fourdecimals] and [fivedecimals] it
    answers the number of decimals, 0 to 5 in that order; for any other
    string it answers the value undefined; an argument that is not a
    string is a TypeError. *)
Theorem X18_numberFormatType_answers (s : string) :
  exists r,
    Constants.numberFormatType (JStr s) = Ok r
    /\ Constants.numberFormatType (JStr (lower s)) = Ok r
    /\ (r = JStr "undefined" \/ r = JUndefined \/ exists z, r = JNum z /\ 0 <= z <= 5)
    /\ (r = JStr "undefined" <-> lower s = "automatic")
    /\ (forall v, (forall t, v <> JStr t) ->
          Constants.numberFormatType v = Throw TypeError)
    /\ (forall i : nat, nth_error decimal_formats i = Some (lower s) ->
          r = JNum (Z.of_nat i))
    /\ (lower s <> "automatic" -> ~ In (lower s) decimal_formats -> r = JUndefined).
Proof.
  unfold Constants.numberFormatType. simpl. rewrite lower_idem.
  assert (Hns : forall v, (forall t, v <> JStr t) ->
             (t <- toLowerCase v ;;
              if bool_decide (t = "automatic") then Ok (JStr "undefined")
              else if bool_decide (t = "nodecimal") then Ok (JNum 0)
              else if bool_decide (t = "onedecimal") then Ok (JNum 1)
              else if bool_decide (t = "twodecimals") then Ok (JNum 2)
              else if bool_decide (t = "threedecimals") then Ok (JNum 3)
              else if bool_decide (t = "fourdecimals") then Ok (JNum 4)
              else if bool_decide (t = "fivedecimals") then Ok (JNum 5)
              else Ok JUndefined) = Throw TypeError).
  { intros v Hv. destruct v; try reflexivity. exfalso. apply (Hv s0). reflexivity. }
  repeat case_bool_decide;
    (eexists; split; [reflexivity|]; split; [reflexivity|]; split;
     [first [ left; reflexivity
            | right; left; reflexivity
            | right; right; eexists; split; [reflexivity|lia] ]|];
     split; [split; [first [intros _; assumption|discriminate]
                    |first [intros _; reflexivity|intros; exfalso; congruence]]|];
     split; [exact Hns|]; split;
     [ intros i Hi;
       do 6 (destruct i as [|i];
             [first [reflexivity | exfalso; cbn in Hi; congruence]|]);
       destruct i; discriminate Hi
     | intros Ha Hn;
       first [ reflexivity
             | exfalso; congruence
             | exfalso; apply Hn;
               match goal with H : lower s = _ |- _ => rewrite H end;
               cbn; tauto ] ]).
Qed.

Lemma X18_witness_TwoDecimals :
  Constants.numberFormatType (JStr "TwoDecimals") = Ok (JNum 2)
  /\ Constants.numberFormatType (JNum 2) = Throw TypeError.
Proof.
  destruct (X18_numberFormatType_answers "TwoDecimals")
    as (r & H1 & _ & _ & _ & H5 & Hdec & _).
  rewrite H1, (Hdec 2%nat eq_refl). split; [reflexivity|].
  apply H5. intros t. discriminate.
Defined.

(** ** List details *)

Example parseInt_samples :
  List.map ListDetails.parseInt ["2"; " 12px"; "0x1F"; "-7"; "abc"; ""; "0x"; "08"; "+3.9"]
  = [JNum 2; JNum 12; JNum 31; JNum (-7); JNaN; JNaN; JNaN; JNum 8; JNum 3].
Proof. vm_compute. reflexivity. Qed.

(** Lookups in a map built by successive assignments. *)
Ltac lookup_of_inserts :=
  repeat first [ rewrite lookup_insert_eq
               | rewrite lookup_insert_ne by discriminate
               | rewrite lookup_empty ].

(** A block that assigns to other keys leaves a key as it was. *)
Ltac block_keeps :=
  intros; repeat case_match; lookup_of_inserts; reflexivity.

Lemma text_details_internalName f c :
  ListDetails.text_details f c !! "internalName" = c !! "internalName".
Proof. unfold ListDetails.text_details. block_keeps. Qed.

Lemma choice_details_internalName f c :
  ListDetails.choice_details f c !! "internalName" = c !! "internalName".
Proof. unfold ListDetails.choice_details. block_keeps. Qed.

Lemma note_details_internalName f c :
  ListDetails.note_details f c !! "internalName" = c !! "internalName".
Proof. unfold ListDetails.note_details. block_keeps. Qed.

Lemma number_details_internalName f a c :
  ListDetails.number_details f a c !! "internalName" = c !! "internalName".
Proof. unfold ListDetails.number_details. block_keeps. Qed.

Lemma date_details_internalName f c :
  ListDetails.date_details f c !! "internalName" = c !! "internalName".
Proof. unfold ListDetails.date_details. block_keeps. Qed.

Lemma lookup_details_internalName f c :
  ListDetails.lookup_details f c !! "internalName" = c !! "internalName".
Proof. unfold ListDetails.lookup_details. block_keeps. Qed.

Lemma user_details_internalName f c :
  ListDetails.user_details f c !! "internalName" = c !! "internalName".
Proof. unfold ListDetails.user_details. block_keeps. Qed.

Lemma url_details_internalName f c :
  ListDetails.url_details f c !! "internalName" = c !! "internalName".
Proof. unfold ListDetails.url_details. block_keeps. Qed.

Lemma calculated_details_internalName f a c c' :
  ListDetails.calculated_details f a c = Ok c' ->
  c' !! "internalName" = c !! "internalName".
Proof.
  unfold ListDetails.calculated_details, ListDetails.attribute_value.
  destruct (ListDetails.kind_is (ListDetails.get_fieldTypeKind f) 17);
    [|intros H; injection H as <-; reflexivity].
  destruct (a !! "ResultType") as [rt|]; cbn [bind strict_eq_str]; [|discriminate].
  destruct (bool_decide (rt = "Number")), (bool_decide (rt = "Currency")),
    (a !! "Decimals"), (a !! "Percentage"), (a !! "LCID"); cbn [bind];
    intros H; first [discriminate H | injection H as <-];
    lookup_of_inserts; reflexivity.
Qed.

(** A block leaves the column of a field of another kind as it is. *)
Ltac other_kind Hk Hn :=
  rewrite Hk; cbn [ListDetails.kind_is orb];
  repeat match goal with
         | |- context [?z =? ?n] =>
             let E := fresh in
             destruct (Z.eqb_spec z n) as [E|E]; [exfalso; revert E; intuition congruence|]
         end;
  reflexivity.

Lemma text_details_other f c z :
  ListDetails.get_fieldTypeKind f = JNum z -> z <> 2 ->
  ListDetails.text_details f c = c.
Proof. intros Hk Hn. unfold ListDetails.text_details. other_kind Hk Hn. Qed.

Lemma choice_details_other f c z :
  ListDetails.get_fieldTypeKind f = JNum z -> z <> 6 /\ z <> 15 ->
  ListDetails.choice_details f c = c.
Proof. intros Hk Hn. unfold ListDetails.choice_details. other_kind Hk Hn. Qed.

Lemma note_details_other f c z :
  ListDetails.get_fieldTypeKind f = JNum z -> z <> 3 ->
  ListDetails.note_details f c = c.
Proof. intros Hk Hn. unfold ListDetails.note_details. other_kind Hk Hn. Qed.

Lemma number_details_other f a c z :
  ListDetails.get_fieldTypeKind f = JNum z -> z <> 9 /\ z <> 10 ->
  ListDetails.number_details f a c = c.
Proof. intros Hk Hn. unfold ListDetails.number_details. other_kind Hk Hn. Qed.

Lemma date_details_other f c z :
  ListDetails.get_fieldTypeKind f = JNum z -> z <> 4 ->
  ListDetails.date_details f c = c.
Proof. intros Hk Hn. unfold ListDetails.date_details. other_kind Hk Hn. Qed.

Lemma lookup_details_other f c z :
  ListDetails.get_fieldTypeKind f = JNum z -> z <> 7 ->
  ListDetails.lookup_details f c = c.
Proof. intros Hk Hn. unfold ListDetails.lookup_details. other_kind Hk Hn. Qed.

Lemma user_details_other f c z :
  ListDetails.get_fieldTypeKind f = JNum z -> z <> 20 ->
  ListDetails.user_details f c = c.
Proof. intros Hk Hn. unfold ListDetails.user_details. other_kind Hk Hn. Qed.

Lemma url_details_other f c z :
  ListDetails.get_fieldTypeKind f = JNum z -> z <> 11 ->
  ListDetails.url_details f c = c.
Proof. intros Hk Hn. unfold ListDetails.url_details. other_kind Hk Hn. Qed.

Lemma calculated_details_other f a c z :
  ListDetails.get_fieldTypeKind f = JNum z -> z <> 17 ->
  ListDetails.calculated_details f a c = Ok c.
Proof. intros Hk Hn. unfold ListDetails.calculated_details. other_kind Hk Hn. Qed.

Lemma kind_is_17 f :
  ListDetails.kind_is (ListDetails.get_fieldTypeKind f) 17 = true
  <-> ListDetails.get_fieldTypeKind f = JNum 17.
Proof.
  unfold ListDetails.kind_is. split.
  - destruct (ListDetails.get_fieldTypeKind f); try discriminate.
    intros H. apply Z.eqb_eq in H. subst. reflexivity.
  - intros ->. reflexivity.
Qed.

Lemma calculated_details_throws_iff f a c :
  (exists e, ListDetails.calculated_details f a c = Throw e)
  <-> ListDetails.get_fieldTypeKind f = JNum 17
      /\ (a !! "ResultType" = None
          \/ (a !! "ResultType" = Some "Number"
              /\ (a !! "Decimals" = None \/ a !! "Percentage" = None))
          \/ (a !! "ResultType" = Some "Currency"
              /\ (a !! "Decimals" = None \/ a !! "LCID" = None))).
Proof.
  unfold ListDetails.calculated_details, ListDetails.attribute_value.
  rewrite <- kind_is_17.
  destruct (ListDetails.kind_is (ListDetails.get_fieldTypeKind f) 17).
  2:{ split; [intros [e He]; discriminate He|intros [H _]; discriminate H]. }
  destruct (a !! "ResultType") as [rt|]; cbn [bind strict_eq_str].
  2:{ split; [intros _; split; [reflexivity|left; reflexivity]|intros _; eauto]. }
  destruct (bool_decide (rt = "Number")) eqn:EN;
    [apply bool_decide_eq_true in EN|apply bool_decide_eq_false in EN];
    (destruct (bool_decide (rt = "Currency")) eqn:EC;
     [apply bool_decide_eq_true in EC|apply bool_decide_eq_false in EC]);
    destruct (a !! "Decimals") as [d|], (a !! "Percentage") as [p|],
      (a !! "LCID") as [lc|]; cbn [bind];
    (split;
     [ intros [e He];
       first [ discriminate He
             | split; [reflexivity|left; congruence]
             | split; [reflexivity|right; left; split;
                                   [congruence|first [left; congruence|right; congruence]]]
             | split; [reflexivity|right; right; split;
                                   [congruence|first [left; congruence|right; congruence]]] ]
     | intros [_ H]; first [eexists; reflexivity | exfalso; intuition congruence] ]).
Qed.

Lemma calculated_details_throws f a c e :
  ListDetails.calculated_details f a c = Throw e -> e = TypeError.
Proof.
  unfold ListDetails.calculated_details, ListDetails.attribute_value.
  destruct (ListDetails.kind_is (ListDetails.get_fieldTypeKind f) 17); [|discriminate].
  destruct (a !! "ResultType") as [rt|]; cbn [bind strict_eq_str];
    [|intros H; injection H as <-; reflexivity].
  destruct (bool_decide (rt = "Number")), (bool_decide (rt = "Currency")),
    (a !! "Decimals"), (a !! "Percentage"), (a !! "LCID"); cbn [bind];
    intros H; first [discriminate H | injection H as <-; reflexivity].
Qed.

Lemma column_of_throws f e : ListDetails.column_of f = Throw e -> e = TypeError.
Proof.
  unfold ListDetails.column_of.
  destruct (ListDetails.fieldAttributes f) as [a|]; cbn [bind].
  - apply calculated_details_throws.
  - intros H. injection H as <-. reflexivity.
Qed.

Lemma column_of_throws_iff f :
  (exists e, ListDetails.column_of f = Throw e) <-> lacks_schema_details f.
Proof.
  unfold lacks_schema_details, ListDetails.column_of.
  destruct (ListDetails.fieldAttributes f) as [a|]; cbn [bind].
  - apply calculated_details_throws_iff.
  - split; eauto.
Qed.

Lemma column_of_internalName f c :
  ListDetails.column_of f = Ok c ->
  c !! "internalName" = Some (ListDetails.get_internalName f).
Proof.
  unfold ListDetails.column_of.
  destruct (ListDetails.fieldAttributes f) as [a|]; cbn [bind]; [|discriminate].
  intros H. apply calculated_details_internalName in H.
  rewrite H, url_details_internalName, user_details_internalName,
    lookup_details_internalName, date_details_internalName,
    number_details_internalName, note_details_internalName,
    choice_details_internalName, text_details_internalName.
  unfold ListDetails.general_details. lookup_of_inserts. reflexivity.
Qed.

Lemma columns_of_throws ro fields e :
  ListDetails.columns_of ro fields = Throw e -> e = TypeError.
Proof.
  induction fields as [|f fields IH]; cbn [ListDetails.columns_of]; [discriminate|].
  destruct (ListDetails.kept ro f); [|exact IH].
  destruct (ListDetails.column_of f) as [c|e1] eqn:E1; cbn [bind].
  - destruct (ListDetails.columns_of ro fields) as [cs|e2]; cbn [bind]; [discriminate|].
    intros H. injection H as <-. apply IH. reflexivity.
  - intros H. injection H as <-. eapply column_of_throws; eauto.
Qed.

Lemma columns_of_throws_iff ro fields :
  ListDetails.columns_of ro fields = Throw TypeError
  <-> Exists (fun f => ListDetails.kept ro f = true /\ lacks_schema_details f) fields.
Proof.
  induction fields as [|f fields IH]; cbn [ListDetails.columns_of].
  - split; [discriminate|]. intros H. inversion H.
  - rewrite Exists_cons, <- IH, <- column_of_throws_iff.
    destruct (ListDetails.kept ro f) eqn:Hk.
    + destruct (ListDetails.column_of f) as [c|e] eqn:Hc; cbn [bind].
      * destruct (ListDetails.columns_of ro fields) as [cs|e] eqn:Hcs; cbn [bind].
        -- split; [discriminate|]. intros [[_ [e He]]|H]; discriminate.
        -- rewrite (columns_of_throws ro fields e Hcs). split; [right|]; reflexivity.
      * rewrite (column_of_throws f e Hc). split; [|reflexivity].
        intros _. left. split; [reflexivity|]. eauto.
    + split; [intros H; right; exact H|]. intros [[H _]|H]; [discriminate|exact H].
Qed.

Lemma columns_of_names ro fields cols :
  ListDetails.columns_of ro fields = Ok cols ->
  List.map (fun c : gmap string jsval => c !! "internalName") cols
  = List.map (fun f => Some (ListDetails.get_internalName f))
             (List.filter (ListDetails.kept ro) fields).
Proof.
  revert cols.
  induction fields as [|f fields IH]; cbn [ListDetails.columns_of List.filter];
    intros cols H.
  - injection H as <-. reflexivity.
  - destruct (ListDetails.kept ro f) eqn:Hk; [|apply IH; exact H].
    destruct (ListDetails.column_of f) as [c|] eqn:Hc; cbn [bind] in H; [|discriminate].
    destruct (ListDetails.columns_of ro fields) as [cs|]; cbn [bind] in H; [|discriminate].
    injection H as <-. cbn [List.map].
    rewrite (column_of_internalName f c Hc), (IH cs eq_refl). reflexivity.
Qed.

(** The loop ends normally when every field it keeps has the schema
    details it reads. *)
Lemma columns_of_succeeds ro fields :
  Forall (fun f => ListDetails.kept ro f = true -> ~ lacks_schema_details f) fields ->
  exists cols, ListDetails.columns_of ro fields = Ok cols.
Proof.
  intros Hall.
  destruct (ListDetails.columns_of ro fields) as [cols|e] eqn:E; [eauto|].
  exfalso. rewrite (columns_of_throws ro fields e E) in E.
  apply columns_of_throws_iff, Exists_exists in E as (f & Hin & Hk & Hl).
  rewrite Forall_forall in Hall. exact (Hall f Hin Hk Hl).
Qed.

(** X19: the columns of the details follow the fields of the content
    type, in order, leaving out the field named [ContentType] and, when
    [readOnlyFields] is on, the fields whose read-only flag is [true]; one
    column is built for each field that remains, under its internal name. *)
Theorem X19_columns_are_the_kept_fields
    (readOnlyFields : bool) (fields : list ListDetails.field)
    (cols : list (gmap string jsval)) :
  ListDetails.columns_of readOnlyFields fields = Ok cols ->
  List.map (fun c : gmap string jsval => c !! "internalName") cols
  = List.map (fun f => Some (ListDetails.get_internalName f))
             (List.filter (ListDetails.kept readOnlyFields) fields)
  /\ Forall (fun c : gmap string jsval => c !! "internalName" <> Some (JStr "ContentType"))
            cols
  /\ (readOnlyFields = true ->
      Forall (fun f => ListDetails.get_readOnlyField f <> JBool true)
             (List.filter (ListDetails.kept readOnlyFields) fields)).
Proof.
  intros H. split; [apply columns_of_names; exact H|]. split.
  - apply columns_of_names in H.
    assert (Hcols : Forall (fun o : option jsval => o <> Some (JStr "ContentType"))
              (List.map (fun c : gmap string jsval => c !! "internalName") cols)).
    { rewrite H. apply List.Forall_forall. intros o Ho.
      apply in_map_iff in Ho as (f & <- & Hf).
      apply filter_In in Hf as [_ Hk]. intros E. injection E as E.
      unfold ListDetails.kept in Hk. rewrite E in Hk. cbn in Hk. discriminate. }
    clear H. induction cols as [|c cols IH]; [constructor|].
    cbn [List.map] in Hcols. inversion Hcols; subst.
    constructor; [assumption|apply IH; assumption].
  - intros ->. apply List.Forall_forall. intros f Hf Hro.
    apply filter_In in Hf as [_ Hk].
    unfold ListDetails.kept in Hk. rewrite Hro in Hk.
    cbn [ListDetails.is_true andb negb] in Hk.
    rewrite andb_false_r in Hk. discriminate.
Qed.

Lemma X19_witness_title_and_created :
  exists cols,
    ListDetails.columns_of true
      [sample_field "ContentType" 12 false (Some ∅);
       sample_field "Title" 2 false (Some ∅);
       sample_field "Created" 4 true (Some ∅);
       sample_field "Due" 4 false (Some ∅)] = Ok cols
    /\ List.map (fun c : gmap string jsval => c !! "internalName") cols
       = [Some (JStr "Title"); Some (JStr "Due")].
Proof.
  destruct (columns_of_succeeds true
              [sample_field "ContentType" 12 false (Some ∅);
               sample_field "Title" 2 false (Some ∅);
               sample_field "Created" 4 true (Some ∅);
               sample_field "Due" 4 false (Some ∅)]) as [cols Hcols].
  { repeat (constructor; [intros _ [H _]; discriminate H|]). constructor. }
  exists cols. split; [exact Hcols|].
  apply (X19_columns_are_the_kept_fields true
           [sample_field "ContentType" 12 false (Some ∅);
            sample_field "Title" 2 false (Some ∅);
            sample_field "Created" 4 true (Some ∅);
            sample_field "Due" 4 false (Some ∅)] cols Hcols).
Defined.

(** X20: once both requests of [getListDetails] have resolved, the call
    ends in the success callback unless one of the fields the loop keeps
    lacks schema details the loop reads without a test (no [Field] element,
    or a Calculated field without [ResultType], or without [Decimals],
    [Percentage] or [LCID] for the result types that read them). In that
    case, and in no other, a TypeError escapes the resolve callback and
    neither callback of the caller is called. The settings handed to the
    success callback do not depend on the fields. *)
Theorem X20_details_or_type_error
    (readOnlyFields contentTypeID : jsval) (l : ListDetails.library)
    (fields : list ListDetails.field) :
  let r := ListDetails.getListDetails readOnlyFields
             (ListDetails.ContentTypes contentTypeID) (ListDetails.Loaded l fields) in
  (r = ListDetails.ThrownInCallback TypeError
   <-> Exists (fun f => ListDetails.kept (skips_read_only readOnlyFields) f = true
                        /\ lacks_schema_details f) fields)
  /\ (forall e, r = ListDetails.ThrownInCallback e -> e = TypeError)
  /\ (forall message, r <> ListDetails.onFailureUser message)
  /\ (forall d, r = ListDetails.onSuccessUser d ->
        ListDetails.settings d = ListDetails.settings_of l
        /\ length (ListDetails.columns d)
           = length (List.filter (ListDetails.kept (skips_read_only readOnlyFields)) fields)).
Proof.
  cbv zeta. unfold ListDetails.getListDetails. fold (skips_read_only readOnlyFields).
  pose proof (columns_of_throws_iff (skips_read_only readOnlyFields) fields) as Hiff.
  pose proof (columns_of_throws (skips_read_only readOnlyFields) fields) as Hte.
  pose proof (columns_of_names (skips_read_only readOnlyFields) fields) as Hnames.
  destruct (ListDetails.columns_of (skips_read_only readOnlyFields) fields) as [cols|e].
  - split; [|split; [|split]].
    + rewrite <- Hiff. split; discriminate.
    + discriminate.
    + discriminate.
    + intros d H. injection H as <-. cbn [ListDetails.settings ListDetails.columns].
      split; [reflexivity|].
      specialize (Hnames cols eq_refl).
      apply (f_equal (@length _)) in Hnames.
      rewrite !length_map in Hnames. exact Hnames.
  - rewrite (Hte e eq_refl) in *. split; [|split; [|split]].
    + rewrite <- Hiff. split; reflexivity.
    + intros e' H. injection H as <-. reflexivity.
    + discriminate.
    + discriminate.
Qed.

Lemma X20_witness_calculated_without_result_type :
  ListDetails.getListDetails JUndefined (ListDetails.ContentTypes (JStr "0x01"))
    (ListDetails.Loaded projects_library
       [sample_field "Title" 2 false (Some ∅);
        sample_field "Total" 17 false (Some ∅)])
  = ListDetails.ThrownInCallback TypeError.
Proof.
  destruct (X20_details_or_type_error JUndefined (JStr "0x01") projects_library
              [sample_field "Title" 2 false (Some ∅);
               sample_field "Total" 17 false (Some ∅)]) as [[_ H] _].
  apply H. apply Exists_cons_tl, Exists_cons_hd. split; [reflexivity|].
  split; [reflexivity|]. left. apply lookup_empty.
Defined.

(** X21: for a Number field (kind 9) with a parsed schema, the column
    carries the minimum and maximum of the field, [showAsPercentage] as a
    boolean that is false exactly when the attribute [Percentage] is absent
    or is the text FALSE, and [displayFormat] only when the attribute
    [Decimals] is present, as the integer [parseInt] reads from it; it
    carries no [currencyLocaleId]. *)
Theorem X21_number_field_details
    (f : ListDetails.field) (a : gmap string string) :
  ListDetails.get_fieldTypeKind f = JNum 9 ->
  ListDetails.fieldAttributes f = Some a ->
  exists c,
    ListDetails.column_of f = Ok c
    /\ c !! "minimumValue" = Some (ListDetails.get_minimumValue f)
    /\ c !! "maximumValue" = Some (ListDetails.get_maximumValue f)
    /\ c !! "showAsPercentage" = Some (JBool (shown_as_percentage a))
    /\ c !! "displayFormat" = ListDetails.parseInt <$> (a !! "Decimals")
    /\ c !! "currencyLocaleId" = None
    /\ c !! "fieldType" = Some (JNum 9).
Proof.
  intros Hk Ha.
  unfold ListDetails.column_of. rewrite Ha. cbn [bind].
  rewrite (calculated_details_other f a _ 9 Hk) by lia.
  rewrite (url_details_other f _ 9 Hk), (user_details_other f _ 9 Hk),
    (lookup_details_other f _ 9 Hk), (date_details_other f _ 9 Hk),
    (note_details_other f _ 9 Hk), (choice_details_other f _ 9 Hk),
    (text_details_other f _ 9 Hk) by lia.
  unfold ListDetails.number_details, ListDetails.general_details, shown_as_percentage.
  rewrite Hk. cbn [ListDetails.kind_is Z.eqb Pos.eqb orb].
  destruct (a !! "Percentage") as [p|], (a !! "Decimals") as [d|];
    try destruct (bool_decide (p = "FALSE"));
    eexists; (split; [reflexivity|]); lookup_of_inserts; repeat split; reflexivity.
Qed.

Lemma X21_witness_two_decimals :
  exists c,
    ListDetails.column_of
      (sample_field "Rate" 9 false
         (Some (<["Decimals" := "2"]> (<["Percentage" := "TRUE"]> ∅)))) = Ok c
    /\ c !! "showAsPercentage" = Some (JBool true)
    /\ c !! "displayFormat" = Some (JNum 2).
Proof.
  destruct (X21_number_field_details
              (sample_field "Rate" 9 false
                 (Some (<["Decimals" := "2"]> (<["Percentage" := "TRUE"]> ∅))))
              (<["Decimals" := "2"]> (<["Percentage" := "TRUE"]> ∅))
              eq_refl eq_refl) as (c & Hc & _ & _ & Hp & Hd & _).
  exists c. split; [exact Hc|].
  unfold shown_as_percentage in Hp. revert Hp Hd. lookup_of_inserts.
  intros Hp Hd. split; [exact Hp|exact Hd].
Defined.

(** X22: for a Calculated field (kind 17) whose result type is Number, the
    column carries [displayFormat] and [showAsPercentage] as the texts of
    the attributes [Decimals] and [Percentage], unlike a Number field: the
    decimals are not parsed to an integer, and a percentage attribute FALSE
    is the text FALSE, which a condition reads as true. *)
Theorem X22_calculated_number_details
    (f : ListDetails.field) (a : gmap string string) (d p : string) :
  ListDetails.get_fieldTypeKind f = JNum 17 ->
  ListDetails.fieldAttributes f = Some a ->
  a !! "ResultType" = Some "Number" ->
  a !! "Decimals" = Some d ->
  a !! "Percentage" = Some p ->
  exists c,
    ListDetails.column_of f = Ok c
    /\ c !! "resultType" = Some (JStr "Number")
    /\ c !! "displayFormat" = Some (JStr d)
    /\ c !! "showAsPercentage" = Some (JStr p)
    /\ (ListDetails.truthy (JStr p) = false <-> p = "")
    /\ c !! "currencyLocaleId" = None.
Proof.
  intros Hk Ha Hr Hd Hp.
  unfold ListDetails.column_of. rewrite Ha. cbn [bind].
  rewrite (url_details_other f _ 17 Hk), (user_details_other f _ 17 Hk),
    (lookup_details_other f _ 17 Hk), (date_details_other f _ 17 Hk),
    (number_details_other f a _ 17 Hk), (note_details_other f _ 17 Hk),
    (choice_details_other f _ 17 Hk), (text_details_other f _ 17 Hk)
    by lia.
  unfold ListDetails.calculated_details, ListDetails.attribute_value.
  rewrite Hk, Hr. cbn [bind ListDetails.kind_is Z.eqb Pos.eqb strict_eq_str].
  rewrite (bool_decide_eq_true_2 ("Number" = "Number")) by reflexivity.
  rewrite (bool_decide_eq_false_2 ("Number" = "Currency")) by discriminate.
  rewrite Hd, Hp. cbn [bind].
  eexists. split; [reflexivity|].
  unfold ListDetails.general_details. lookup_of_inserts.
  repeat split; try reflexivity.
  - intros H. apply negb_false_iff, bool_decide_eq_true in H. exact H.
  - intros ->. reflexivity.
Qed.

Lemma X22_witness_percentage_FALSE :
  exists c,
    ListDetails.column_of
      (sample_field "Share" 17 false
         (Some (<["ResultType" := "Number"]>
                (<["Decimals" := "2"]> (<["Percentage" := "FALSE"]> ∅))))) = Ok c
    /\ c !! "displayFormat" = Some (JStr "2")
    /\ c !! "showAsPercentage" = Some (JStr "FALSE").
Proof.
  destruct (X22_calculated_number_details
              (sample_field "Share" 17 false
                 (Some (<["ResultType" := "Number"]>
                        (<["Decimals" := "2"]> (<["Percentage" := "FALSE"]> ∅)))))
              (<["ResultType" := "Number"]>
               (<["Decimals" := "2"]> (<["Percentage" := "FALSE"]> ∅)))
              "2" "FALSE" eq_refl eq_refl
              ltac:(lookup_of_inserts; reflexivity)
              ltac:(lookup_of_inserts; reflexivity)
              ltac:(lookup_of_inserts; reflexivity))
    as (c & Hc & _ & Hd & Hp & _).
  exists c. split; [exact Hc|]. split; [exact Hd|exact Hp].
Defined.
